(** * Pixel Matrix Studio: the bitmap codec and the edit-state engine

    A shallow embedding of the edit-state logic of [src/App.tsx], of the
    canvas callbacks of [src/components/EditorCanvas.tsx] that write to it,
    of the import panel of [src/components/CodeBlock.tsx], and of the codec
    ([utils/bitmapUtils], modelled from the specification). *)

From Stdlib Require Import ZArith List Lia Ascii String Bool.
From stdpp Require Import base list.
Import ListNotations.
Open Scope Z_scope.

(** ** Typed arrays

    A [Uint8Array] is a fixed-length array of bytes; it is modelled as the
    list of its elements, each a [Z] in [0, 256).  Indices are JavaScript
    numbers, here [Z]: reading at an index outside the array yields
    [undefined] ([None]); writing there is silently ignored, and the array
    never grows.  Storing [undefined] into a typed array stores 0. *)

Abbreviation Uint8Array := (list Z).

Module U8.

(** [new Uint8Array(n)]: [n] zero bytes.  (For a negative [n] the
    JavaScript constructor raises a RangeError: the handlers that allocate
    from the canvas dimensions stop there, see [handleSetDimensions] and
    [clearCanvas]; the results below that allocate from a rectangle assume
    its sides are not negative.) *)
Definition make (n : Z) : Uint8Array := replicate (Z.to_nat n) 0.

(** [new Uint8Array(a)]: an independent copy of the elements. *)
Definition copy (a : Uint8Array) : Uint8Array := a.

(** [a.length] *)
Definition length (a : Uint8Array) : Z := Z.of_nat (List.length a).

(** [a[i]] as an r-value *)
Definition get (a : Uint8Array) (i : Z) : option Z :=
  if 0 <=? i then a !! Z.to_nat i else None.

(** [a[i] = v] *)
Definition set (a : Uint8Array) (i : Z) (v : Z) : Uint8Array :=
  if 0 <=? i then <[Z.to_nat i := v]> a else a.

(** The byte stored when the r-value [o] is assigned to an element. *)
Definition toU8 (o : option Z) : Z := default 0 o.

(** JavaScript truthiness of an r-value read from a typed array. *)
Definition truthy (o : option Z) : bool := negb (toU8 o =? 0).

End U8.

(** [for (let i = 0; i < n; i++) acc = body i acc] *)
Definition forZ {A : Type} (n : Z) (body : Z -> A -> A) (init : A) : A :=
  fold_left (fun acc i => body i acc) (seqZ 0 n) init.

(** ** [src/types.ts] *)

Inductive DrawTool := PEN | ERASER | SELECT.
Inductive ByteOrder := MSB_FIRST | LSB_FIRST.
Inductive ScanMode := HORIZONTAL_RASTER | VERTICAL_PAGE.

Module SelectionRect.
Record t := mk { x : Z; y : Z; w : Z; h : Z }.
End SelectionRect.

Module FloatingLayer.
Record t := mk { x : Z; y : Z; w : Z; h : Z; data : Uint8Array }.
End FloatingLayer.

Module ClipboardData.
Record t := mk { width : Z; height : Z; pixels : Uint8Array }.
End ClipboardData.

(** ** [utils/bitmapUtils]: the codec

    The module that [App.tsx] and [CodeBlock.tsx] import [generateCArray]
    and [parseCArray] from is not among the sources; every definition of
    this section follows the specification's section 4.2. *)

Module BitmapUtils.

(** Modelled from the spec: [utils/bitmapUtils] is missing.  Bit order
    within a byte: the [i]-th visited pixel of a group occupies bit [7 - i]
    under MSB_FIRST and bit [i] under LSB_FIRST. *)
Definition bitPos (byteOrder : ByteOrder) (i : Z) : Z :=
  match byteOrder with
  | MSB_FIRST => 7 - i
  | LSB_FIRST => i
  end.

(** Modelled from the spec: [utils/bitmapUtils] is missing.  The pixel a
    group samples at [(x, y)]; pixels beyond [width] and rows beyond
    [height] are treated as 0. *)
Definition pixelAt (pixels : Uint8Array) (width height x y : Z) : bool :=
  (x <? width) && (y <? height) && U8.truthy (U8.get pixels (y * width + x)).

(** Modelled from the spec: [utils/bitmapUtils] is missing.  One byte
    built from the 8 pixels [sample 0 .. sample 7], visited in that order. *)
Definition packByte (byteOrder : ByteOrder) (sample : Z -> bool) : Z :=
  forZ 8 (fun i byte =>
    if sample i then Z.lor byte (Z.shiftl 1 (bitPos byteOrder i)) else byte) 0.

(** Modelled from the spec: [utils/bitmapUtils] is missing.
    [ceil(n / 8)] for a positive [n]. *)
Definition ceilDiv8 (n : Z) : Z := (n + 7) / 8.

(** Modelled from the spec: [utils/bitmapUtils] is missing.  The number of
    outer steps (rows, or pages) and of bytes per outer step (byte-groups
    of a row, or columns of a page) of each scan mode. *)
Definition outerCount (width height : Z) (scanMode : ScanMode) : Z :=
  match scanMode with
  | HORIZONTAL_RASTER => height
  | VERTICAL_PAGE => ceilDiv8 height
  end.

(** Modelled from the spec: [utils/bitmapUtils] is missing.  The number of
    bytes per outer step. *)
Definition innerCount (width height : Z) (scanMode : ScanMode) : Z :=
  match scanMode with
  | HORIZONTAL_RASTER => ceilDiv8 width
  | VERTICAL_PAGE => width
  end.

(** Modelled from the spec: [utils/bitmapUtils] is missing.  The cell
    [(x, y)] that is visited [i]-th by byte [n] of outer step [o]:
    horizontally-consecutive pixels from [x = g*8] in row [y], or
    vertically-consecutive pixels from [y = p*8] in column [x]. *)
Definition cellOf (scanMode : ScanMode) (o n i : Z) : Z * Z :=
  match scanMode with
  | HORIZONTAL_RASTER => (n * 8 + i, o)
  | VERTICAL_PAGE => (n, o * 8 + i)
  end.

(** Modelled from the spec: [utils/bitmapUtils] is missing.  The packed
    byte sequence: one outer step fully emitted before the next. *)
Definition pack (pixels : Uint8Array) (width height : Z)
    (scanMode : ScanMode) (byteOrder : ByteOrder) : list Z :=
  flat_map (fun o =>
    map (fun n =>
      packByte byteOrder (fun i =>
        let '(x, y) := cellOf scanMode o n i in
        pixelAt pixels width height x y))
      (seqZ 0 (innerCount width height scanMode)))
    (seqZ 0 (outerCount width height scanMode)).

(** Modelled from the spec: [utils/bitmapUtils] is missing.  The number of
    bytes implied by [(width, height, scanMode)]. *)
Definition expectedBytes (width height : Z) (scanMode : ScanMode) : Z :=
  match scanMode with
  | HORIZONTAL_RASTER => ceilDiv8 width * height
  | VERTICAL_PAGE => width * ceilDiv8 height
  end.

(** Modelled from the spec: [utils/bitmapUtils] is missing.  Unpacking
    reverses the packing: the bits of each byte are scattered back into a
    zero-filled grid, with the same visiting order and bit order. *)
Definition unpack (bytes : list Z) (width height : Z)
    (scanMode : ScanMode) (byteOrder : ByteOrder) : Uint8Array :=
  let inner := innerCount width height scanMode in
  forZ (outerCount width height scanMode) (fun o pixels =>
    forZ inner (fun n pixels =>
      let byte := U8.toU8 (U8.get bytes (o * inner + n)) in
      forZ 8 (fun i pixels =>
        let '(x, y) := cellOf scanMode o n i in
        if (x <? width) && (y <? height)
        then U8.set pixels (y * width + x)
               (if Z.testbit byte (bitPos byteOrder i) then 1 else 0)
        else pixels) pixels) pixels) (U8.make (width * height)).

(** *** Text rendering *)

(** Modelled from the spec: [utils/bitmapUtils] is missing.  The line
    break between rows of literals. *)
Definition newline : ascii := ascii_of_nat 10.

(** Modelled from the spec: [utils/bitmapUtils] is missing.  One
    hexadecimal digit. *)
Definition hexDigit (n : Z) : ascii :=
  match n with
  | 0 => "0" | 1 => "1" | 2 => "2" | 3 => "3" | 4 => "4" | 5 => "5"
  | 6 => "6" | 7 => "7" | 8 => "8" | 9 => "9" | 10 => "A" | 11 => "B"
  | 12 => "C" | 13 => "D" | 14 => "E" | _ => "F"
  end%char.

(** Modelled from the spec: [utils/bitmapUtils] is missing.  A byte as a
    two-hex-digit literal [0xNN]. *)
Definition hexLiteral (b : Z) : string :=
  String "0" (String "x"
    (String (hexDigit (b / 16)) (String (hexDigit (b mod 16)) EmptyString))).

(** Modelled from the spec: [utils/bitmapUtils] is missing.  The literals,
    comma-separated, wrapped into rows of [perLine] literals; [col] is the
    number of literals already on the current row. *)
Fixpoint textOfFrom (perLine col : nat) (bytes : list Z) : string :=
  match bytes with
  | [] => EmptyString
  | b :: rest =>
      String.append (hexLiteral b)
        match rest with
        | [] => EmptyString
        | _ :: _ =>
            if Nat.eqb (S col) perLine
            then String "," (String newline (textOfFrom perLine 0 rest))
            else String "," (String " " (textOfFrom perLine (S col) rest))
        end
  end.

(** Modelled from the spec: [utils/bitmapUtils] is missing.  The text of a
    byte sequence. *)
Definition textOf (perLine : nat) (bytes : list Z) : string :=
  textOfFrom perLine 0 bytes.

(** Modelled from the spec: [utils/bitmapUtils] is missing.  Export:
    [pack(buffer, scanMode, byteOrder) -> byte sequence -> text]. *)
Definition generateCArray (perLine : nat) (pixels : Uint8Array)
    (width height : Z) (scanMode : ScanMode) (byteOrder : ByteOrder)
  : string :=
  textOf perLine (pack pixels width height scanMode byteOrder).

(** *** Text parsing *)

(** Modelled from the spec: [utils/bitmapUtils] is missing.  Character
    classes of the text parser. *)
Definition isDigit (c : ascii) : bool :=
  let n := nat_of_ascii c in (48 <=? n)%nat && (n <=? 57)%nat.

(** Modelled from the spec: [utils/bitmapUtils] is missing. *)
Definition isLetter (c : ascii) : bool :=
  let n := nat_of_ascii c in
  ((65 <=? n)%nat && (n <=? 90)%nat) || ((97 <=? n)%nat && (n <=? 122)%nat).

(** Modelled from the spec: [utils/bitmapUtils] is missing.  The
    characters a literal or an identifier is made of; everything else
    (braces, brackets, commas, semicolons, white space, ...) is noise that
    separates. *)
Definition isWordChar (c : ascii) : bool :=
  isDigit c || isLetter c || Ascii.eqb c "_".

(** Modelled from the spec: [utils/bitmapUtils] is missing.  The value of
    a character as a digit of a base up to 16. *)
Definition digitVal (c : ascii) : option Z :=
  let n := Z.of_nat (nat_of_ascii c) in
  if (48 <=? n) && (n <=? 57) then Some (n - 48)
  else if (65 <=? n) && (n <=? 70) then Some (n - 55)
  else if (97 <=? n) && (n <=? 102) then Some (n - 87)
  else None.

(** Modelled from the spec: [utils/bitmapUtils] is missing.  Where the
    scan of the text stands: between tokens, inside a numeric literal, or
    inside an identifier. *)
Inductive LexState :=
| Outside
| InLiteral (token : string)
| InIdentifier.

(** Modelled from the spec: [utils/bitmapUtils] is missing.  "Extract every
    hexadecimal or decimal numeric literal token": a token is a maximal run
    of word characters that starts with a decimal digit; runs that start
    with a letter or an underscore, and all punctuation, are noise. *)
Fixpoint tokenizeFrom (st : LexState) (text : string) : list string :=
  match text with
  | EmptyString =>
      match st with
      | InLiteral token => [token]
      | _ => []
      end
  | String c rest =>
      if isWordChar c then
        match st with
        | Outside =>
            if isDigit c
            then tokenizeFrom (InLiteral (String c EmptyString)) rest
            else tokenizeFrom InIdentifier rest
        | InLiteral token =>
            tokenizeFrom (InLiteral (String.append token (String c EmptyString))) rest
        | InIdentifier => tokenizeFrom InIdentifier rest
        end
      else
        match st with
        | InLiteral token => token :: tokenizeFrom Outside rest
        | _ => tokenizeFrom Outside rest
        end
  end.

(** Modelled from the spec: [utils/bitmapUtils] is missing.  The numeric
    literal tokens of a text, in order. *)
Definition tokenize (text : string) : list string :=
  tokenizeFrom Outside text.

(** Modelled from the spec: [utils/bitmapUtils] is missing.  The digits of
    [s] read in base [base], most significant first; [None] when a
    character is not a digit of that base. *)
Fixpoint digitsFrom (base acc : Z) (s : string) : option Z :=
  match s with
  | EmptyString => Some acc
  | String c rest =>
      match digitVal c with
      | Some d =>
          if d <? base then digitsFrom base (acc * base + d) rest else None
      | None => None
      end
  end.

(** Modelled from the spec: [utils/bitmapUtils] is missing.  The integer a
    token denotes: [0x] or [0X] followed by at least one hexadecimal
    digit, or decimal digits only; [None] when it is not parseable. *)
Definition tokenValue (token : string) : option Z :=
  match token with
  | String "0" (String c rest) =>
      if Ascii.eqb c "x" || Ascii.eqb c "X" then
        match rest with
        | EmptyString => None
        | _ => digitsFrom 16 0 rest
        end
      else digitsFrom 10 0 token
  | _ => digitsFrom 10 0 token
  end.

(** Modelled from the spec: [utils/bitmapUtils] is missing.  Coercion to
    an 8-bit value fails if the token is not parseable as an integer or
    its value exceeds [0xFF]. *)
Definition tokenByte (token : string) : option Z :=
  match tokenValue token with
  | Some v => if v <=? 255 then Some v else None
  | None => None
  end.

(** Modelled from the spec: [utils/bitmapUtils] is missing.  Every token
    coerced to a byte, or failure. *)
Fixpoint decodeTokens (tokens : list string) : option (list Z) :=
  match tokens with
  | [] => Some []
  | token :: rest =>
      match tokenByte token, decodeTokens rest with
      | Some b, Some bytes => Some (b :: bytes)
      | _, _ => None
      end
  end.

(** Modelled from the spec: [utils/bitmapUtils] is missing.  Import:
    [parse(text, width, height, scanMode, byteOrder) -> PixelBuffer |
    failure].  It fails when no numeric token is found, when a token does
    not coerce to a byte, and when the number of decoded bytes is not the
    number implied by the configuration. *)
Definition parseCArray (text : string) (width height : Z)
    (scanMode : ScanMode) (byteOrder : ByteOrder) : option Uint8Array :=
  match tokenize text with
  | [] => None
  | tokens =>
      match decodeTokens tokens with
      | None => None
      | Some bytes =>
          if Z.of_nat (List.length bytes) =? expectedBytes width height scanMode
          then Some (unpack bytes width height scanMode byteOrder)
          else None
      end
  end.

(** The PixelBuffer invariants of the specification's data model:
    positive dimensions, [width * height] cells, each cell 0 or 1. *)
Definition validBuffer (pixels : Uint8Array) (width height : Z) : Prop :=
  0 < width /\ 0 < height /\
  U8.length pixels = width * height /\
  Forall (fun c => c = 0 \/ c = 1) pixels.

End BitmapUtils.

(** ** [src/App.tsx]: component state and event handlers *)

Module App.

(** The [useState] cells of the component that the edit engine reads or
    writes (zoom, colour, cursor position and the last image file are
    presentation only). *)
Record State := mkState {
  width : Z;
  height : Z;
  pixels : Uint8Array;
  history : list Uint8Array;
  historyIndex : Z;
  tool : DrawTool;
  scanMode : ScanMode;
  byteOrder : ByteOrder;
  selection : option SelectionRect.t;
  clipboard : option ClipboardData.t;
  floatingLayer : option FloatingLayer.t;
  backgroundSnapshot : option Uint8Array
}.

(** *** State updates

    Inside a handler the state variables are the constants of the render
    the handler was created in: a [setX(v)] call does not change what the
    handler (or a handler it calls) reads afterwards, it queues an update,
    and React applies the queued updates in call order before the next
    render.  A handler is therefore a function from the rendered state
    [s] to the update [Upd] it queues; [dispatch] applies the update to
    the rendered state.  A callback that [useCallback] kept from an
    earlier render queues the update of that render: see [dispatchMemo]. *)

Definition Upd := State -> State.

Definition skip : Upd := fun q => q.
Definition andThen (u1 u2 : Upd) : Upd := fun q => u2 (u1 q).

Declare Scope upd_scope.
Delimit Scope upd_scope with upd.
Notation "u1 ;; u2" := (andThen u1 u2)
  (at level 100, u2 at level 200, right associativity) : upd_scope.
Local Open Scope upd_scope.

Definition dispatch (handler : State -> Upd) (s : State) : State :=
  handler s s.

Definition setWidth (v : Z) : Upd := fun q =>
  mkState v (height q) (pixels q) (history q) (historyIndex q) (tool q)
    (scanMode q) (byteOrder q) (selection q) (clipboard q)
    (floatingLayer q) (backgroundSnapshot q).
Definition setHeight (v : Z) : Upd := fun q =>
  mkState (width q) v (pixels q) (history q) (historyIndex q) (tool q)
    (scanMode q) (byteOrder q) (selection q) (clipboard q)
    (floatingLayer q) (backgroundSnapshot q).
Definition setPixels (v : Uint8Array) : Upd := fun q =>
  mkState (width q) (height q) v (history q) (historyIndex q) (tool q)
    (scanMode q) (byteOrder q) (selection q) (clipboard q)
    (floatingLayer q) (backgroundSnapshot q).
Definition setHistory (v : list Uint8Array) : Upd := fun q =>
  mkState (width q) (height q) (pixels q) v (historyIndex q) (tool q)
    (scanMode q) (byteOrder q) (selection q) (clipboard q)
    (floatingLayer q) (backgroundSnapshot q).
Definition setHistoryIndex (v : Z) : Upd := fun q =>
  mkState (width q) (height q) (pixels q) (history q) v (tool q)
    (scanMode q) (byteOrder q) (selection q) (clipboard q)
    (floatingLayer q) (backgroundSnapshot q).
Definition setTool (v : DrawTool) : Upd := fun q =>
  mkState (width q) (height q) (pixels q) (history q) (historyIndex q) v
    (scanMode q) (byteOrder q) (selection q) (clipboard q)
    (floatingLayer q) (backgroundSnapshot q).
Definition setScanMode (v : ScanMode) : Upd := fun q =>
  mkState (width q) (height q) (pixels q) (history q) (historyIndex q)
    (tool q) v (byteOrder q) (selection q) (clipboard q)
    (floatingLayer q) (backgroundSnapshot q).
Definition setByteOrder (v : ByteOrder) : Upd := fun q =>
  mkState (width q) (height q) (pixels q) (history q) (historyIndex q)
    (tool q) (scanMode q) v (selection q) (clipboard q)
    (floatingLayer q) (backgroundSnapshot q).
Definition setSelection (v : option SelectionRect.t) : Upd := fun q =>
  mkState (width q) (height q) (pixels q) (history q) (historyIndex q)
    (tool q) (scanMode q) (byteOrder q) v (clipboard q)
    (floatingLayer q) (backgroundSnapshot q).
Definition setClipboard (v : option ClipboardData.t) : Upd := fun q =>
  mkState (width q) (height q) (pixels q) (history q) (historyIndex q)
    (tool q) (scanMode q) (byteOrder q) (selection q) v
    (floatingLayer q) (backgroundSnapshot q).
Definition setFloatingLayer (v : option FloatingLayer.t) : Upd := fun q =>
  mkState (width q) (height q) (pixels q) (history q) (historyIndex q)
    (tool q) (scanMode q) (byteOrder q) (selection q) (clipboard q)
    v (backgroundSnapshot q).
Definition setBackgroundSnapshot (v : option Uint8Array) : Upd := fun q =>
  mkState (width q) (height q) (pixels q) (history q) (historyIndex q)
    (tool q) (scanMode q) (byteOrder q) (selection q) (clipboard q)
    (floatingLayer q) v.

(** *** History management *)

(** [l.slice(0, e)]: a negative [e] counts from the end. *)
Definition slice0 {A : Type} (l : list A) (e : Z) : list A :=
  if e <? 0 then take (Z.to_nat (Z.of_nat (List.length l) + e)) l
  else take (Z.to_nat e) l.

(** [l.shift()], for the list that remains *)
Definition shift {A : Type} (l : list A) : list A := drop 1 l.

(** [new Uint8Array(history[i])]; [history[i]] is [undefined] outside the
    array and [new Uint8Array(undefined)] is empty. *)
Definition snapshotAt (h : list Uint8Array) (i : Z) : Uint8Array :=
  U8.copy (default [] (if 0 <=? i then h !! Z.to_nat i else None)).

(** The array [newHistory] that [addToHistory] builds. *)
Definition pushed (h : list Uint8Array) (idx : Z) (newPixels : Uint8Array)
  : list Uint8Array :=
  let newHistory := slice0 h (idx + 1) in
  (* Limit history size to 50 steps to save memory *)
  let newHistory :=
    if 50 <? Z.of_nat (List.length newHistory) then shift newHistory
    else newHistory in
  newHistory ++ [U8.copy newPixels].

Definition addToHistory (s : State) (newPixels : Uint8Array) : Upd :=
  let newHistory := pushed (history s) (historyIndex s) newPixels in
  setHistory newHistory ;;
  setHistoryIndex (Z.of_nat (List.length newHistory) - 1).

Definition updatePixels (s : State) (newPixels : Uint8Array)
    (saveHistory : bool) : Upd :=
  setPixels newPixels ;;
  (if saveHistory then addToHistory s newPixels else skip).

Definition handleStrokeEnd (s : State) : Upd :=
  match floatingLayer s with
  | None => addToHistory s (pixels s)
  | Some _ => skip
  end.

(** *** Floating layer *)

(** The loop shared, verbatim, by [handleCommitFloatingLayer] and
    [generatedCode]: the layer's cells overwrite the cells of [base]
    they land on, cell by cell, when the target is inside the buffer. *)
Definition mergeLayer (fl : FloatingLayer.t) (width height : Z)
    (base : Uint8Array) : Uint8Array :=
  forZ (FloatingLayer.h fl) (fun cy newPixels =>
    forZ (FloatingLayer.w fl) (fun cx newPixels =>
      let targetX := FloatingLayer.x fl + cx in
      let targetY := FloatingLayer.y fl + cy in
      if (0 <=? targetX) && (targetX <? width)
         && (0 <=? targetY) && (targetY <? height)
      then
        let val := U8.get (FloatingLayer.data fl)
                          (cy * FloatingLayer.w fl + cx) in
        U8.set newPixels (targetY * width + targetX) (U8.toU8 val)
      else newPixels) newPixels) base.

Definition handleCommitFloatingLayer (s : State) : Upd :=
  match floatingLayer s with
  | None => skip
  | Some fl =>
      let newPixels :=
        mergeLayer fl (width s) (height s) (U8.copy (pixels s)) in
      updatePixels s newPixels true ;;
      setSelection None ;;
      setFloatingLayer None ;;
      setBackgroundSnapshot None
  end.

Definition handleDiscardFloatingLayer (s : State) : Upd :=
  match floatingLayer s with
  | None => skip
  | Some _ =>
      (match backgroundSnapshot s with
       | Some snap => setPixels snap
       | None => skip
       end) ;;
      setFloatingLayer None ;;
      setBackgroundSnapshot None
  end.

Definition handleUndo (s : State) : Upd :=
  match floatingLayer s with
  | Some _ => handleDiscardFloatingLayer s
  | None =>
      if 0 <? historyIndex s then
        let newIndex := historyIndex s - 1 in
        setHistoryIndex newIndex ;;
        setPixels (snapshotAt (history s) newIndex)
      else skip
  end.

Definition handleRedo (s : State) : Upd :=
  match floatingLayer s with
  | Some _ => skip
  | None =>
      if historyIndex s <? Z.of_nat (List.length (history s)) - 1 then
        let newIndex := historyIndex s + 1 in
        setHistoryIndex newIndex ;;
        setPixels (snapshotAt (history s) newIndex)
      else skip
  end.

(** *** Clipboard *)

(** The copy loop of [handleCopy]. *)
Definition copyRect (sel : SelectionRect.t) (width : Z)
    (pixels : Uint8Array) : Uint8Array :=
  let w := SelectionRect.w sel in
  let h := SelectionRect.h sel in
  forZ h (fun cy clipPixels =>
    forZ w (fun cx clipPixels =>
      let srcIdx :=
        (SelectionRect.y sel + cy) * width + (SelectionRect.x sel + cx) in
      if srcIdx <? U8.length pixels
      then U8.set clipPixels (cy * w + cx) (U8.toU8 (U8.get pixels srcIdx))
      else clipPixels) clipPixels) (U8.make (w * h)).

Definition handleCopy (s : State) : Upd :=
  match selection s with
  | None => skip
  | Some sel =>
      setClipboard (Some (ClipboardData.mk (SelectionRect.w sel)
                            (SelectionRect.h sel)
                            (copyRect sel (width s) (pixels s))))
  end.

(** The zeroing loop of [handleCut] (and of the Delete key). *)
Definition clearRect (sel : SelectionRect.t) (width : Z)
    (pixels : Uint8Array) : Uint8Array :=
  forZ (SelectionRect.h sel) (fun cy newPixels =>
    forZ (SelectionRect.w sel) (fun cx newPixels =>
      let idx :=
        (SelectionRect.y sel + cy) * width + (SelectionRect.x sel + cx) in
      if idx <? U8.length newPixels then U8.set newPixels idx 0
      else newPixels) newPixels) (U8.copy pixels).

Definition handleCut (s : State) : Upd :=
  match selection s with
  | None => skip
  | Some sel =>
      handleCopy s ;;
      updatePixels s (clearRect sel (width s) (pixels s)) true
  end.

Definition handlePaste (s : State) : Upd :=
  match clipboard s with
  | None => skip
  | Some clip =>
      (* If there's already a floating layer, commit it first *)
      (match floatingLayer s with
       | Some _ => handleCommitFloatingLayer s
       | None => skip
       end) ;;
      (* Store current background state in case of Cancel *)
      setBackgroundSnapshot (Some (U8.copy (pixels s))) ;;
      let startX :=
        match selection s with Some sel => SelectionRect.x sel | None => 0 end in
      let startY :=
        match selection s with Some sel => SelectionRect.y sel | None => 0 end in
      setFloatingLayer (Some (FloatingLayer.mk startX startY
                                (ClipboardData.width clip)
                                (ClipboardData.height clip)
                                (U8.copy (ClipboardData.pixels clip)))) ;;
      setTool SELECT
  end.

(** The loop of [handleLiftSelection]: it fills [buffer] and cuts
    [newPixels] in one pass, reading from the rendered [pixels]. *)
Definition liftRect (rect : SelectionRect.t) (width : Z)
    (pixels : Uint8Array) : Uint8Array * Uint8Array :=
  let w := SelectionRect.w rect in
  let h := SelectionRect.h rect in
  forZ h (fun cy st =>
    forZ w (fun cx st =>
      let '(buffer, newPixels) := st in
      let idx :=
        (SelectionRect.y rect + cy) * width + (SelectionRect.x rect + cx) in
      if idx <? U8.length pixels
      then (U8.set buffer (cy * w + cx) (U8.toU8 (U8.get pixels idx)),
            U8.set newPixels idx 0)
      else (buffer, newPixels)) st) (U8.make (w * h), U8.copy pixels).

Definition handleLiftSelection (rect : SelectionRect.t) (s : State) : Upd :=
  (match floatingLayer s with
   | Some _ => handleCommitFloatingLayer s
   | None => skip
   end) ;;
  (* Store background for restore on Esc *)
  setBackgroundSnapshot (Some (U8.copy (pixels s))) ;;
  let '(buffer, newPixels) := liftRect rect (width s) (pixels s) in
  setPixels newPixels ;;
  setFloatingLayer (Some (FloatingLayer.mk (SelectionRect.x rect)
                            (SelectionRect.y rect) (SelectionRect.w rect)
                            (SelectionRect.h rect) buffer)).

Definition handleDeselect (s : State) : Upd :=
  match floatingLayer s with
  | Some _ => handleCommitFloatingLayer s
  | None => setSelection None
  end.

(** *** Whole-canvas operations, dimensions and import *)

(** After a resize that threw, [width * height] can be negative:
    [new Uint8Array(width * height)] then throws here too, with
    [setFloatingLayer(null)] queued. *)
Definition clearCanvas (s : State) : Upd :=
  setFloatingLayer None ;;
  if width s * height s <? 0 then skip
  else updatePixels s (U8.make (width s * height s)) true.

Definition invertCanvas (s : State) : Upd :=
  let next :=
    forZ (U8.length (pixels s)) (fun i next =>
      U8.set next i (if U8.truthy (U8.get (pixels s) i) then 0 else 1))
      (U8.make (U8.length (pixels s))) in
  updatePixels s next true.

(** [handleSetDimensions] when no image file is remembered: the part that
    runs in the handler, and the [setTimeout] callback that runs later.
    [new Uint8Array(w * h)] throws a RangeError when the product is
    negative: the handler stops there, with [setWidth] and [setHeight]
    queued and nothing else, and the timeout is not scheduled. *)
Definition handleSetDimensions (w h : Z) (s : State) : Upd :=
  setWidth w ;;
  setHeight h ;;
  if w * h <? 0 then skip
  else
    (updatePixels s (U8.make (w * h)) true ;;
     setHistory [] ;;
     setHistoryIndex (-1)).

(** [handleSetDimensions] when an image file is remembered: the pixels
    are left to the decoding, which continues in [imageLoaded].  The
    buffer [newP] is allocated before the branch, so the RangeError is
    the same. *)
Definition handleSetDimensionsWithImage (w h : Z) (s : State) : Upd :=
  setWidth w ;;
  setHeight h ;;
  if w * h <? 0 then skip
  else
    (setHistory [] ;;
     setHistoryIndex (-1)).

(** The [setTimeout] callback of [handleSetDimensions]; it is scheduled
    after the allocation, so never for a negative product. *)
Definition dimensionsTimeout (w h : Z) (s : State) : Upd :=
  if w * h <? 0 then skip
  else
    (setHistory [U8.make (w * h)] ;;
     setHistoryIndex 0).

(** The continuation of [processImageFile(...)] in [handleImportImage] and
    [handleSetDimensions]: it runs [updatePixels] of the render [s0] that
    started the decoding, whatever the state has become. *)
Definition imageLoaded (s0 : State) (newPixels : Uint8Array) (s : State)
  : Upd :=
  updatePixels s0 newPixels true.

Definition handleImportCode (importedPixels : Uint8Array) (w h : Z)
    (sm : ScanMode) (bo : ByteOrder) (s : State) : Upd :=
  setWidth w ;;
  setHeight h ;;
  setScanMode sm ;;
  setByteOrder bo ;;
  setHistory [importedPixels] ;;
  setHistoryIndex 0 ;;
  setPixels importedPixels.

(** The mount effect that seeds the history. *)
Definition mountEffect (s : State) : Upd :=
  if Z.of_nat (List.length (history s)) =? 0 then
    setHistory [U8.make (128 * 64)] ;; setHistoryIndex 0
  else skip.

(** *** Keyboard shortcuts *)

Definition keyEnter (s : State) : Upd :=
  match floatingLayer s with
  | Some _ => handleCommitFloatingLayer s
  | None => skip
  end.

Definition keyEscape (s : State) : Upd :=
  match floatingLayer s, selection s with
  | Some _, _ => handleDiscardFloatingLayer s
  | None, Some _ => setSelection None
  | None, None => skip
  end.

Definition keyCopy (s : State) : Upd :=
  match selection s, floatingLayer s with
  | Some _, None => handleCopy s
  | _, _ => skip
  end.

Definition keyCut (s : State) : Upd :=
  match selection s, floatingLayer s with
  | Some _, None => handleCut s
  | _, _ => skip
  end.

Definition keyDelete (s : State) : Upd :=
  match floatingLayer s, selection s with
  | Some _, _ => handleDiscardFloatingLayer s
  | None, Some sel =>
      updatePixels s (clearRect sel (width s) (pixels s)) true
  | None, None => skip
  end.

(** *** [src/components/EditorCanvas.tsx]: the callbacks that write state *)

(** Floating-layer drag in [handleDraw]. *)
Definition dragLayer (newX newY : Z) (s : State) : Upd :=
  match floatingLayer s with
  | Some fl =>
      setFloatingLayer (Some (FloatingLayer.mk newX newY
                                (FloatingLayer.w fl) (FloatingLayer.h fl)
                                (FloatingLayer.data fl)))
  | None => skip
  end.

(** Selection drag in [handleDraw], from [selectionStart] to the cursor,
    with the selection tool. *)
Definition dragSelection (startX startY x y : Z) (s : State) : Upd :=
  match tool s with
  | SELECT =>
      let minX := Z.max 0 (Z.min startX x) in
      let minY := Z.max 0 (Z.min startY y) in
      let maxX := Z.min (width s) (Z.max startX x + 1) in
      let maxY := Z.min (height s) (Z.max startY y + 1) in
      setSelection
        (Some (SelectionRect.mk minX minY (maxX - minX) (maxY - minY)))
  | _ => skip
  end.

(** Pen and eraser in [handleDraw]; with the selection tool nothing is
    drawn. *)
Definition drawAt (x y : Z) (shiftKey : bool) (s : State) : Upd :=
  match tool s with
  | SELECT => skip
  | t =>
      if (0 <=? x) && (x <? width s) && (0 <=? y) && (y <? height s) then
        let idx := y * width s + x in
        let shouldErase :=
          match t with ERASER => true | _ => shiftKey end in
        let targetVal := if shouldErase then 0 else 1 in
        if negb (bool_decide (U8.get (pixels s) idx = Some targetVal)) then
          updatePixels s (U8.set (U8.copy (pixels s)) idx targetVal) false
        else skip
      else skip
  end.

(** [onMouseDown] at cell [(x, y)]: with a floating layer nothing is
    selected, lifted or drawn; a shift-press inside the selection lifts
    it; any other press starts a new selection or a stroke. *)
Definition mouseDown (x y : Z) (shiftKey : bool) (s : State) : Upd :=
  match floatingLayer s with
  | Some _ => skip
  | None =>
      match tool s, selection s with
      | SELECT, Some sel =>
          if shiftKey
             && (SelectionRect.x sel <=? x)
             && (x <? SelectionRect.x sel + SelectionRect.w sel)
             && (SelectionRect.y sel <=? y)
             && (y <? SelectionRect.y sel + SelectionRect.h sel)
          then handleLiftSelection sel s
          else setSelection None
      | SELECT, None => setSelection None
      | _, Some _ => setSelection None ;; drawAt x y shiftKey s
      | _, None => drawAt x y shiftKey s
      end
  end.

(** The text shown in the code panel: the floating layer, if any, is
    merged into the exported pixels. *)
Definition exportPixels (s : State) : Uint8Array :=
  match floatingLayer s with
  | Some fl => mergeLayer fl (width s) (height s) (U8.copy (pixels s))
  | None => pixels s
  end.

Definition generatedCode (perLine : nat) (s : State) : string :=
  BitmapUtils.generateCArray perLine (exportPixels s) (width s) (height s)
    (scanMode s) (byteOrder s).

(** *** Events and reachable states *)

Inductive Event :=
| EvMount
| EvMouseDown (x y : Z) (shiftKey : bool)
| EvDraw (x y : Z) (shiftKey : bool)
| EvStrokeEnd
| EvDragSelection (startX startY x y : Z)
| EvDragLayer (newX newY : Z)
| EvUndo
| EvRedo
| EvCopy
| EvCut
| EvPaste
| EvDeselect
| EvKeyEnter
| EvKeyEscape
| EvKeyCopy
| EvKeyCut
| EvKeyDelete
| EvClear
| EvInvert
| EvSetTool (t : DrawTool)
| EvSetScanMode (sm : ScanMode)
| EvSetByteOrder (bo : ByteOrder)
| EvSetPixels (p : Uint8Array)
| EvSetDimensions (w h : Z)
| EvSetDimensionsWithImage (w h : Z)
| EvDimensionsTimeout (w h : Z)
| EvImportCode (p : Uint8Array) (w h : Z) (sm : ScanMode) (bo : ByteOrder).

Definition handler (e : Event) : State -> Upd :=
  match e with
  | EvMount => mountEffect
  | EvMouseDown x y shiftKey => mouseDown x y shiftKey
  | EvDraw x y shiftKey => drawAt x y shiftKey
  | EvStrokeEnd => handleStrokeEnd
  | EvDragSelection startX startY x y => dragSelection startX startY x y
  | EvDragLayer newX newY => dragLayer newX newY
  | EvUndo => handleUndo
  | EvRedo => handleRedo
  | EvCopy => handleCopy
  | EvCut => handleCut
  | EvPaste => handlePaste
  | EvDeselect => handleDeselect
  | EvKeyEnter => keyEnter
  | EvKeyEscape => keyEscape
  | EvKeyCopy => keyCopy
  | EvKeyCut => keyCut
  | EvKeyDelete => keyDelete
  | EvClear => clearCanvas
  | EvInvert => invertCanvas
  | EvSetTool t => fun _ => setTool t
  | EvSetScanMode sm => fun _ => setScanMode sm
  | EvSetByteOrder bo => fun _ => setByteOrder bo
  | EvSetPixels p => fun s => updatePixels s p true
  | EvSetDimensions w h => handleSetDimensions w h
  | EvSetDimensionsWithImage w h => handleSetDimensionsWithImage w h
  | EvDimensionsTimeout w h => dimensionsTimeout w h
  | EvImportCode p w h sm bo => handleImportCode p w h sm bo
  end.

Definition step (s : State) (e : Event) : State := dispatch (handler e) s.

(** The first render. *)
Definition initial : State :=
  mkState 128 64 (U8.make (128 * 64)) [] (-1) PEN VERTICAL_PAGE MSB_FIRST
    None None None None.

(** *** Memoised callbacks

    [handleCommitFloatingLayer], [handleCut] and [handlePaste] are built
    with [useCallback], and their dependency arrays leave out part of what
    they read: the [history] and [historyIndex] that they reach through
    [updatePixels] and [addToHistory], and, for [handlePaste], what the
    [handleCommitFloatingLayer] it calls reads.  React rebuilds such a
    callback only in a render where a listed dependency changed, so the
    callback that runs in the render [s] belongs to an earlier render
    [built] that agrees with [s] on the listed dependencies: it queues the
    update [handler built], and the update applies to [s].  The other
    callbacks list all they read, and the plain functions are rebuilt in
    every render: for them [built] is [s], which is [dispatch]. *)

Definition dispatchMemo (handler : State -> Upd) (built s : State) : State :=
  handler built s.

(** [[floatingLayer, pixels, width, height]], the dependencies of
    [handleCommitFloatingLayer]. *)
Definition commitDeps (built s : State) : Prop :=
  floatingLayer built = floatingLayer s /\ pixels built = pixels s
  /\ width built = width s /\ height built = height s.

(** [[selection, pixels, width, handleCopy]], the dependencies of
    [handleCut]; [handleCopy] has [[selection, pixels, width]]. *)
Definition cutDeps (built s : State) : Prop :=
  selection built = selection s /\ pixels built = pixels s
  /\ width built = width s.

(** [[clipboard, selection, pixels, floatingLayer]], the dependencies of
    [handlePaste]. *)
Definition pasteDeps (built s : State) : Prop :=
  clipboard built = clipboard s /\ selection built = selection s
  /\ pixels built = pixels s /\ floatingLayer built = floatingLayer s.

(** [handlePaste] of the render [s], calling the
    [handleCommitFloatingLayer] of the render [built]. *)
Definition handlePasteWith (built s : State) : Upd :=
  match clipboard s with
  | None => skip
  | Some clip =>
      (match floatingLayer s with
       | Some _ => handleCommitFloatingLayer built
       | None => skip
       end) ;;
      setBackgroundSnapshot (Some (U8.copy (pixels s))) ;;
      let startX :=
        match selection s with Some sel => SelectionRect.x sel | None => 0 end in
      let startY :=
        match selection s with Some sel => SelectionRect.y sel | None => 0 end in
      setFloatingLayer (Some (FloatingLayer.mk startX startY
                                (ClipboardData.width clip)
                                (ClipboardData.height clip)
                                (U8.copy (ClipboardData.pixels clip)))) ;;
      setTool SELECT
  end.

(** The states the component can be rendered in.  An event handler that
    was rebuilt in the current render runs on it ([reachable_step]); the
    continuation of an image decoding runs the [updatePixels] of the earlier
    render [s0] that started it; a memoised callback that was not rebuilt
    runs as the earlier render [built] made it, and that render agrees with
    the current one on the callback's dependencies.
    For [handlePaste], [built] is the render of the commit it captured:
    the paste's own render lies between [built] and [s] and agrees with [s]
    on all that the paste itself reads. *)
Inductive reachable : State -> Prop :=
| reachable_initial : reachable initial
| reachable_step s e : reachable s -> reachable (step s e)
| reachable_async s0 s newPixels :
    reachable s0 -> reachable s ->
    reachable (imageLoaded s0 newPixels s s)
| reachable_commit built s :
    reachable built -> reachable s -> commitDeps built s ->
    reachable (dispatchMemo handleCommitFloatingLayer built s)
| reachable_cut built s :
    reachable built -> reachable s -> cutDeps built s ->
    reachable (dispatchMemo handleCut built s)
| reachable_paste built s :
    reachable built -> reachable s ->
    floatingLayer built = floatingLayer s -> pixels built = pixels s ->
    reachable (handlePasteWith built s s).

(** *** Scenarios *)

(** Pushing the snapshots [snaps], one completed edit after the other. *)
Definition pushAll (snaps : list Uint8Array) (s : State) : State :=
  fold_left (fun s p => dispatch (fun s => addToHistory s p) s) snaps s.

(** A state whose history was reset to the single entry [p0], as
    [handleImportCode] leaves it. *)
Definition freshHistory (w h : Z) (p0 : Uint8Array) : State :=
  mkState w h p0 [p0] 0 PEN VERTICAL_PAGE MSB_FIRST None None None None.

(** The state after the events [events], from the first render. *)
Definition run (events : list Event) : State := fold_left step events initial.

(** A session that ends with a floating layer and a filled clipboard: on a
    2x1 canvas the pen sets cell (0,0), the cell is selected and copied,
    shift-drag lifts it and moves the layer to (1,0). *)
Definition liftedAndMoved : list Event :=
  [EvMount; EvSetDimensions 2 1; EvDimensionsTimeout 2 1;
   EvMouseDown 0 0 false; EvStrokeEnd; EvSetTool SELECT;
   EvDragSelection 0 0 0 0; EvCopy; EvMouseDown 0 0 true; EvDragLayer 1 0].

(** A session that leaves the selection outside the buffer: columns 5 to 7
    of row 0 are selected on an 8x2 canvas, the canvas is resized to 4x2
    (the selection is kept) and inverted. *)
Definition selectedThenResized : list Event :=
  [EvMount; EvSetDimensions 8 2; EvDimensionsTimeout 8 2;
   EvSetTool SELECT; EvDragSelection 5 0 7 0;
   EvSetDimensions 4 2; EvDimensionsTimeout 4 2; EvInvert].

(** The mounted editor, resized to a single cell, after [n] pen strokes
    (a press on the cell and the end of the stroke). *)
Definition afterStrokes (n : nat) : State :=
  Nat.iter n (fun s => step (step s (EvMouseDown 0 0 false)) EvStrokeEnd)
    (run [EvMount; EvSetDimensions 1 1; EvDimensionsTimeout 1 1]).

End App.

(** ** [src/components/CodeBlock.tsx]: the import panel *)

Module CodeBlock.

Record State := mkState {
  isEditing : bool;
  editCode : string;
  impWidth : Z;
  impHeight : Z;
  impScanMode : ScanMode;
  impByteOrder : ByteOrder;
  previewPixels : option Uint8Array
}.

(** The text of the panel is held as its UTF-8 bytes.  [trim] strips the
    white space and the line terminators of ECMAScript: U+0009 to U+000D and
    U+0020, which are single bytes, and U+00A0, U+1680, U+2000 to U+200A,
    U+2028, U+2029, U+202F, U+205F, U+3000 and U+FEFF, which are the two-
    and three-byte sequences of [isSpace2] and [isSpace3]. *)
Definition isSpace (c : ascii) : bool :=
  let n := nat_of_ascii c in
  ((9 <=? n)%nat && (n <=? 13)%nat) || (n =? 32)%nat.

Definition isSpace2 (c1 c2 : ascii) : bool :=
  (nat_of_ascii c1 =? 194)%nat && (nat_of_ascii c2 =? 160)%nat.

Definition isSpace3 (c1 c2 c3 : ascii) : bool :=
  let n1 := nat_of_ascii c1 in
  let n2 := nat_of_ascii c2 in
  let n3 := nat_of_ascii c3 in
  ((n1 =? 225) && (n2 =? 154) && (n3 =? 128))%nat
  || ((n1 =? 226) && (n2 =? 128)
      && (((128 <=? n3) && (n3 <=? 138))
          || (n3 =? 168) || (n3 =? 169) || (n3 =? 175)))%nat
  || ((n1 =? 226) && (n2 =? 129) && (n3 =? 159))%nat
  || ((n1 =? 227) && (n2 =? 128) && (n3 =? 128))%nat
  || ((n1 =? 239) && (n2 =? 187) && (n3 =? 191))%nat.

(** [!text.trim()]: nothing but white space. *)
Fixpoint isBlank (text : string) : bool :=
  match text with
  | EmptyString => true
  | String c1 rest1 =>
      if isSpace c1 then isBlank rest1
      else
        match rest1 with
        | EmptyString => false
        | String c2 rest2 =>
            if isSpace2 c1 c2 then isBlank rest2
            else
              match rest2 with
              | EmptyString => false
              | String c3 rest3 =>
                  if isSpace3 c1 c2 c3 then isBlank rest3 else false
              end
        end
  end.

Definition setPreviewPixels (v : option Uint8Array) (cb : State) : State :=
  mkState (isEditing cb) (editCode cb) (impWidth cb) (impHeight cb)
    (impScanMode cb) (impByteOrder cb) v.

Definition setIsEditing (v : bool) (cb : State) : State :=
  mkState v (editCode cb) (impWidth cb) (impHeight cb)
    (impScanMode cb) (impByteOrder cb) (previewPixels cb).

(** What the panel and its parent hold, and whether an alert was shown. *)
Record Outcome := mkOutcome {
  app : App.State;
  panel : State;
  alerted : bool
}.

Definition handlePreview (a : App.State) (cb : State) : Outcome :=
  if isBlank (editCode cb) then mkOutcome a cb false
  else
    match BitmapUtils.parseCArray (editCode cb) (impWidth cb) (impHeight cb)
            (impScanMode cb) (impByteOrder cb) with
    | Some pixels => mkOutcome a (setPreviewPixels (Some pixels) cb) false
    | None => mkOutcome a cb true
    end.

Definition handleApplyImport (a : App.State) (cb : State) : Outcome :=
  match previewPixels cb with
  | None => handlePreview a cb
  | Some pixels =>
      mkOutcome
        (App.dispatch (App.handleImportCode pixels (impWidth cb)
                         (impHeight cb) (impScanMode cb) (impByteOrder cb)) a)
        (setIsEditing false cb) false
  end.

End CodeBlock.

(** ** Loops as sequences of writes

    Every pixel loop of the program runs over a rectangle of counters and
    performs at most one guarded array write per iteration.  [applyWrites]
    is such a loop over an explicit list of iterations; [lastWrite] is the
    value the last write to index [k] stored, if any iteration wrote there. *)

Definition applyWrite (a : Uint8Array) (wr : option (Z * Z)) : Uint8Array :=
  match wr with
  | Some (i, v) => U8.set a i v
  | None => a
  end.

Definition applyWrites {X : Type} (wr : X -> option (Z * Z)) (L : list X)
    (init : Uint8Array) : Uint8Array :=
  fold_left (fun acc e => applyWrite acc (wr e)) L init.

Definition lastWrite {X : Type} (wr : X -> option (Z * Z)) (L : list X)
    (k : Z) : option Z :=
  fold_left (fun o e =>
    match wr e with
    | Some (i, v) => if i =? k then Some v else o
    | None => o
    end) L None.

(** The iterations of [for i < n] around a loop over [L], in order. *)
Definition nest {X : Type} (n : Z) (L : list X) : list (Z * X) :=
  flat_map (fun i => map (pair i) L) (seqZ 0 n).

(** ** Vocabulary of the proofs *)

Import App BitmapUtils.
Local Open Scope upd_scope.

Definition snapshotHeld (s : State) : Prop :=
  is_Some (floatingLayer s) -> is_Some (backgroundSnapshot s).

Ltac unfold_handlers :=
  unfold step, dispatch, handler, imageLoaded, mountEffect, mouseDown, drawAt,
    handleStrokeEnd, dragSelection, dragLayer, handleUndo, handleRedo,
    handleCopy, handleCut, handlePaste, handleDeselect, keyEnter, keyEscape,
    keyCopy, keyCut, keyDelete, clearCanvas, invertCanvas,
    handleSetDimensions, handleSetDimensionsWithImage, dimensionsTimeout,
    handleImportCode,
    handleLiftSelection, handleCommitFloatingLayer,
    handleDiscardFloatingLayer, updatePixels, addToHistory, andThen, skip in *.

Ltac memo_cases :=
  unfold dispatchMemo, handlePasteWith, handleCut, handleCopy,
    handleCommitFloatingLayer, updatePixels, addToHistory, andThen, skip;
  repeat match goal with
  | |- context [match ?x with _ => _ end] =>
      match type of x with
      | option _ => destruct x eqn:?
      end
  end;
  cbn [width height pixels history historyIndex tool scanMode byteOrder
       selection clipboard floatingLayer backgroundSnapshot
       setWidth setHeight setPixels setHistory setHistoryIndex setTool
       setScanMode setByteOrder setSelection setClipboard setFloatingLayer
       setBackgroundSnapshot].

Ltac split_matches :=
  repeat match goal with
  | |- context [match ?x with _ => _ end] =>
      match type of x with
      | option _ => destruct x eqn:?
      | bool => destruct x eqn:?
      | DrawTool => destruct x eqn:?
      | prod _ _ => destruct x eqn:?
      end
  end.

(** The write of iteration [(cy, cx)] of the merge loop. *)
Definition mergeWrite (fl : FloatingLayer.t) (width height : Z)
    (e : Z * Z) : option (Z * Z) :=
  let '(cy, cx) := e in
  let targetX := FloatingLayer.x fl + cx in
  let targetY := FloatingLayer.y fl + cy in
  if (0 <=? targetX) && (targetX <? width)
     && (0 <=? targetY) && (targetY <? height)
  then Some (targetY * width + targetX,
             U8.toU8 (U8.get (FloatingLayer.data fl)
                        (cy * FloatingLayer.w fl + cx)))
  else None.

Ltac bool_to_prop :=
  repeat match goal with
  | H : _ && _ = true |- _ => apply andb_prop in H; destruct H
  | H : (_ <=? _) = true |- _ => apply Z.leb_le in H
  | H : (_ <? _) = true |- _ => apply Z.ltb_lt in H
  | H : (_ <=? _) = false |- _ => apply Z.leb_gt in H
  | H : (_ <? _) = false |- _ => apply Z.ltb_ge in H
  | H : _ && _ = false |- _ => apply andb_false_iff in H; destruct H
  end.

(** The writes of iteration [(cy, cx)] of the lift loop, to the layer's
    buffer and to the background. *)
Definition liftBufferWrite (rect : SelectionRect.t) (width : Z)
    (pixels : Uint8Array) (e : Z * Z) : option (Z * Z) :=
  let '(cy, cx) := e in
  let idx :=
    (SelectionRect.y rect + cy) * width + (SelectionRect.x rect + cx) in
  if idx <? U8.length pixels
  then Some (cy * SelectionRect.w rect + cx, U8.toU8 (U8.get pixels idx))
  else None.

Definition liftCutWrite (rect : SelectionRect.t) (width : Z)
    (pixels : Uint8Array) (e : Z * Z) : option (Z * Z) :=
  let '(cy, cx) := e in
  let idx :=
    (SelectionRect.y rect + cy) * width + (SelectionRect.x rect + cx) in
  if idx <? U8.length pixels then Some (idx, 0) else None.

Ltac guard_true H :=
  match type of H with
  | context [if ?c then _ else _] => destruct c eqn:?; [|discriminate H]
  end.

(** [packByte] as a function of the eight sampled pixels. *)
Definition byteOfBits (byteOrder : ByteOrder)
    (b0 b1 b2 b3 b4 b5 b6 b7 : bool) : Z :=
  packByte byteOrder (fun i =>
    match i with
    | 0 => b0 | 1 => b1 | 2 => b2 | 3 => b3
    | 4 => b4 | 5 => b5 | 6 => b6 | _ => b7
    end).

(** The write of iteration [(o, (n, i))] of the unpacking loops. *)
Definition unpackWrite (bytes : list Z) (width height : Z)
    (scanMode : ScanMode) (byteOrder : ByteOrder) (e : Z * (Z * Z))
  : option (Z * Z) :=
  let '(o, (n, i)) := e in
  let byte :=
    U8.toU8 (U8.get bytes (o * innerCount width height scanMode + n)) in
  let '(x, y) := cellOf scanMode o n i in
  if (x <? width) && (y <? height)
  then Some (y * width + x,
             if Z.testbit byte (bitPos byteOrder i) then 1 else 0)
  else None.

(** The iteration that visits cell [(x, y)]. *)
Definition locate (scanMode : ScanMode) (x y : Z) : Z * (Z * Z) :=
  match scanMode with
  | HORIZONTAL_RASTER => (y, (x / 8, x mod 8))
  | VERTICAL_PAGE => (y / 8, (x, y mod 8))
  end.

(** ** More of the components *)

(** The array [next] that [invertCanvas] builds from the rendered pixels. *)
Definition invertPixels (pixels : Uint8Array) : Uint8Array :=
  forZ (U8.length pixels) (fun i next =>
    U8.set next i (if U8.truthy (U8.get pixels i) then 0 else 1))
    (U8.make (U8.length pixels)).

(** The props [App] hands to the control panel: [canUndo], [canRedo],
    [hasSelection] and [hasClipboard] enable or disable its buttons. *)
Definition canUndo (s : State) : bool :=
  (0 <? historyIndex s) || bool_decide (is_Some (floatingLayer s)).

Definition canRedo (s : State) : bool :=
  (historyIndex s <? Z.of_nat (List.length (history s)) - 1)
  && negb (bool_decide (is_Some (floatingLayer s))).

Definition hasSelection (s : State) : bool :=
  bool_decide (is_Some (selection s))
  || bool_decide (is_Some (floatingLayer s)).

Definition hasClipboard (s : State) : bool :=
  bool_decide (is_Some (clipboard s)).

(** The history index points at an entry, or the history is empty (between
    [handleSetDimensions] and its timeout, and before the mount effect). *)
Definition historyIndexValid (s : State) : Prop :=
  (history s = [] /\ historyIndex s = -1)
  \/ 0 <= historyIndex s < Z.of_nat (List.length (history s)).

(** The zoom of the import preview in [CodeBlock.tsx]:
    [Math.max(1, Math.min(Math.floor(containerW / impWidth),
    Math.floor(containerH / impHeight), 6))] with a 200 by 140 container;
    for positive integer dimensions the floored quotients are [Z]'s. *)
Definition previewScale (impWidth impHeight : Z) : Z :=
  Z.max 1 (Z.min (200 / impWidth) (Z.min (140 / impHeight) 6)).

(** A cell is 0 or 1. *)
Definition binaryCells (pixels : Uint8Array) : Prop :=
  Forall (fun c => c = 0 \/ c = 1) pixels.

(** The rectangle lies inside a [width] by [height] buffer. *)
Definition rectInside (rect : SelectionRect.t) (width height : Z) : Prop :=
  0 <= SelectionRect.x rect /\ 0 <= SelectionRect.y rect /\
  0 <= SelectionRect.w rect /\ 0 <= SelectionRect.h rect /\
  SelectionRect.x rect + SelectionRect.w rect <= width /\
  SelectionRect.y rect + SelectionRect.h rect <= height.

(** Cell [(tx, ty)] lies in the [w] by [h] box whose corner is [(x, y)]. *)
Definition inBox (x y w h tx ty : Z) : bool :=
  (x <=? tx) && (tx <? x + w) && (y <=? ty) && (ty <? y + h).

(** The floating layer and the clipboard carry as many cells as their
    width and height say. *)
Definition patchesSized (s : State) : Prop :=
  (forall fl, floatingLayer s = Some fl ->
     U8.length (FloatingLayer.data fl) =
     Z.max 0 (FloatingLayer.w fl * FloatingLayer.h fl))
  /\ (forall clip, clipboard s = Some clip ->
        U8.length (ClipboardData.pixels clip) =
        Z.max 0 (ClipboardData.width clip * ClipboardData.height clip)).

(** The pen or eraser draws of one stroke, in order: cell and shift key. *)
Definition drawAll (draws : list (Z * Z * bool)) (s : State) : State :=
  fold_left (fun s d => dispatch (drawAt (fst (fst d)) (snd (fst d)) (snd d)) s)
    draws s.

(** * Properties *)

(** ** Counting loops *)

Lemma forZ_nonpos {A : Type} (n : Z) (body : Z -> A -> A) (init : A) :
  n <= 0 -> forZ n body init = init.
Proof.
  intros Hn. unfold forZ, seqZ.
  replace (Z.to_nat n) with O by lia. reflexivity.
Qed.

Lemma forZ_succ {A : Type} (n : Z) (body : Z -> A -> A) (init : A) :
  0 <= n -> forZ (n + 1) body init = body n (forZ n body init).
Proof.
  intros Hn. unfold forZ.
  rewrite seqZ_app by lia. rewrite fold_left_app.
  rewrite seqZ_cons by lia. replace (Z.pred 1) with 0 by lia.
  replace (seqZ (Z.succ (0 + n)) 0) with (@nil Z) by reflexivity.
  simpl. f_equal.
Qed.

Lemma forZ_ext {A : Type} (n : Z) (body1 body2 : Z -> A -> A) (init : A) :
  (forall i acc, 0 <= i < n -> body1 i acc = body2 i acc) ->
  forZ n body1 init = forZ n body2 init.
Proof.
  intros Hext. destruct (Z_le_gt_dec n 0) as [Hn | Hn].
  - now rewrite !forZ_nonpos.
  - revert Hext. pattern n. apply Zlt_lower_bound_ind with (z := 0); [|lia].
    clear n Hn. intros n IH Hn Hext.
    destruct (Z.eq_dec n 0) as [-> | Hne]; [reflexivity|].
    replace n with ((n - 1) + 1) by lia.
    rewrite !forZ_succ by lia.
    rewrite IH by (try lia; intros; apply Hext; lia).
    apply Hext. lia.
Qed.

(** A loop invariant rule for [forZ]. *)
Lemma forZ_invariant {A : Type} (P : Z -> A -> Prop) (n : Z)
    (body : Z -> A -> A) (init : A) :
  0 <= n -> P 0 init ->
  (forall i acc, 0 <= i < n -> P i acc -> P (i + 1) (body i acc)) ->
  P n (forZ n body init).
Proof.
  intros Hn H0 Hstep.
  assert (forall k, 0 <= k <= n -> P k (forZ k body init)) as H.
  { intros k Hk. destruct Hk as [Hk0 Hkn]. revert Hkn. pattern k.
    apply natlike_ind; [| |exact Hk0].
    - intros _. now rewrite forZ_nonpos.
    - intros x Hx IH Hle. unfold Z.succ. rewrite forZ_succ by lia.
      apply Hstep; [lia|]. apply IH. lia. }
  apply H. lia.
Qed.

(** ** Typed-array reads and writes *)

Lemma U8_length_set (a : Uint8Array) (i v : Z) :
  U8.length (U8.set a i v) = U8.length a.
Proof.
  unfold U8.length, U8.set. destruct (0 <=? i); [|reflexivity].
  now rewrite length_insert.
Qed.

Lemma U8_length_make (n : Z) : 0 <= n -> U8.length (U8.make n) = n.
Proof.
  intros Hn. unfold U8.length, U8.make. rewrite length_replicate. lia.
Qed.

Lemma U8_get_set_eq (a : Uint8Array) (i v : Z) :
  0 <= i < U8.length a -> U8.get (U8.set a i v) i = Some v.
Proof.
  unfold U8.length, U8.get, U8.set. intros Hi.
  destruct (Z.leb_spec 0 i); [|lia].
  apply list_lookup_insert_eq. lia.
Qed.

Lemma U8_get_set_ne (a : Uint8Array) (i j v : Z) :
  i <> j -> U8.get (U8.set a i v) j = U8.get a j.
Proof.
  unfold U8.get, U8.set. intros Hne.
  destruct (Z.leb_spec 0 i); [|reflexivity].
  destruct (Z.leb_spec 0 j); [|reflexivity].
  apply list_lookup_insert_ne. lia.
Qed.

Lemma U8_get_make (n i : Z) :
  0 <= i < n -> U8.get (U8.make n) i = Some 0.
Proof.
  unfold U8.get, U8.make. intros Hi.
  destruct (Z.leb_spec 0 i); [|lia].
  apply lookup_replicate. split; [reflexivity|lia].
Qed.

Lemma U8_toU8_Some (v : Z) : U8.toU8 (Some v) = v.
Proof. reflexivity. Qed.

Lemma U8_get_Some (a : Uint8Array) (i : Z) :
  0 <= i < U8.length a -> exists v, U8.get a i = Some v.
Proof.
  unfold U8.get, U8.length. intros Hi.
  destruct (Z.leb_spec 0 i); [|lia].
  apply lookup_lt_is_Some_2. lia.
Qed.

(** Two arrays with the same length and the same reads are equal. *)
Lemma U8_ext (a b : Uint8Array) :
  U8.length a = U8.length b ->
  (forall k, 0 <= k < U8.length a -> U8.get a k = U8.get b k) ->
  a = b.
Proof.
  unfold U8.length, U8.get. intros Hlen Hget. apply list_eq. intros i.
  destruct (decide (i < List.length a)%nat) as [Hi | Hi].
  - specialize (Hget (Z.of_nat i)).
    destruct (Z.leb_spec 0 (Z.of_nat i)); [|lia].
    rewrite Nat2Z.id in Hget. apply Hget. lia.
  - rewrite !lookup_ge_None_2; [reflexivity|lia|lia].
Qed.

(** ** Sequences of writes *)

Section Writes.

Context {X : Type} (wr : X -> option (Z * Z)).

Lemma applyWrites_snoc (L : list X) (e : X) (init : Uint8Array) :
  applyWrites wr (L ++ [e]) init = applyWrite (applyWrites wr L init) (wr e).
Proof. unfold applyWrites. now rewrite fold_left_app. Qed.

Lemma applyWrites_app (L1 L2 : list X) (init : Uint8Array) :
  applyWrites wr (L1 ++ L2) init = applyWrites wr L2 (applyWrites wr L1 init).
Proof. unfold applyWrites. now rewrite fold_left_app. Qed.

Lemma applyWrites_length (L : list X) (init : Uint8Array) :
  U8.length (applyWrites wr L init) = U8.length init.
Proof.
  induction L as [|e L IH] using rev_ind; [reflexivity|].
  rewrite applyWrites_snoc. unfold applyWrite.
  destruct (wr e) as [[i v]|]; [|exact IH].
  now rewrite U8_length_set.
Qed.

Lemma lastWrite_snoc (L : list X) (e : X) (k : Z) :
  lastWrite wr (L ++ [e]) k =
  match wr e with
  | Some (i, v) => if i =? k then Some v else lastWrite wr L k
  | None => lastWrite wr L k
  end.
Proof. unfold lastWrite. now rewrite fold_left_app. Qed.

(** What a read finds after the loop. *)
Lemma applyWrites_get (L : list X) (init : Uint8Array) (k : Z) :
  0 <= k < U8.length init ->
  U8.get (applyWrites wr L init) k =
  match lastWrite wr L k with
  | Some v => Some v
  | None => U8.get init k
  end.
Proof.
  intros Hk. induction L as [|e L IH] using rev_ind; [reflexivity|].
  rewrite applyWrites_snoc, lastWrite_snoc. unfold applyWrite.
  destruct (wr e) as [[i v]|]; [|exact IH].
  destruct (Z.eqb_spec i k) as [-> | Hne].
  - apply U8_get_set_eq. now rewrite applyWrites_length.
  - now rewrite U8_get_set_ne.
Qed.

Lemma lastWrite_Some_inv (L : list X) (k v : Z) :
  lastWrite wr L k = Some v -> exists e, In e L /\ wr e = Some (k, v).
Proof.
  induction L as [|e L IH] using rev_ind; [discriminate|].
  rewrite lastWrite_snoc. intros H.
  assert (lastWrite wr L k = Some v -> exists e0, In e0 (L ++ [e]) /\ wr e0 = Some (k, v)) as Hold.
  { intros H'. destruct (IH H') as (e0 & Hin & He0). exists e0. split; [|exact He0].
    apply in_or_app. now left. }
  destruct (wr e) as [[i v']|] eqn:He; [|now apply Hold].
  destruct (Z.eqb_spec i k) as [-> | Hne]; [|now apply Hold].
  exists e. split; [apply in_or_app; right; now left|]. congruence.
Qed.

Lemma lastWrite_None_inv (L : list X) (k : Z) :
  lastWrite wr L k = None -> forall e v, In e L -> wr e <> Some (k, v).
Proof.
  induction L as [|e L IH] using rev_ind; [intros _ e v []|].
  rewrite lastWrite_snoc. intros H e0 v Hin He0.
  apply in_app_or in Hin. destruct Hin as [Hin | [<- | []]].
  - destruct (wr e) as [[i v']|]; [|now apply (IH H e0 v)].
    destruct (i =? k); [discriminate|now apply (IH H e0 v)].
  - rewrite He0 in H. rewrite Z.eqb_refl in H. discriminate.
Qed.

(** A cell that one iteration writes, when all iterations that write it
    store the same value, holds that value. *)
Lemma applyWrites_written (L : list X) (init : Uint8Array) (k v : Z) (e : X) :
  0 <= k < U8.length init ->
  In e L -> wr e = Some (k, v) ->
  (forall e' v', In e' L -> wr e' = Some (k, v') -> v' = v) ->
  U8.get (applyWrites wr L init) k = Some v.
Proof.
  intros Hk Hin He Hsame. rewrite applyWrites_get by exact Hk.
  destruct (lastWrite wr L k) as [v'|] eqn:Hlast.
  - destruct (lastWrite_Some_inv _ _ _ Hlast) as (e' & Hin' & He').
    now rewrite (Hsame e' v' Hin' He').
  - exfalso. exact (lastWrite_None_inv _ _ Hlast e v Hin He).
Qed.

(** A cell that no iteration writes keeps its value. *)
Lemma applyWrites_untouched (L : list X) (init : Uint8Array) (k : Z) :
  (forall e v, In e L -> wr e <> Some (k, v)) ->
  U8.get (applyWrites wr L init) k = U8.get init k.
Proof.
  intros Hno. induction L as [|e L IH] using rev_ind; [reflexivity|].
  rewrite applyWrites_snoc. unfold applyWrite.
  assert (forall e0 v, In e0 L -> wr e0 <> Some (k, v)) as Hno'.
  { intros e0 v Hin. apply Hno. apply in_or_app. now left. }
  destruct (wr e) as [[i v]|] eqn:He; [|now apply IH].
  rewrite U8_get_set_ne; [now apply IH|].
  intros ->. apply (Hno e v); [apply in_or_app; right; now left|exact He].
Qed.

End Writes.

(** Nested counting loops are loops over the nested iterations. *)
Lemma forZ_applyWrites {X : Type} (wr : Z * X -> option (Z * Z)) (n : Z)
    (L : list X) (init : Uint8Array) :
  forZ n (fun i acc => applyWrites (fun e => wr (i, e)) L acc) init =
  applyWrites wr (nest n L) init.
Proof.
  destruct (Z_le_gt_dec n 0) as [Hn | Hn].
  - rewrite forZ_nonpos by exact Hn. unfold nest, seqZ.
    replace (Z.to_nat n) with O by lia. reflexivity.
  - unfold forZ, nest. generalize (seqZ 0 n). clear Hn.
    intros l. revert init. induction l as [|i l IH]; intros init; [reflexivity|].
    simpl. rewrite applyWrites_app, IH. f_equal.
    unfold applyWrites. generalize init. clear.
    induction L as [|e L IH]; intros init; [reflexivity|]. simpl. apply IH.
Qed.

Lemma in_seqZ (n i : Z) : In i (seqZ 0 n) <-> 0 <= i < n.
Proof. rewrite <- list_elem_of_In, elem_of_seqZ. lia. Qed.

Lemma in_nest {X : Type} (n : Z) (L : list X) (i : Z) (e : X) :
  In (i, e) (nest n L) <-> 0 <= i < n /\ In e L.
Proof.
  unfold nest. rewrite in_flat_map. split.
  - intros (j & Hj & Hin). apply in_map_iff in Hin.
    destruct Hin as (e' & Heq & He'). inversion Heq; subst.
    split; [now apply in_seqZ|exact He'].
  - intros [Hi He]. exists i. split; [now apply in_seqZ|].
    apply in_map_iff. now exists e.
Qed.

(** ** Edit history *)

Lemma slice0_take {A : Type} (l : list A) (e : Z) :
  0 <= e -> slice0 l e = take (Z.to_nat e) l.
Proof. intros He. unfold slice0. destruct (Z.ltb_spec e 0); [lia|reflexivity]. Qed.

Lemma pushed_last (h : list Uint8Array) (idx : Z) (p : Uint8Array) :
  last (pushed h idx p) = Some p.
Proof. unfold pushed. apply last_snoc. Qed.

Lemma pushed_length_pos (h : list Uint8Array) (idx : Z) (p : Uint8Array) :
  (0 < List.length (pushed h idx p))%nat.
Proof. unfold pushed. rewrite length_app. simpl. lia. Qed.

(** The bound the eviction test actually maintains. *)
Lemma pushed_length_le (h : list Uint8Array) (idx : Z) (p : Uint8Array) :
  (List.length h <= 51)%nat -> (List.length (pushed h idx p) <= 51)%nat.
Proof.
  intros Hh. unfold pushed, shift, slice0.
  rewrite length_app. simpl.
  destruct (idx + 1 <? 0);
    match goal with
    | |- context [50 <? Z.of_nat (List.length (take ?n h))] =>
        pose proof (length_take h n) as Ht;
        destruct (Z.ltb_spec 50 (Z.of_nat (List.length (take n h))))
    end; rewrite ?length_drop; lia.
Qed.

Lemma reachable_run (events : list Event) : reachable (run events).
Proof.
  unfold run. induction events as [|e events IH] using rev_ind.
  - apply reachable_initial.
  - rewrite fold_left_app. apply (reachable_step _ e IH).
Qed.

Lemma reachable_afterStrokes (n : nat) : reachable (afterStrokes n).
Proof.
  induction n as [|n IH].
  - apply reachable_run.
  - exact (reachable_step _ EvStrokeEnd
             (reachable_step (afterStrokes n) (EvMouseDown 0 0 false) IH)).
Qed.

Lemma history_length_step (s : State) (e : Event) :
  (List.length (history s) <= 51)%nat ->
  (List.length (history (step s e)) <= 51)%nat.
Proof.
  intros Hs.
  destruct e; do 3 unfold_handlers; split_matches;
    cbn [history setWidth setHeight setPixels setHistory setHistoryIndex
         setTool setScanMode setByteOrder setSelection setClipboard
         setFloatingLayer setBackgroundSnapshot];
    first [ exact Hs | apply pushed_length_le; exact Hs | simpl; lia ].
Qed.

(** The bound that holds of every reachable state is 51. *)
Lemma history_length_reachable (s : State) :
  reachable s -> (List.length (history s) <= 51)%nat.
Proof.
  induction 1 as [|s e _ IH|s0 s p _ IH0 _ _
                  |built s _ IHb _ IH _|built s _ IHb _ IH _
                  |built s _ IHb _ IH _ _].
  - simpl. lia.
  - now apply history_length_step.
  - unfold imageLoaded, updatePixels, addToHistory, andThen.
    cbn [history setPixels setHistory setHistoryIndex].
    now apply pushed_length_le.
  - memo_cases; first [exact IH | now apply pushed_length_le].
  - memo_cases; first [exact IH | now apply pushed_length_le].
  - memo_cases; first [exact IH | now apply pushed_length_le].
Qed.

(** C2 (the code departs from the claim): the test [newHistory.length > 50]
    runs before the new snapshot is appended, so a history of 50 entries
    grows to 51.  After 51 pushes onto a fresh single-entry history the
    history holds 51 snapshots (the oldest one evicted), and the editor
    reaches a 51-entry history after 50 strokes. *)
Theorem C2_history_reaches_51_snapshots :
  let s := pushAll (map (fun k => [k]) (seqZ 1 51)) (freshHistory 1 1 [0]) in
  List.length (history s) = 51%nat
  /\ historyIndex s = 50
  /\ history s !! 0%nat = Some [1]
  /\ reachable (afterStrokes 50)
  /\ List.length (history (afterStrokes 50)) = 51%nat.
Proof.
  cbv zeta.
  do 3 (split; [vm_compute; reflexivity|]).
  split; [apply reachable_afterStrokes|].
  vm_compute; reflexivity.
Qed.

(** C8: [addToHistory] keeps the entries up to the current index
    ([history.slice(0, historyIndex + 1)], less the oldest one on
    overflow), appends the snapshot and moves the index to the new last
    entry; after it, also when it follows an undo, redo does nothing. *)
Theorem C8_push_discards_redo_entries (s : State) (snapshot : Uint8Array) :
  let push := dispatch (fun s => addToHistory s snapshot) in
  let kept := slice0 (history s) (historyIndex s + 1) in
  history (push s) =
    (if 50 <? Z.of_nat (List.length kept) then drop 1 kept else kept)
      ++ [U8.copy snapshot]
  /\ (-1 <= historyIndex s ->
      kept = take (Z.to_nat (historyIndex s + 1)) (history s))
  /\ historyIndex (push s) = Z.of_nat (List.length (history (push s))) - 1
  /\ (forall i : nat, historyIndex (push s) < Z.of_nat i ->
        history (push s) !! i = None)
  /\ dispatch handleRedo (push s) = push s
  /\ dispatch handleRedo (push (dispatch handleUndo s)) =
       push (dispatch handleUndo s).
Proof.
  assert (forall s0, dispatch handleRedo
            (dispatch (fun s => addToHistory s snapshot) s0) =
            dispatch (fun s => addToHistory s snapshot) s0) as Hredo.
  { intros s0. unfold dispatch at 1. unfold handleRedo.
    destruct (floatingLayer _); [reflexivity|].
    unfold dispatch, addToHistory, andThen. cbn [historyIndex history setHistoryIndex setHistory].
    destruct (Z.ltb_spec
      (Z.of_nat (List.length (pushed (history s0) (historyIndex s0) snapshot)) - 1)
      (Z.of_nat (List.length (pushed (history s0) (historyIndex s0) snapshot)) - 1));
      [lia|reflexivity]. }
  cbv zeta. repeat split.
  - intros Hidx. apply slice0_take. lia.
  - intros i Hi. apply lookup_ge_None_2.
    unfold dispatch, addToHistory, andThen in *.
    cbn [historyIndex history setHistoryIndex setHistory] in *. lia.
  - apply Hredo.
  - apply Hredo.
Qed.

Lemma C8_push_discards_redo_entries_witness :
  slice0 [[0]; [1]; [2]] (0 + 1) = take (Z.to_nat (0 + 1)) [[0]; [1]; [2]].
Proof.
  exact (proj1 (proj2 (C8_push_discards_redo_entries
           (mkState 1 1 [0] [[0]; [1]; [2]] 0 PEN VERTICAL_PAGE MSB_FIRST
              None None None None) [7])) ltac:(simpl; lia)).
Defined.

(** C7: while a floating layer exists, undo is the discard of the layer
    (the snapshot comes back, the layer and the snapshot are cleared, the
    history and its index stay) and redo changes nothing. *)
Theorem C7_undo_redo_while_floating (s : State) (fl : FloatingLayer.t) :
  floatingLayer s = Some fl ->
  dispatch handleUndo s = dispatch handleDiscardFloatingLayer s
  /\ pixels (dispatch handleUndo s) = default (pixels s) (backgroundSnapshot s)
  /\ floatingLayer (dispatch handleUndo s) = None
  /\ backgroundSnapshot (dispatch handleUndo s) = None
  /\ history (dispatch handleUndo s) = history s
  /\ historyIndex (dispatch handleUndo s) = historyIndex s
  /\ dispatch handleRedo s = s.
Proof.
  intros Hfl. unfold dispatch, handleUndo, handleRedo, handleDiscardFloatingLayer.
  rewrite Hfl. destruct (backgroundSnapshot s); repeat split; reflexivity.
Qed.

(** ** The floating layer and its background snapshot *)

Lemma snapshotHeld_step (s : State) (e : Event) :
  snapshotHeld s -> snapshotHeld (step s e).
Proof.
  unfold snapshotHeld. intros Hs.
  destruct e; do 3 unfold_handlers; split_matches;
    cbn [floatingLayer backgroundSnapshot setWidth setHeight setPixels
         setHistory setHistoryIndex setTool setScanMode setByteOrder
         setSelection setClipboard setFloatingLayer setBackgroundSnapshot];
    intros Hfl;
    try match goal with
        | H : floatingLayer _ = _ |- _ => rewrite ?H in *
        end;
    first [ exact (Hs Hfl)
          | destruct Hfl; discriminate
          | eexists; reflexivity
          | apply Hs; eexists; eassumption
          | apply Hs; eexists; reflexivity ].
Qed.

Lemma snapshotHeld_reachable (s : State) : reachable s -> snapshotHeld s.
Proof.
  induction 1 as [|s e _ IH|s0 s p _ _ _ IH
                  |built s _ _ _ IH _|built s _ _ _ IH _
                  |built s _ _ _ IH _ _].
  - intros [? [=]].
  - now apply snapshotHeld_step.
  - exact IH.
  - unfold snapshotHeld in *. memo_cases;
      first [exact IH | intros _; eexists; reflexivity | intros [? [=]]].
  - unfold snapshotHeld in *. memo_cases;
      first [exact IH | intros _; eexists; reflexivity | intros [? [=]]].
  - unfold snapshotHeld in *. memo_cases;
      first [exact IH | intros _; eexists; reflexivity | intros [? [=]]].
Qed.


(** C10: in every reachable state a floating layer comes with a background
    snapshot.  Lift and paste store the rendered pixels as the snapshot
    together with the new layer, dragging the layer keeps the snapshot, the
    pixels and the history, commit and discard clear the layer and the
    snapshot together, and discard finds a snapshot to restore. *)
Theorem C10_floating_layer_has_snapshot (s : State) :
  reachable s ->
  (is_Some (floatingLayer s) -> is_Some (backgroundSnapshot s))
  /\ (forall rect,
        let s' := dispatch (handleLiftSelection rect) s in
        is_Some (floatingLayer s') /\
        backgroundSnapshot s' = Some (pixels s))
  /\ (is_Some (clipboard s) ->
        let s' := dispatch handlePaste s in
        is_Some (floatingLayer s') /\
        backgroundSnapshot s' = Some (pixels s))
  /\ (forall newX newY,
        let s' := dispatch (dragLayer newX newY) s in
        backgroundSnapshot s' = backgroundSnapshot s /\
        pixels s' = pixels s /\ history s' = history s /\
        (is_Some (floatingLayer s') <-> is_Some (floatingLayer s)))
  /\ (is_Some (floatingLayer s) ->
        let s' := dispatch handleCommitFloatingLayer s in
        floatingLayer s' = None /\ backgroundSnapshot s' = None)
  /\ (is_Some (floatingLayer s) ->
        let s' := dispatch handleDiscardFloatingLayer s in
        floatingLayer s' = None /\ backgroundSnapshot s' = None /\
        exists snap, backgroundSnapshot s = Some snap /\ pixels s' = snap).
Proof.
  intros Hreach. pose proof (snapshotHeld_reachable s Hreach) as Hheld.
  split; [exact Hheld|]. split; [|split; [|split; [|split]]].
  - intros rect. unfold dispatch, handleLiftSelection, andThen.
    destruct (liftRect rect (width s) (pixels s)) as [buffer newPixels].
    split; [eexists; reflexivity|reflexivity].
  - intros [clip Hclip]. unfold dispatch, handlePaste, andThen.
    rewrite Hclip. split; [eexists; reflexivity|reflexivity].
  - intros newX newY. unfold dispatch, dragLayer.
    destruct (floatingLayer s) as [fl|] eqn:Hfl; unfold skip; cbn;
      rewrite ?Hfl; repeat split; auto;
      try (intros _; eexists; reflexivity).
  - intros [fl Hfl]. unfold dispatch, handleCommitFloatingLayer, andThen.
    rewrite Hfl. split; reflexivity.
  - intros Hsome. destruct (Hheld Hsome) as [snap Hsnap].
    destruct Hsome as [fl Hfl].
    unfold dispatch, handleDiscardFloatingLayer, andThen.
    rewrite Hfl, Hsnap. repeat split. exists snap. split; reflexivity.
Qed.

Lemma C10_floating_layer_has_snapshot_witness :
  is_Some (floatingLayer (run liftedAndMoved)) /\
  is_Some (backgroundSnapshot (run liftedAndMoved)).
Proof.
  assert (is_Some (floatingLayer (run liftedAndMoved))) as Hfl.
  { vm_compute. eexists. reflexivity. }
  split; [exact Hfl|].
  exact (proj1 (C10_floating_layer_has_snapshot (run liftedAndMoved)
                  (reachable_run liftedAndMoved)) Hfl).
Defined.

Lemma C7_undo_redo_while_floating_witness :
  dispatch handleRedo (run liftedAndMoved) = run liftedAndMoved.
Proof.
  refine (proj2 (proj2 (proj2 (proj2 (proj2 (proj2
    (C7_undo_redo_while_floating (run liftedAndMoved)
       (FloatingLayer.mk 1 0 1 1 [1]) _))))))).
  vm_compute. reflexivity.
Defined.

(** ** Cells and flat indices *)

(** Row-major indices of in-bounds cells are in range and determine the
    cell. *)
Lemma cell_index_range (width height tx ty : Z) :
  0 <= tx < width -> 0 <= ty < height ->
  0 <= ty * width + tx < width * height.
Proof. intros Hx Hy. nia. Qed.

Lemma cell_index_inj (width tx ty tx' ty' : Z) :
  0 <= tx < width -> 0 <= tx' < width ->
  ty * width + tx = ty' * width + tx' -> tx = tx' /\ ty = ty'.
Proof.
  intros Hx Hx' Heq.
  assert (ty = ty') as -> by nia. split; lia.
Qed.

(** ** Commit: the merge loop *)

Lemma mergeLayer_writes (fl : FloatingLayer.t) (width height : Z)
    (base : Uint8Array) :
  mergeLayer fl width height base =
  applyWrites (mergeWrite fl width height)
    (nest (FloatingLayer.h fl) (seqZ 0 (FloatingLayer.w fl))) base.
Proof.
  rewrite <- forZ_applyWrites. unfold mergeLayer.
  apply forZ_ext. intros cy acc _.
  apply forZ_ext. intros cx acc' _.
  unfold mergeWrite, applyWrite.
  now destruct ((0 <=? FloatingLayer.x fl + cx)
                && (FloatingLayer.x fl + cx <? width)
                && (0 <=? FloatingLayer.y fl + cy)
                && (FloatingLayer.y fl + cy <? height)).
Qed.

Lemma mergeLayer_length (fl : FloatingLayer.t) (width height : Z)
    (base : Uint8Array) :
  U8.length (mergeLayer fl width height base) = U8.length base.
Proof. rewrite mergeLayer_writes. apply applyWrites_length. Qed.

(** The merged buffer, cell by cell: an in-bounds cell under the layer
    takes the layer's value, every other cell keeps its own. *)
Lemma mergeLayer_get (fl : FloatingLayer.t) (width height : Z)
    (base : Uint8Array) (tx ty : Z) :
  U8.length base = width * height ->
  0 <= tx < width -> 0 <= ty < height ->
  U8.get (mergeLayer fl width height base) (ty * width + tx) =
  let cx := tx - FloatingLayer.x fl in
  let cy := ty - FloatingLayer.y fl in
  if (0 <=? cx) && (cx <? FloatingLayer.w fl)
     && (0 <=? cy) && (cy <? FloatingLayer.h fl)
  then Some (U8.toU8 (U8.get (FloatingLayer.data fl)
                        (cy * FloatingLayer.w fl + cx)))
  else U8.get base (ty * width + tx).
Proof.
  intros Hlen Hx Hy. cbv zeta. rewrite mergeLayer_writes.
  pose proof (cell_index_range width height tx ty Hx Hy) as Hrange.
  destruct ((0 <=? tx - FloatingLayer.x fl)
            && (tx - FloatingLayer.x fl <? FloatingLayer.w fl)
            && (0 <=? ty - FloatingLayer.y fl)
            && (ty - FloatingLayer.y fl <? FloatingLayer.h fl)) eqn:Hbox.
  - bool_to_prop.
    apply applyWrites_written
      with (e := (ty - FloatingLayer.y fl, tx - FloatingLayer.x fl)).
    + now rewrite Hlen.
    + apply in_nest. split; [lia|]. apply in_seqZ. lia.
    + unfold mergeWrite.
      replace (FloatingLayer.x fl + (tx - FloatingLayer.x fl)) with tx by lia.
      replace (FloatingLayer.y fl + (ty - FloatingLayer.y fl)) with ty by lia.
      destruct (Z.leb_spec 0 tx); [|lia]. destruct (Z.ltb_spec tx width); [|lia].
      destruct (Z.leb_spec 0 ty); [|lia]. destruct (Z.ltb_spec ty height); [|lia].
      reflexivity.
    + intros [cy' cx'] v' _ Hwr. unfold mergeWrite in Hwr.
      destruct ((0 <=? FloatingLayer.x fl + cx')
                && (FloatingLayer.x fl + cx' <? width)
                && (0 <=? FloatingLayer.y fl + cy')
                && (FloatingLayer.y fl + cy' <? height)) eqn:Hg; [|discriminate].
      bool_to_prop. injection Hwr as Hidx Hv.
      apply cell_index_inj in Hidx; [|lia|lia]. destruct Hidx as [Hx' Hy'].
      replace cx' with (tx - FloatingLayer.x fl) in Hv by lia.
      replace cy' with (ty - FloatingLayer.y fl) in Hv by lia.
      now symmetry.
  - apply applyWrites_untouched. intros [cy' cx'] v Hin Hwr.
    apply in_nest in Hin. destruct Hin as [Hcy Hcx]. apply in_seqZ in Hcx.
    unfold mergeWrite in Hwr.
    destruct ((0 <=? FloatingLayer.x fl + cx')
              && (FloatingLayer.x fl + cx' <? width)
              && (0 <=? FloatingLayer.y fl + cy')
              && (FloatingLayer.y fl + cy' <? height)) eqn:Hg; [|discriminate].
    injection Hwr as Hidx _.
    apply andb_prop in Hg. destruct Hg as [Hg Hg4].
    apply andb_prop in Hg. destruct Hg as [Hg Hg3].
    apply andb_prop in Hg. destruct Hg as [Hg1 Hg2].
    apply Z.leb_le in Hg1, Hg3. apply Z.ltb_lt in Hg2, Hg4.
    apply cell_index_inj in Hidx; [|lia|lia]. destruct Hidx as [Hx' Hy'].
    bool_to_prop; lia.
Qed.

(** A push at the end of the history keeps every entry, less the oldest
    one on overflow. *)
Lemma pushed_entries_kept (h : list Uint8Array) (idx : Z) (p : Uint8Array) :
  let kept := slice0 h (idx + 1) in
  pushed h idx p =
  (if 50 <? Z.of_nat (List.length kept) then drop 1 kept else kept) ++ [p].
Proof. reflexivity. Qed.

Lemma slice0_all {A : Type} (l : list A) :
  slice0 l (Z.of_nat (List.length l) - 1 + 1) = l.
Proof.
  rewrite slice0_take by lia.
  replace (Z.to_nat (Z.of_nat (List.length l) - 1 + 1)) with (List.length l)
    by lia.
  apply firstn_all.
Qed.

(** What commit does, as the callback of the render [built] running in the
    render [s]: it overwrites every in-bounds cell under the layer with the
    layer's value there (whatever the value), leaves every other cell and
    the cell count alone (layer cells that land outside the buffer are
    dropped), and clears the layer, its snapshot and the selection.  The
    new history is made of the entries that [built] holds up to its index
    (less the oldest one on overflow) and the merged buffer, which the new
    index points at. *)
Lemma commit_merges_and_pushes (built s : State) (fl : FloatingLayer.t) :
  floatingLayer s = Some fl ->
  commitDeps built s ->
  U8.length (pixels s) = width s * height s ->
  let s' := dispatchMemo handleCommitFloatingLayer built s in
  let kept := slice0 (history built) (historyIndex built + 1) in
  (forall tx ty, 0 <= tx < width s -> 0 <= ty < height s ->
     U8.get (pixels s') (ty * width s + tx) =
     let cx := tx - FloatingLayer.x fl in
     let cy := ty - FloatingLayer.y fl in
     if (0 <=? cx) && (cx <? FloatingLayer.w fl)
        && (0 <=? cy) && (cy <? FloatingLayer.h fl)
     then Some (U8.toU8 (U8.get (FloatingLayer.data fl)
                           (cy * FloatingLayer.w fl + cx)))
     else U8.get (pixels s) (ty * width s + tx))
  /\ U8.length (pixels s') = width s * height s
  /\ history s' =
       (if 50 <? Z.of_nat (List.length kept) then drop 1 kept else kept)
         ++ [pixels s']
  /\ historyIndex s' = Z.of_nat (List.length (history s')) - 1
  /\ floatingLayer s' = None
  /\ backgroundSnapshot s' = None
  /\ selection s' = None.
Proof.
  intros Hfl (Hbfl & Hbp & Hbw & Hbh) Hlen.
  unfold dispatchMemo, handleCommitFloatingLayer. rewrite Hbfl, Hfl, Hbp, Hbw, Hbh.
  unfold updatePixels, addToHistory, andThen.
  cbn [pixels history historyIndex floatingLayer backgroundSnapshot selection
       setPixels setHistory setHistoryIndex setSelection setFloatingLayer
       setBackgroundSnapshot].
  unfold U8.copy. repeat split.
  - intros tx ty Hx Hy. now apply mergeLayer_get.
  - now rewrite mergeLayer_length.
Qed.

(** C5 (the code departs from the claim): [handleCommitFloatingLayer] is
    memoised on [[floatingLayer, pixels, width, height]] and reaches the
    history through the [updatePixels] of the render it was built in.  In
    the session [liftedAndMoved] a layer floats over cell (1,0); the canvas
    is then resized to 3x1, which rebuilds the callback in the render
    [built], where the history is empty; the timeout of the resize seeds
    the history with the blank buffer and changes none of the callback's
    dependencies.  Commit in the render [s] merges the layer into the
    pixels and clears the layer, its snapshot and the selection, but the
    merged buffer replaces the entry the history held instead of following
    it: the history does not gain an entry, and undo has nothing to go
    back to.  Committed before the resize, the same layer adds its entry
    after the ones the history holds. *)
Theorem C5_commit_pushes_onto_outdated_history :
  let floating := run liftedAndMoved in
  let built := step floating (EvSetDimensions 3 1) in
  let s := step built (EvDimensionsTimeout 3 1) in
  let s' := dispatchMemo handleCommitFloatingLayer built s in
  reachable s
  /\ ~ commitDeps floating built
  /\ commitDeps built s
  /\ floatingLayer s = Some (FloatingLayer.mk 1 0 1 1 [1])
  /\ pixels s = [0; 0; 0]
  /\ history s = [[0; 0; 0]] /\ historyIndex s = 0
  /\ history built = [] /\ historyIndex built = -1
  /\ reachable s'
  /\ pixels s' = [0; 1; 0]
  /\ floatingLayer s' = None /\ backgroundSnapshot s' = None
  /\ selection s' = None
  /\ history s' = [[0; 1; 0]] /\ historyIndex s' = 0
  /\ history s' <> history s ++ [[0; 1; 0]]
  /\ dispatch handleUndo s' = s'
  /\ history (dispatch handleCommitFloatingLayer floating) =
       history floating ++ [[0; 1]].
Proof.
  cbv zeta.
  split; [apply (reachable_run (liftedAndMoved ++
            [EvSetDimensions 3 1; EvDimensionsTimeout 3 1]))|].
  split; [intros (_ & _ & Hw & _); vm_compute in Hw; discriminate Hw|].
  assert (commitDeps (step (run liftedAndMoved) (EvSetDimensions 3 1))
            (step (step (run liftedAndMoved) (EvSetDimensions 3 1))
               (EvDimensionsTimeout 3 1))) as Hdeps.
  { unfold commitDeps.
    do 3 (split; [vm_compute; reflexivity|]). vm_compute; reflexivity. }
  split; [exact Hdeps|].
  do 6 (split; [vm_compute; reflexivity|]).
  split.
  { apply reachable_commit; [| |exact Hdeps].
    - apply (reachable_run (liftedAndMoved ++ [EvSetDimensions 3 1])).
    - apply (reachable_run (liftedAndMoved ++
               [EvSetDimensions 3 1; EvDimensionsTimeout 3 1])). }
  do 6 (split; [vm_compute; reflexivity|]).
  split; [vm_compute; discriminate|].
  split; vm_compute; reflexivity.
Qed.

(** ** Paste *)

(** What paste queues when a layer is already floating: the commit of that
    layer, then a snapshot of the rendered pixels and the new layer. *)
Lemma handlePaste_floating (s : State) (clip : ClipboardData.t)
    (fl : FloatingLayer.t) :
  clipboard s = Some clip -> floatingLayer s = Some fl ->
  let s' := dispatch handlePaste s in
  let merged := mergeLayer fl (width s) (height s) (pixels s) in
  pixels s' = merged
  /\ history s' = pushed (history s) (historyIndex s) merged
  /\ historyIndex s' = Z.of_nat (List.length (history s')) - 1
  /\ selection s' = None
  /\ backgroundSnapshot s' = Some (pixels s)
  /\ floatingLayer s' =
       Some (FloatingLayer.mk
               (match selection s with Some sel => SelectionRect.x sel | None => 0 end)
               (match selection s with Some sel => SelectionRect.y sel | None => 0 end)
               (ClipboardData.width clip) (ClipboardData.height clip)
               (ClipboardData.pixels clip))
  /\ history (dispatch handleCommitFloatingLayer s') =
       pushed (history s') (historyIndex s')
         (pixels (dispatch handleCommitFloatingLayer s')).
Proof.
  intros Hclip Hfl. unfold dispatch, handlePaste. rewrite Hclip, Hfl.
  unfold handleCommitFloatingLayer. rewrite Hfl.
  unfold updatePixels, addToHistory, andThen. repeat split.
Qed.

(** C6 (the code departs from the claim): in the session [liftedAndMoved]
    a layer floats over cell (1,0) of the 2x1 canvas and the clipboard is
    filled.  Paste commits the layer (cell (1,0) is set and the history
    gains the merged buffer) and creates the new layer at the selection's
    origin, but the snapshot it stores is the [pixels] of the render the
    handler closed over, the background before the commit; cancelling the
    pasted layer then also removes the committed one from the canvas. *)
Theorem C6_paste_snapshot_predates_commit :
  let s := run liftedAndMoved in
  let s' := step s EvPaste in
  reachable s
  /\ floatingLayer s = Some (FloatingLayer.mk 1 0 1 1 [1])
  /\ clipboard s = Some (ClipboardData.mk 1 1 [1])
  /\ selection s = Some (SelectionRect.mk 0 0 1 1)
  /\ pixels s = [0; 0]
  /\ pixels s' = [0; 1]
  /\ history s' = history s ++ [[0; 1]]
  /\ floatingLayer s' = Some (FloatingLayer.mk 0 0 1 1 [1])
  /\ backgroundSnapshot s' = Some [0; 0]
  /\ pixels (step s' EvKeyEscape) = [0; 0]
  /\ last (history (step s' EvKeyEscape)) = Some [0; 1].
Proof.
  cbv zeta.
  split; [apply reachable_run|].
  do 9 (split; [vm_compute; reflexivity|]).
  vm_compute; reflexivity.
Qed.

(** ** Copy, cut and lift: the rectangle loops *)

Lemma copyRect_length (sel : SelectionRect.t) (width : Z) (pixels : Uint8Array) :
  0 <= SelectionRect.w sel -> 0 <= SelectionRect.h sel ->
  U8.length (copyRect sel width pixels) =
  SelectionRect.w sel * SelectionRect.h sel.
Proof.
  intros Hw Hh. unfold copyRect.
  apply (forZ_invariant (fun _ acc =>
           U8.length acc = SelectionRect.w sel * SelectionRect.h sel));
    [exact Hh|apply U8_length_make; nia|].
  intros cy acc _ Hacc.
  apply (forZ_invariant (fun _ acc =>
           U8.length acc = SelectionRect.w sel * SelectionRect.h sel));
    [exact Hw|exact Hacc|].
  intros cx acc' _ Hacc'.
  destruct (_ <? _); [now rewrite U8_length_set|exact Hacc'].
Qed.

Lemma clearRect_length (sel : SelectionRect.t) (width : Z) (pixels : Uint8Array) :
  U8.length (clearRect sel width pixels) = U8.length pixels.
Proof.
  unfold clearRect, U8.copy.
  destruct (Z_le_gt_dec (SelectionRect.h sel) 0) as [Hh | Hh];
    [now rewrite forZ_nonpos|].
  apply (forZ_invariant (fun _ acc => U8.length acc = U8.length pixels));
    [lia|reflexivity|].
  intros cy acc _ Hacc.
  destruct (Z_le_gt_dec (SelectionRect.w sel) 0) as [Hw | Hw];
    [now rewrite forZ_nonpos|].
  apply (forZ_invariant (fun _ acc => U8.length acc = U8.length pixels));
    [lia|exact Hacc|].
  intros cx acc' _ Hacc'.
  destruct (_ <? _); [now rewrite U8_length_set|exact Hacc'].
Qed.

(** C9 (the code departs from the claim): copy, cut and lift test only
    [idx < pixels.length] on the flat index, so a rectangle that sticks out
    to the right is not dropped cell by cell, it wraps into the next row.
    In the session [selectedThenResized] the selection (columns 5 to 7 of
    row 0) lies wholly outside the 4x2 buffer; cut copies cells (1,1) to
    (3,1) to the clipboard and zeroes them. *)
Theorem C9_cut_wraps_into_next_row :
  let s := run selectedThenResized in
  let s' := step s EvKeyCut in
  reachable s
  /\ width s = 4 /\ height s = 2
  /\ pixels s = [1; 1; 1; 1; 1; 1; 1; 1]
  /\ floatingLayer s = None
  /\ selection s = Some (SelectionRect.mk 5 0 3 1)
  /\ pixels s' = [1; 1; 1; 1; 1; 0; 0; 0]
  /\ clipboard s' = Some (ClipboardData.mk 3 1 [1; 1; 1]).
Proof.
  cbv zeta.
  split; [apply reachable_run|].
  do 6 (split; [vm_compute; reflexivity|]).
  vm_compute; reflexivity.
Qed.

Lemma forZ_nest {A X : Type} (body : Z * X -> A -> A) (n : Z) (L : list X)
    (init : A) :
  forZ n (fun i acc => fold_left (fun acc e => body (i, e) acc) L acc) init =
  fold_left (fun acc p => body p acc) (nest n L) init.
Proof.
  unfold forZ, nest. generalize (seqZ 0 n). intros l. revert init.
  induction l as [|i l IH]; intros init; [reflexivity|].
  simpl. rewrite fold_left_app, IH. f_equal.
  generalize init. clear. induction L as [|e L IH]; intros init;
    [reflexivity|]. simpl. apply IH.
Qed.

Lemma fold_pair_writes {X : Type} (wr1 wr2 : X -> option (Z * Z))
    (L : list X) (a b : Uint8Array) :
  fold_left (fun (st : Uint8Array * Uint8Array) e =>
               let '(x, y) := st in
               (applyWrite x (wr1 e), applyWrite y (wr2 e))) L (a, b) =
  (applyWrites wr1 L a, applyWrites wr2 L b).
Proof.
  revert a b. induction L as [|e L IH]; intros a b; [reflexivity|].
  simpl. apply IH.
Qed.

Lemma liftRect_writes (rect : SelectionRect.t) (width : Z)
    (pixels : Uint8Array) :
  let L := nest (SelectionRect.h rect) (seqZ 0 (SelectionRect.w rect)) in
  liftRect rect width pixels =
  (applyWrites (liftBufferWrite rect width pixels) L
     (U8.make (SelectionRect.w rect * SelectionRect.h rect)),
   applyWrites (liftCutWrite rect width pixels) L pixels).
Proof.
  cbv zeta. rewrite <- fold_pair_writes.
  rewrite <- (forZ_nest (fun e (st : Uint8Array * Uint8Array) =>
    let '(x, y) := st in
    (applyWrite x (liftBufferWrite rect width pixels e),
     applyWrite y (liftCutWrite rect width pixels e)))).
  unfold liftRect, U8.copy. apply forZ_ext. intros cy st _.
  apply forZ_ext. intros cx [buffer newPixels] _.
  unfold liftBufferWrite, liftCutWrite, applyWrite.
  now destruct (_ <? _).
Qed.

Section LiftInBounds.

Variables (rect : SelectionRect.t) (width height : Z) (pixels : Uint8Array).

Hypothesis Hlen : U8.length pixels = width * height.
Hypothesis Hx : 0 <= SelectionRect.x rect.
Hypothesis Hy : 0 <= SelectionRect.y rect.
Hypothesis Hw : 0 <= SelectionRect.w rect.
Hypothesis Hh : 0 <= SelectionRect.h rect.
Hypothesis Hright : SelectionRect.x rect + SelectionRect.w rect <= width.
Hypothesis Hbottom : SelectionRect.y rect + SelectionRect.h rect <= height.

Lemma liftRect_buffer_length :
  U8.length (fst (liftRect rect width pixels)) =
  SelectionRect.w rect * SelectionRect.h rect.
Proof.
  rewrite liftRect_writes. cbn [fst].
  rewrite applyWrites_length. apply U8_length_make. nia.
Qed.

(** The layer's buffer holds the rectangle's cells. *)
Lemma liftRect_buffer_get (cx cy : Z) :
  0 <= cx < SelectionRect.w rect -> 0 <= cy < SelectionRect.h rect ->
  U8.get (fst (liftRect rect width pixels)) (cy * SelectionRect.w rect + cx) =
  U8.get pixels
    ((SelectionRect.y rect + cy) * width + (SelectionRect.x rect + cx)).
Proof.
  intros Hcx Hcy. rewrite liftRect_writes. cbn [fst].
  assert (0 <= (SelectionRect.y rect + cy) * width + (SelectionRect.x rect + cx)
          < U8.length pixels) as Hidx.
  { rewrite Hlen. apply cell_index_range; lia. }
  destruct (U8_get_Some pixels _ Hidx) as [v Hv]. rewrite Hv.
  apply applyWrites_written with (e := (cy, cx)).
  - rewrite U8_length_make by nia.
    pose proof (cell_index_range (SelectionRect.w rect) (SelectionRect.h rect)
                  cx cy Hcx Hcy). lia.
  - apply in_nest. split; [lia|]. now apply in_seqZ.
  - unfold liftBufferWrite. destruct (Z.ltb_spec
      ((SelectionRect.y rect + cy) * width + (SelectionRect.x rect + cx))
      (U8.length pixels)); [|lia]. now rewrite Hv.
  - intros [cy' cx'] v' Hin Hwr. apply in_nest in Hin.
    destruct Hin as [_ Hcx']. apply in_seqZ in Hcx'.
    unfold liftBufferWrite in Hwr. guard_true Hwr.
    injection Hwr as Hk Hv'.
    apply cell_index_inj in Hk; [|lia|lia]. destruct Hk as [-> ->].
    rewrite Hv in Hv'. now symmetry.
Qed.

(** The background after the lift: zero inside the rectangle, unchanged
    outside. *)
Lemma liftRect_background_get (tx ty : Z) :
  0 <= tx < width -> 0 <= ty < height ->
  U8.get (snd (liftRect rect width pixels)) (ty * width + tx) =
  if (SelectionRect.x rect <=? tx)
     && (tx <? SelectionRect.x rect + SelectionRect.w rect)
     && (SelectionRect.y rect <=? ty)
     && (ty <? SelectionRect.y rect + SelectionRect.h rect)
  then Some 0
  else U8.get pixels (ty * width + tx).
Proof.
  intros Htx Hty. rewrite liftRect_writes. cbn [snd].
  pose proof (cell_index_range width height tx ty Htx Hty) as Hrange.
  destruct ((SelectionRect.x rect <=? tx)
            && (tx <? SelectionRect.x rect + SelectionRect.w rect)
            && (SelectionRect.y rect <=? ty)
            && (ty <? SelectionRect.y rect + SelectionRect.h rect)) eqn:Hbox.
  - bool_to_prop.
    apply applyWrites_written
      with (e := (ty - SelectionRect.y rect, tx - SelectionRect.x rect)).
    + now rewrite Hlen.
    + apply in_nest. split; [lia|]. apply in_seqZ. lia.
    + unfold liftCutWrite.
      replace (SelectionRect.x rect + (tx - SelectionRect.x rect)) with tx by lia.
      replace (SelectionRect.y rect + (ty - SelectionRect.y rect)) with ty by lia.
      destruct (Z.ltb_spec (ty * width + tx) (U8.length pixels)); [|lia].
      reflexivity.
    + intros [cy' cx'] v' _ Hwr. unfold liftCutWrite in Hwr.
      guard_true Hwr. now injection Hwr as _ <-.
  - apply applyWrites_untouched. intros [cy' cx'] v Hin Hwr.
    apply in_nest in Hin. destruct Hin as [Hcy' Hcx']. apply in_seqZ in Hcx'.
    unfold liftCutWrite in Hwr. guard_true Hwr.
    injection Hwr as Hk _.
    apply cell_index_inj in Hk; [|lia|lia]. destruct Hk as [Hx' Hy'].
    bool_to_prop; lia.
Qed.

End LiftInBounds.

(** The cell counts after copy, cut, lift and commit. *)
Lemma cell_count_preserved (s : State) (rect : SelectionRect.t) :
  U8.length (pixels s) = width s * height s ->
  U8.length (pixels (dispatch handleCopy s)) = width s * height s
  /\ U8.length (pixels (dispatch handleCut s)) = width s * height s
  /\ (floatingLayer s = None ->
      U8.length (pixels (dispatch (handleLiftSelection rect) s)) =
      width s * height s)
  /\ U8.length (pixels (dispatch handleCommitFloatingLayer s)) =
       width s * height s.
Proof.
  intros Hlen. split; [|split; [|split]].
  - unfold dispatch, handleCopy, skip. now destruct (selection s).
  - unfold dispatch, handleCut, handleCopy, updatePixels, addToHistory,
      andThen, skip.
    destruct (selection s) as [sel|]; [|exact Hlen].
    cbn [pixels setPixels setHistory setHistoryIndex setClipboard].
    now rewrite clearRect_length.
  - intros Hfl. unfold dispatch, handleLiftSelection. rewrite Hfl.
    pose proof (liftRect_writes rect (width s) (pixels s)) as Hlift.
    cbv zeta in Hlift.
    destruct (liftRect rect (width s) (pixels s)) as [buffer newPixels].
    injection Hlift as _ ->. unfold andThen, skip.
    cbn [pixels setPixels setFloatingLayer setBackgroundSnapshot].
    now rewrite applyWrites_length.
  - unfold dispatch, handleCommitFloatingLayer, updatePixels, addToHistory,
      andThen, skip.
    destruct (floatingLayer s) as [fl|]; [|exact Hlen].
    cbn [pixels setPixels setHistory setHistoryIndex setSelection
         setFloatingLayer setBackgroundSnapshot].
    now rewrite mergeLayer_length.
Qed.

(** C4: for a rectangle inside the buffer, lift moves the rectangle's cells
    into a new floating layer and zeroes them in the background; discard
    right after it gives back the pixels as they were before the lift; the
    history and its index are the same before the lift, after it and after
    the discard. *)
Theorem C4_lift_then_discard_restores (s : State) (rect : SelectionRect.t) :
  floatingLayer s = None ->
  U8.length (pixels s) = width s * height s ->
  0 <= SelectionRect.x rect -> 0 <= SelectionRect.y rect ->
  0 <= SelectionRect.w rect -> 0 <= SelectionRect.h rect ->
  SelectionRect.x rect + SelectionRect.w rect <= width s ->
  SelectionRect.y rect + SelectionRect.h rect <= height s ->
  let lifted := dispatch (handleLiftSelection rect) s in
  let discarded := dispatch handleDiscardFloatingLayer lifted in
  (exists buffer,
     floatingLayer lifted =
       Some (FloatingLayer.mk (SelectionRect.x rect) (SelectionRect.y rect)
               (SelectionRect.w rect) (SelectionRect.h rect) buffer) /\
     U8.length buffer = SelectionRect.w rect * SelectionRect.h rect /\
     forall cx cy,
       0 <= cx < SelectionRect.w rect -> 0 <= cy < SelectionRect.h rect ->
       U8.get buffer (cy * SelectionRect.w rect + cx) =
       U8.get (pixels s)
         ((SelectionRect.y rect + cy) * width s + (SelectionRect.x rect + cx)))
  /\ (forall tx ty, 0 <= tx < width s -> 0 <= ty < height s ->
        U8.get (pixels lifted) (ty * width s + tx) =
        if (SelectionRect.x rect <=? tx)
           && (tx <? SelectionRect.x rect + SelectionRect.w rect)
           && (SelectionRect.y rect <=? ty)
           && (ty <? SelectionRect.y rect + SelectionRect.h rect)
        then Some 0
        else U8.get (pixels s) (ty * width s + tx))
  /\ pixels discarded = pixels s
  /\ floatingLayer discarded = None
  /\ backgroundSnapshot discarded = None
  /\ history lifted = history s /\ historyIndex lifted = historyIndex s
  /\ history discarded = history s /\ historyIndex discarded = historyIndex s.
Proof.
  intros Hfl Hlen Hx Hy Hw Hh Hright Hbottom.
  assert (U8.length (fst (liftRect rect (width s) (pixels s))) =
          SelectionRect.w rect * SelectionRect.h rect) as Hbuflen
    by (apply liftRect_buffer_length; assumption).
  assert (forall cx cy,
            0 <= cx < SelectionRect.w rect -> 0 <= cy < SelectionRect.h rect ->
            U8.get (fst (liftRect rect (width s) (pixels s)))
              (cy * SelectionRect.w rect + cx) =
            U8.get (pixels s)
              ((SelectionRect.y rect + cy) * width s
               + (SelectionRect.x rect + cx))) as Hbuf
    by (intros; eapply liftRect_buffer_get; eassumption).
  assert (forall tx ty, 0 <= tx < width s -> 0 <= ty < height s ->
            U8.get (snd (liftRect rect (width s) (pixels s)))
              (ty * width s + tx) =
            if (SelectionRect.x rect <=? tx)
               && (tx <? SelectionRect.x rect + SelectionRect.w rect)
               && (SelectionRect.y rect <=? ty)
               && (ty <? SelectionRect.y rect + SelectionRect.h rect)
            then Some 0
            else U8.get (pixels s) (ty * width s + tx)) as Hbg
    by (intros; eapply liftRect_background_get; eassumption).
  unfold dispatch at 2. unfold dispatch, handleLiftSelection. rewrite Hfl.
  destruct (liftRect rect (width s) (pixels s)) as [buffer newPixels].
  cbn [fst snd] in *.
  unfold handleDiscardFloatingLayer, andThen, skip, U8.copy.
  cbn [pixels history historyIndex floatingLayer backgroundSnapshot
       setPixels setFloatingLayer setBackgroundSnapshot].
  split; [exists buffer; repeat split; assumption|].
  split; [exact Hbg|]. repeat split.
Qed.

Lemma C4_lift_then_discard_restores_witness :
  let s := mkState 2 1 [1; 0] [[1; 0]] 0 SELECT VERTICAL_PAGE MSB_FIRST
             (Some (SelectionRect.mk 0 0 1 1)) None None None in
  pixels (dispatch handleDiscardFloatingLayer
            (dispatch (handleLiftSelection (SelectionRect.mk 0 0 1 1)) s)) =
  pixels s.
Proof.
  cbv zeta.
  refine (proj1 (proj2 (proj2 (C4_lift_then_discard_restores
    (mkState 2 1 [1; 0] [[1; 0]] 0 SELECT VERTICAL_PAGE MSB_FIRST
       (Some (SelectionRect.mk 0 0 1 1)) None None None)
    (SelectionRect.mk 0 0 1 1) _ _ _ _ _ _ _ _))));
    try reflexivity; simpl; lia.
Defined.

(** ** The codec: bytes *)

Lemma packByte_bits (byteOrder : ByteOrder) (sample : Z -> bool) :
  packByte byteOrder sample =
  byteOfBits byteOrder (sample 0) (sample 1) (sample 2) (sample 3)
    (sample 4) (sample 5) (sample 6) (sample 7).
Proof. reflexivity. Qed.

Lemma byteOfBits_spec (byteOrder : ByteOrder) (b0 b1 b2 b3 b4 b5 b6 b7 : bool) :
  let B := byteOfBits byteOrder b0 b1 b2 b3 b4 b5 b6 b7 in
  0 <= B < 256 /\
  Z.testbit B (bitPos byteOrder 0) = b0 /\
  Z.testbit B (bitPos byteOrder 1) = b1 /\
  Z.testbit B (bitPos byteOrder 2) = b2 /\
  Z.testbit B (bitPos byteOrder 3) = b3 /\
  Z.testbit B (bitPos byteOrder 4) = b4 /\
  Z.testbit B (bitPos byteOrder 5) = b5 /\
  Z.testbit B (bitPos byteOrder 6) = b6 /\
  Z.testbit B (bitPos byteOrder 7) = b7.
Proof.
  destruct byteOrder, b0, b1, b2, b3, b4, b5, b6, b7; vm_compute;
    intuition discriminate.
Qed.

(** Every packed byte is a byte. *)
Lemma packByte_range (byteOrder : ByteOrder) (sample : Z -> bool) :
  0 <= packByte byteOrder sample < 256.
Proof. rewrite packByte_bits. apply byteOfBits_spec. Qed.

(** The bit a pixel was packed into reads back as the pixel. *)
Lemma packByte_testbit (byteOrder : ByteOrder) (sample : Z -> bool) (i : Z) :
  0 <= i < 8 ->
  Z.testbit (packByte byteOrder sample) (bitPos byteOrder i) = sample i.
Proof.
  intros Hi. rewrite packByte_bits.
  pose proof (byteOfBits_spec byteOrder (sample 0) (sample 1) (sample 2)
                (sample 3) (sample 4) (sample 5) (sample 6) (sample 7)) as H.
  cbv zeta in H.
  assert (i = 0 \/ i = 1 \/ i = 2 \/ i = 3 \/ i = 4 \/ i = 5 \/ i = 6 \/ i = 7)
    as Hcases by lia.
  intuition (subst; assumption).
Qed.

(** ** The codec: layout of the byte sequence *)

Lemma nest_succ {X : Type} (n : Z) (L : list X) :
  0 <= n -> nest (n + 1) L = nest n L ++ map (pair n) L.
Proof.
  intros Hn. unfold nest. rewrite seqZ_app by lia. rewrite flat_map_app.
  rewrite (seqZ_cons (0 + n) 1) by lia.
  rewrite (seqZ_nil (Z.succ (0 + n)) (Z.pred 1)) by lia.
  simpl. now rewrite app_nil_r.
Qed.

Lemma nest_length {X : Type} (n : Z) (L : list X) :
  0 <= n ->
  Z.of_nat (List.length (nest n L)) = n * Z.of_nat (List.length L).
Proof.
  intros Hn. pattern n. apply natlike_ind; [reflexivity| |exact Hn].
  clear n Hn. intros n Hn IH. unfold Z.succ.
  rewrite nest_succ by exact Hn.
  rewrite length_app, length_map. lia.
Qed.

Lemma nest_lookup {X : Type} (n : Z) (L : list X) (i : Z) (k : nat) (e : X) :
  0 <= i < n -> L !! k = Some e ->
  nest n L !! Z.to_nat (i * Z.of_nat (List.length L) + Z.of_nat k) = Some (i, e).
Proof.
  intros Hi Hk. unfold nest.
  replace n with (i + (n - i)) by lia.
  rewrite seqZ_app by lia. rewrite flat_map_app.
  pose proof (nest_length i L (proj1 Hi)) as Hlen. unfold nest in Hlen.
  rewrite lookup_app_r by lia.
  replace (Z.to_nat (i * Z.of_nat (List.length L) + Z.of_nat k)
           - List.length (flat_map (fun i0 => map (pair i0) L) (seqZ 0 i)))%nat
    with k by lia.
  rewrite seqZ_cons by lia. simpl. rewrite lookup_app_l.
  - rewrite list_lookup_fmap, Hk. reflexivity.
  - rewrite length_map. now apply lookup_lt_Some in Hk.
Qed.

Lemma pack_nest (pixels : Uint8Array) (width height : Z)
    (scanMode : ScanMode) (byteOrder : ByteOrder) :
  pack pixels width height scanMode byteOrder =
  map (fun e : Z * Z =>
         packByte byteOrder (fun i =>
           let '(x, y) := cellOf scanMode (fst e) (snd e) i in
           pixelAt pixels width height x y))
    (nest (outerCount width height scanMode)
          (seqZ 0 (innerCount width height scanMode))).
Proof.
  unfold pack, nest. generalize (seqZ 0 (outerCount width height scanMode)).
  intros l. induction l as [|o l IH]; [reflexivity|].
  simpl. rewrite map_app, map_map, IH. reflexivity.
Qed.

Lemma ceilDiv8_nonneg (n : Z) : 0 <= n -> 0 <= ceilDiv8 n.
Proof. intros Hn. unfold ceilDiv8. apply Z.div_pos; lia. Qed.

Lemma counts_nonneg (width height : Z) (scanMode : ScanMode) :
  0 <= width -> 0 <= height ->
  0 <= outerCount width height scanMode /\
  0 <= innerCount width height scanMode.
Proof.
  intros Hw Hh. pose proof (ceilDiv8_nonneg width Hw).
  pose proof (ceilDiv8_nonneg height Hh).
  destruct scanMode; simpl; lia.
Qed.

Lemma pack_length (pixels : Uint8Array) (width height : Z)
    (scanMode : ScanMode) (byteOrder : ByteOrder) :
  0 <= width -> 0 <= height ->
  U8.length (pack pixels width height scanMode byteOrder) =
  expectedBytes width height scanMode.
Proof.
  intros Hw Hh. destruct (counts_nonneg width height scanMode Hw Hh) as [Ho Hi].
  unfold U8.length. rewrite pack_nest, length_map, nest_length by exact Ho.
  rewrite length_seqZ. destruct scanMode; simpl in *; lia.
Qed.

Lemma pack_get (pixels : Uint8Array) (width height : Z)
    (scanMode : ScanMode) (byteOrder : ByteOrder) (o n : Z) :
  0 <= o < outerCount width height scanMode ->
  0 <= n < innerCount width height scanMode ->
  U8.get (pack pixels width height scanMode byteOrder)
    (o * innerCount width height scanMode + n) =
  Some (packByte byteOrder (fun i =>
          let '(x, y) := cellOf scanMode o n i in
          pixelAt pixels width height x y)).
Proof.
  intros Ho Hn. unfold U8.get.
  destruct (Z.leb_spec 0 (o * innerCount width height scanMode + n)); [|nia].
  rewrite pack_nest, list_lookup_fmap.
  pose proof (nest_lookup (outerCount width height scanMode)
    (seqZ 0 (innerCount width height scanMode)) o (Z.to_nat n) n Ho) as Hlook.
  rewrite length_seqZ in Hlook.
  replace (o * Z.of_nat (Z.to_nat (innerCount width height scanMode))
           + Z.of_nat (Z.to_nat n))
    with (o * innerCount width height scanMode + n) in Hlook by lia.
  rewrite Hlook; [reflexivity|].
  apply lookup_seqZ. lia.
Qed.

Lemma pack_bytes (pixels : Uint8Array) (width height : Z)
    (scanMode : ScanMode) (byteOrder : ByteOrder) :
  Forall (fun b => 0 <= b < 256)
    (pack pixels width height scanMode byteOrder).
Proof.
  rewrite pack_nest. apply Forall_forall. intros b Hb.
  apply list_elem_of_In, in_map_iff in Hb. destruct Hb as (e & <- & _).
  apply packByte_range.
Qed.

(** ** The codec: unpacking *)

Lemma unpack_writes (bytes : list Z) (width height : Z)
    (scanMode : ScanMode) (byteOrder : ByteOrder) :
  unpack bytes width height scanMode byteOrder =
  applyWrites (unpackWrite bytes width height scanMode byteOrder)
    (nest (outerCount width height scanMode)
       (nest (innerCount width height scanMode) (seqZ 0 8)))
    (U8.make (width * height)).
Proof.
  rewrite <- forZ_applyWrites. unfold unpack.
  apply forZ_ext. intros o acc _.
  rewrite <- (forZ_applyWrites
    (fun p => unpackWrite bytes width height scanMode byteOrder (o, p))).
  apply forZ_ext. intros n acc' _.
  etransitivity; [|reflexivity].
  apply forZ_ext. intros i acc'' _.
  unfold unpackWrite, applyWrite.
  destruct (cellOf scanMode o n i) as [x y].
  now destruct ((x <? width) && (y <? height)).
Qed.

Lemma unpack_length (bytes : list Z) (width height : Z)
    (scanMode : ScanMode) (byteOrder : ByteOrder) :
  0 <= width -> 0 <= height ->
  U8.length (unpack bytes width height scanMode byteOrder) = width * height.
Proof.
  intros Hw Hh. rewrite unpack_writes, applyWrites_length.
  apply U8_length_make. nia.
Qed.

Lemma locate_in (width height : Z) (scanMode : ScanMode) (x y : Z) :
  0 <= x < width -> 0 <= y < height ->
  In (locate scanMode x y)
    (nest (outerCount width height scanMode)
       (nest (innerCount width height scanMode) (seqZ 0 8))).
Proof.
  intros Hx Hy. unfold locate, outerCount, innerCount, ceilDiv8.
  destruct scanMode; apply in_nest; (split; [|apply in_nest; split]);
    rewrite ?in_seqZ; Z.div_mod_to_equations; lia.
Qed.

Lemma cellOf_locate (scanMode : ScanMode) (x y : Z) :
  let '(o, (n, i)) := locate scanMode x y in cellOf scanMode o n i = (x, y).
Proof.
  destruct scanMode; simpl; f_equal; Z.div_mod_to_equations; lia.
Qed.

Lemma locate_cellOf (scanMode : ScanMode) (o n i : Z) :
  0 <= i < 8 ->
  let '(x, y) := cellOf scanMode o n i in locate scanMode x y = (o, (n, i)).
Proof.
  intros Hi. destruct scanMode; simpl; repeat f_equal;
    Z.div_mod_to_equations; lia.
Qed.

(** The cell [(x, y)] of the unpacked grid is the bit of the byte that
    visits it. *)
Lemma unpack_get (bytes : list Z) (width height : Z)
    (scanMode : ScanMode) (byteOrder : ByteOrder) (x y : Z) :
  0 <= x < width -> 0 <= y < height ->
  U8.get (unpack bytes width height scanMode byteOrder) (y * width + x) =
  let '(o, (n, i)) := locate scanMode x y in
  Some (if Z.testbit
             (U8.toU8 (U8.get bytes
                         (o * innerCount width height scanMode + n)))
             (bitPos byteOrder i)
        then 1 else 0).
Proof.
  intros Hx Hy. rewrite unpack_writes.
  pose proof (locate_in width height scanMode x y Hx Hy) as Hin.
  pose proof (cellOf_locate scanMode x y) as Hcell.
  destruct (locate scanMode x y) as [o [n i]] eqn:Hloc.
  apply applyWrites_written with (e := (o, (n, i))).
  - rewrite U8_length_make by nia. now apply cell_index_range.
  - exact Hin.
  - unfold unpackWrite. rewrite Hcell.
    destruct (Z.ltb_spec x width); [|lia].
    destruct (Z.ltb_spec y height); [|lia]. reflexivity.
  - intros [o' [n' i']] v' Hin' Hwr.
    apply in_nest in Hin'. destruct Hin' as [Ho' Hin'].
    apply in_nest in Hin'. destruct Hin' as [Hn' Hi']. apply in_seqZ in Hi'.
    pose proof (locate_cellOf scanMode o' n' i' Hi') as Hloc'.
    unfold unpackWrite in Hwr.
    destruct (cellOf scanMode o' n' i') as [x' y'] eqn:Hcell'.
    assert (0 <= x') as Hx'0
      by (destruct scanMode; simpl in Hcell'; injection Hcell' as <- <-; lia).
    guard_true Hwr. bool_to_prop. injection Hwr as Hk Hv.
    apply cell_index_inj in Hk; [|lia|lia]. destruct Hk as [-> ->].
    rewrite Hloc in Hloc'. injection Hloc' as -> -> ->. now symmetry.
Qed.

(** Unpacking the packed bytes of a valid buffer gives the buffer back. *)
Lemma unpack_pack (pixels : Uint8Array) (width height : Z)
    (scanMode : ScanMode) (byteOrder : ByteOrder) :
  validBuffer pixels width height ->
  unpack (pack pixels width height scanMode byteOrder)
    width height scanMode byteOrder = pixels.
Proof.
  intros (Hw & Hh & Hlen & Hbin).
  apply U8_ext; [rewrite unpack_length by lia; now symmetry|].
  rewrite unpack_length by lia. intros k Hk.
  assert (0 <= k mod width < width) as Hx by (apply Z.mod_pos_bound; lia).
  assert (0 <= k / width < height) as Hy.
  { split; [apply Z.div_pos; lia|apply Z.div_lt_upper_bound; lia]. }
  assert (k = k / width * width + k mod width) as Hkxy.
  { rewrite (Z.div_mod k width) at 1 by lia. lia. }
  set (x := k mod width) in *. set (y := k / width) in *.
  rewrite Hkxy. rewrite unpack_get by assumption.
  pose proof (locate_in width height scanMode x y Hx Hy) as Hin.
  pose proof (cellOf_locate scanMode x y) as Hcell.
  destruct (locate scanMode x y) as [o [n i]].
  apply in_nest in Hin. destruct Hin as [Ho Hin].
  apply in_nest in Hin. destruct Hin as [Hn Hi]. apply in_seqZ in Hi.
  rewrite pack_get by assumption. rewrite U8_toU8_Some.
  rewrite packByte_testbit by exact Hi. rewrite Hcell.
  unfold pixelAt.
  destruct (Z.ltb_spec x width); [|lia].
  destruct (Z.ltb_spec y height); [|lia]. cbn [andb].
  assert (0 <= y * width + x < U8.length pixels) as Hrange by lia.
  destruct (U8_get_Some pixels _ Hrange) as [c Hc]. rewrite Hc.
  assert (c = 0 \/ c = 1) as Hc01.
  { unfold U8.get in Hc. destruct (0 <=? y * width + x); [|discriminate].
    apply list_elem_of_lookup_2 in Hc.
    rewrite Forall_forall in Hbin. now apply Hbin. }
  unfold U8.truthy. rewrite U8_toU8_Some.
  destruct Hc01 as [-> | ->]; reflexivity.
Qed.

(** ** The codec: text *)

Lemma hexDigit_word (n : Z) : isWordChar (hexDigit n) = true.
Proof.
  destruct n as [|p|p]; try reflexivity.
  repeat (destruct p as [p|p|]; try reflexivity).
Qed.

Lemma hexLiteral_byte (b : Z) :
  0 <= b < 256 -> tokenByte (hexLiteral b) = Some b.
Proof.
  intros Hb.
  assert (forallb (fun b =>
            match tokenByte (hexLiteral b) with
            | Some v => v =? b
            | None => false
            end) (seqZ 0 256) = true) as Hall by (vm_compute; reflexivity).
  rewrite forallb_forall in Hall. specialize (Hall b).
  destruct (tokenByte (hexLiteral b)) as [v|].
  - f_equal. apply Z.eqb_eq, Hall, in_seqZ, Hb.
  - discriminate Hall. apply in_seqZ, Hb.
Qed.

Lemma tokenizeFrom_start (c : ascii) (rest : string) :
  isDigit c = true ->
  tokenizeFrom Outside (String c rest) =
  tokenizeFrom (InLiteral (String c EmptyString)) rest.
Proof.
  intros Hc. cbn [tokenizeFrom]. unfold isWordChar. now rewrite Hc.
Qed.

Lemma tokenizeFrom_more (token : string) (c : ascii) (rest : string) :
  isWordChar c = true ->
  tokenizeFrom (InLiteral token) (String c rest) =
  tokenizeFrom (InLiteral (String.append token (String c EmptyString))) rest.
Proof. intros Hc. cbn [tokenizeFrom]. now rewrite Hc. Qed.

Lemma tokenizeFrom_close (token : string) (c : ascii) (rest : string) :
  isWordChar c = false ->
  tokenizeFrom (InLiteral token) (String c rest) =
  token :: tokenizeFrom Outside rest.
Proof. intros Hc. cbn [tokenizeFrom]. now rewrite Hc. Qed.

Lemma tokenizeFrom_noise (c : ascii) (rest : string) :
  isWordChar c = false ->
  tokenizeFrom Outside (String c rest) = tokenizeFrom Outside rest.
Proof. intros Hc. cbn [tokenizeFrom]. now rewrite Hc. Qed.

(** A literal that ends the text, or is followed by a separator. *)
Lemma tokenizeFrom_literal_end (b : Z) :
  tokenizeFrom Outside (hexLiteral b) = [hexLiteral b].
Proof.
  unfold hexLiteral.
  rewrite tokenizeFrom_start by reflexivity.
  rewrite tokenizeFrom_more by reflexivity.
  rewrite tokenizeFrom_more by apply hexDigit_word.
  rewrite tokenizeFrom_more by apply hexDigit_word.
  reflexivity.
Qed.

Lemma tokenizeFrom_literal_sep (b : Z) (c : ascii) (rest : string) :
  isWordChar c = false ->
  tokenizeFrom Outside (String.append (hexLiteral b) (String c rest)) =
  hexLiteral b :: tokenizeFrom Outside rest.
Proof.
  intros Hc. unfold hexLiteral. cbn [String.append].
  rewrite tokenizeFrom_start by reflexivity.
  rewrite tokenizeFrom_more by reflexivity.
  rewrite tokenizeFrom_more by apply hexDigit_word.
  rewrite tokenizeFrom_more by apply hexDigit_word.
  rewrite tokenizeFrom_close by exact Hc. reflexivity.
Qed.

(** The tokens of the rendered text are the literals of the bytes: commas,
    blanks and line breaks carry no meaning. *)
Lemma tokenize_textOfFrom (perLine : nat) (bytes : list Z) (col : nat) :
  tokenizeFrom Outside (textOfFrom perLine col bytes) = map hexLiteral bytes.
Proof.
  revert col. induction bytes as [|b rest IH]; intros col; [reflexivity|].
  cbn [textOfFrom map]. destruct rest as [|b' rest'].
  - change (String.append (hexLiteral b) EmptyString) with (hexLiteral b).
    apply tokenizeFrom_literal_end.
  - destruct (Nat.eqb (S col) perLine);
      rewrite tokenizeFrom_literal_sep by reflexivity;
      rewrite tokenizeFrom_noise by reflexivity;
      now rewrite IH.
Qed.

Lemma decodeTokens_literals (bytes : list Z) :
  Forall (fun b => 0 <= b < 256) bytes ->
  decodeTokens (map hexLiteral bytes) = Some bytes.
Proof.
  induction 1 as [|b rest Hb _ IH]; [reflexivity|].
  cbn [map decodeTokens]. now rewrite hexLiteral_byte, IH.
Qed.

Lemma decodeTokens_length (tokens : list string) (bytes : list Z) :
  decodeTokens tokens = Some bytes ->
  List.length bytes = List.length tokens.
Proof.
  revert bytes. induction tokens as [|token rest IH]; intros bytes H.
  - injection H as <-. reflexivity.
  - cbn [decodeTokens] in H.
    destruct (tokenByte token); [|discriminate].
    destruct (decodeTokens rest) as [bytes'|]; [|discriminate].
    injection H as <-. simpl. f_equal. now apply IH.
Qed.

Lemma decodeTokens_None (tokens : list string) :
  decodeTokens tokens = None <->
  exists token, In token tokens /\ tokenByte token = None.
Proof.
  induction tokens as [|token rest IH].
  - split; [discriminate|intros (? & [] & _)].
  - cbn [decodeTokens]. destruct (tokenByte token) as [b|] eqn:Hb.
    + destruct (decodeTokens rest) as [bytes|].
      * split; [discriminate|]. intros (t & [<- | Hin] & Ht); [congruence|].
        assert (@None (list Z) = None) as Hnone by reflexivity.
        destruct IH as [_ IH]. discriminate IH. now exists t.
      * split; [|reflexivity]. intros _.
        destruct IH as [IH _]. destruct (IH eq_refl) as (t & Hin & Ht).
        exists t. split; [now right|exact Ht].
    + split; [|reflexivity]. intros _. exists token. split; [now left|exact Hb].
Qed.

Lemma tokenByte_None (token : string) :
  tokenByte token = None <->
  tokenValue token = None \/ exists v, tokenValue token = Some v /\ 255 < v.
Proof.
  unfold tokenByte. destruct (tokenValue token) as [v|].
  - destruct (Z.leb_spec v 255).
    + split; [discriminate|].
      intros [Hnone | (v' & [= <-] & Hv)]; [discriminate|lia].
    + split; [|reflexivity]. intros _. right. now exists v.
  - split; [|reflexivity]. intros _. now left.
Qed.

(** The text of a sequence of bytes parses to the grid unpacked from the
    bytes, when there are as many bytes as the configuration implies. *)
Lemma parse_textOf (perLine : nat) (bytes : list Z) (width height : Z)
    (scanMode : ScanMode) (byteOrder : ByteOrder) :
  Forall (fun b => 0 <= b < 256) bytes ->
  0 < expectedBytes width height scanMode ->
  U8.length bytes = expectedBytes width height scanMode ->
  parseCArray (textOf perLine bytes) width height scanMode byteOrder =
  Some (unpack bytes width height scanMode byteOrder).
Proof.
  intros Hbytes Hpos Hcount.
  unfold parseCArray, textOf, tokenize. rewrite tokenize_textOfFrom.
  destruct (map hexLiteral bytes) as [|token tokens] eqn:Htokens.
  - apply map_eq_nil in Htokens. rewrite Htokens in Hcount.
    unfold U8.length in Hcount. simpl in Hcount. lia.
  - rewrite <- Htokens. rewrite decodeTokens_literals by exact Hbytes.
    unfold U8.length in Hcount. now rewrite Hcount, Z.eqb_refl.
Qed.

Lemma expectedBytes_pos (width height : Z) (scanMode : ScanMode) :
  0 < width -> 0 < height -> 0 < expectedBytes width height scanMode.
Proof.
  intros Hw Hh. unfold expectedBytes, ceilDiv8.
  destruct scanMode; apply Z.mul_pos_pos; try lia;
    Z.div_mod_to_equations; lia.
Qed.

(** C1: for every valid pixel buffer, every scan mode and every byte order,
    parsing the text generated from the buffer, with the buffer's width and
    height and the same configuration, returns the buffer (whatever the
    number of literals per line of the text). *)
Theorem C1_parse_generate_round_trip (perLine : nat) (pixels : Uint8Array)
    (width height : Z) (scanMode : ScanMode) (byteOrder : ByteOrder) :
  validBuffer pixels width height ->
  parseCArray (generateCArray perLine pixels width height scanMode byteOrder)
    width height scanMode byteOrder = Some pixels.
Proof.
  intros Hvalid. pose proof Hvalid as (Hw & Hh & Hlen & Hbin).
  unfold generateCArray. rewrite parse_textOf.
  - f_equal. now apply unpack_pack.
  - apply pack_bytes.
  - now apply expectedBytes_pos.
  - apply pack_length; lia.
Qed.

Lemma C1_parse_generate_round_trip_witness :
  parseCArray
    (generateCArray 4 [1; 0; 1; 1; 0; 0; 1; 0; 0; 1; 1; 1; 1; 0; 0] 5 3
       VERTICAL_PAGE LSB_FIRST)
    5 3 VERTICAL_PAGE LSB_FIRST =
  Some [1; 0; 1; 1; 0; 0; 1; 0; 0; 1; 1; 1; 1; 0; 0].
Proof.
  apply (C1_parse_generate_round_trip 4
           [1; 0; 1; 1; 0; 0; 1; 0; 0; 1; 1; 1; 1; 0; 0] 5 3
           VERTICAL_PAGE LSB_FIRST).
  unfold validBuffer. split; [lia|]. split; [lia|].
  split; [reflexivity|]. repeat (apply List.Forall_cons; [lia|]).
  apply List.Forall_nil.
Defined.

(** The preview of the exported text, parsed with the editor's own
    configuration, is the editor's buffer. *)
Lemma preview_of_generated_code (perLine : nat) (s : App.State)
    (cb : CodeBlock.State) :
  floatingLayer s = None ->
  validBuffer (pixels s) (width s) (height s) ->
  CodeBlock.editCode cb = generatedCode perLine s ->
  CodeBlock.impWidth cb = width s -> CodeBlock.impHeight cb = height s ->
  CodeBlock.impScanMode cb = scanMode s ->
  CodeBlock.impByteOrder cb = byteOrder s ->
  CodeBlock.isBlank (CodeBlock.editCode cb) = false ->
  CodeBlock.previewPixels (CodeBlock.panel (CodeBlock.handlePreview s cb)) =
  Some (pixels s).
Proof.
  intros Hfl Hvalid Htext Hw Hh Hsm Hbo Hblank.
  unfold CodeBlock.handlePreview. rewrite Hblank, Htext, Hw, Hh, Hsm, Hbo.
  unfold generatedCode, exportPixels, generateCArray. rewrite Hfl.
  pose proof Hvalid as (Hwpos & Hhpos & _ & _).
  rewrite parse_textOf;
    [|apply pack_bytes|now apply expectedBytes_pos|apply pack_length; lia].
  cbn [CodeBlock.panel CodeBlock.previewPixels CodeBlock.setPreviewPixels].
  f_equal. now apply unpack_pack.
Qed.

(** ** Parse failures *)

(** Parsing fails exactly in the three cases of the error policy. *)
(** A text of white space outside ASCII is blank: U+00A0, U+2028 and
    U+FEFF followed by a space. *)
Lemma isBlank_unicode_space :
  CodeBlock.isBlank
    (String (ascii_of_nat 194) (String (ascii_of_nat 160)
    (String (ascii_of_nat 226) (String (ascii_of_nat 128)
    (String (ascii_of_nat 168)
    (String (ascii_of_nat 239) (String (ascii_of_nat 187)
    (String (ascii_of_nat 191) (String (ascii_of_nat 32) EmptyString)))))))))
  = true.
Proof. reflexivity. Qed.

Lemma parseCArray_None (text : string) (width height : Z)
    (scanMode : ScanMode) (byteOrder : ByteOrder) :
  parseCArray text width height scanMode byteOrder = None <->
  tokenize text = []
  \/ (exists token, In token (tokenize text) /\ tokenByte token = None)
  \/ Z.of_nat (List.length (tokenize text)) <>
     expectedBytes width height scanMode.
Proof.
  unfold parseCArray.
  destruct (tokenize text) as [|token tokens] eqn:Htokens.
  - split; [now left|reflexivity].
  - rewrite <- Htokens.
    destruct (decodeTokens (tokenize text)) as [bytes|] eqn:Hdecode.
    + pose proof (decodeTokens_length _ _ Hdecode) as Hlen. rewrite Hlen.
      destruct (Z.eqb_spec (Z.of_nat (List.length (tokenize text)))
                  (expectedBytes width height scanMode)) as [Heq | Hne].
      * split; [discriminate|].
        intros [Hnil | [Hbad | Hcount]]; [congruence| |contradiction].
        apply decodeTokens_None in Hbad. congruence.
      * split; [|reflexivity]. intros _. right. now right.
    + split; [|reflexivity]. intros _. right. left.
      now apply decodeTokens_None.
Qed.

(** A successful parse decoded exactly the expected number of bytes and
    returns a grid of [width * height] cells. *)
Lemma parseCArray_Some (text : string) (width height : Z)
    (scanMode : ScanMode) (byteOrder : ByteOrder) (pixels : Uint8Array) :
  0 <= width -> 0 <= height ->
  parseCArray text width height scanMode byteOrder = Some pixels ->
  Z.of_nat (List.length (tokenize text)) = expectedBytes width height scanMode
  /\ U8.length pixels = width * height.
Proof.
  intros Hw Hh Hparse.
  destruct (Z.eq_dec (Z.of_nat (List.length (tokenize text)))
              (expectedBytes width height scanMode)) as [Heq | Hne].
  - split; [exact Heq|]. unfold parseCArray in Hparse.
    destruct (tokenize text); [discriminate|].
    destruct (decodeTokens _); [|discriminate].
    destruct (_ =? _); [|discriminate].
    injection Hparse as <-. now apply unpack_length.
  - assert (parseCArray text width height scanMode byteOrder = None) as Hnone
      by (apply parseCArray_None; right; now right).
    congruence.
Qed.

(** C3: parsing returns no result when the text has no numeric token, when
    a token is not parseable as an integer or its value exceeds 0xFF, and
    when the number of tokens is not the number of bytes the dimensions and
    the scan mode imply; the preview handler then leaves the editor's state
    (pixels and history included) and the panel's state as they were, and
    raises the alert unless the text was blank. *)
Theorem C3_parse_failure_is_no_result (text : string) (width height : Z)
    (scanMode : ScanMode) (byteOrder : ByteOrder) (a : App.State)
    (editing : bool) (preview : option Uint8Array) :
  let cb := CodeBlock.mkState editing text width height scanMode byteOrder
              preview in
  tokenize text = []
  \/ (exists token, In token (tokenize text) /\
        (tokenValue token = None \/
         exists v, tokenValue token = Some v /\ 255 < v))
  \/ Z.of_nat (List.length (tokenize text)) <>
     expectedBytes width height scanMode ->
  parseCArray text width height scanMode byteOrder = None
  /\ CodeBlock.handlePreview a cb =
       CodeBlock.mkOutcome a cb (negb (CodeBlock.isBlank text))
  /\ pixels (CodeBlock.app (CodeBlock.handlePreview a cb)) = pixels a
  /\ history (CodeBlock.app (CodeBlock.handlePreview a cb)) = history a
  /\ historyIndex (CodeBlock.app (CodeBlock.handlePreview a cb)) =
       historyIndex a.
Proof.
  intros cb Hbad.
  assert (parseCArray text width height scanMode byteOrder = None) as Hnone.
  { apply parseCArray_None.
    destruct Hbad as [Hnil | [(token & Hin & Htoken) | Hcount]].
    - now left.
    - right. left. exists token. split; [exact Hin|].
      now apply tokenByte_None.
    - right. now right. }
  split; [exact Hnone|].
  unfold CodeBlock.handlePreview. subst cb.
  cbn [CodeBlock.editCode CodeBlock.impWidth CodeBlock.impHeight
       CodeBlock.impScanMode CodeBlock.impByteOrder].
  rewrite Hnone. destruct (CodeBlock.isBlank text); repeat split.
Qed.

Lemma C3_parse_failure_is_no_result_witness :
  parseCArray "0x00, 0x01, 0x02, 0x03, 0x04" 8 8 HORIZONTAL_RASTER MSB_FIRST
  = None.
Proof.
  refine (proj1 (C3_parse_failure_is_no_result
    "0x00, 0x01, 0x02, 0x03, 0x04" 8 8 HORIZONTAL_RASTER MSB_FIRST
    App.initial false None _)).
  right. right. vm_compute. discriminate.
Defined.

(** * Further properties of the editor *)

(** ** Invert *)

Lemma invertCanvas_pixels (s : State) :
  invertCanvas s = updatePixels s (invertPixels (pixels s)) true.
Proof. reflexivity. Qed.

Lemma invertPixels_length (pixels : Uint8Array) :
  U8.length (invertPixels pixels) = U8.length pixels.
Proof.
  unfold invertPixels.
  change (forZ (U8.length pixels)
            (fun i next =>
               U8.set next i (if U8.truthy (U8.get pixels i) then 0 else 1))
            (U8.make (U8.length pixels)))
    with (applyWrites
            (fun i => Some (i, if U8.truthy (U8.get pixels i) then 0 else 1))
            (seqZ 0 (U8.length pixels)) (U8.make (U8.length pixels))).
  rewrite applyWrites_length. apply U8_length_make. unfold U8.length. lia.
Qed.

(** Every cell of the inverted array is 0 where the cell was set and 1
    where it was clear. *)
Lemma invertPixels_get (pixels : Uint8Array) (i : Z) :
  0 <= i < U8.length pixels ->
  U8.get (invertPixels pixels) i =
  Some (if U8.truthy (U8.get pixels i) then 0 else 1).
Proof.
  intros Hi. unfold invertPixels.
  change (forZ (U8.length pixels)
            (fun i next =>
               U8.set next i (if U8.truthy (U8.get pixels i) then 0 else 1))
            (U8.make (U8.length pixels)))
    with (applyWrites
            (fun i => Some (i, if U8.truthy (U8.get pixels i) then 0 else 1))
            (seqZ 0 (U8.length pixels)) (U8.make (U8.length pixels))).
  apply applyWrites_written with (e := i).
  - rewrite U8_length_make; [exact Hi|unfold U8.length; lia].
  - now apply in_seqZ.
  - reflexivity.
  - intros e' v' _ [= -> <-]. reflexivity.
Qed.

(** X1: inverting twice gives, cell for cell, 1 where the original cell was
    not zero and 0 where it was zero, in a buffer of the same length; on a
    buffer of 0/1 cells two inverts give the buffer back.  Each invert
    pushes its result to the history. *)
Theorem X1_invert_twice (s : State) :
  binaryCells (pixels s) ->
  let s1 := dispatch invertCanvas s in
  let s2 := dispatch invertCanvas s1 in
  pixels s2 = pixels s
  /\ (forall i, 0 <= i < U8.length (pixels s) ->
        U8.get (pixels s1) i =
        Some (if U8.truthy (U8.get (pixels s) i) then 0 else 1))
  /\ U8.length (pixels s1) = U8.length (pixels s)
  /\ history s1 = pushed (history s) (historyIndex s) (pixels s1)
  /\ history s2 = pushed (history s1) (historyIndex s1) (pixels s).
Proof.
  intros Hbin.
  assert (pixels (dispatch invertCanvas s) = invertPixels (pixels s)) as H1
    by reflexivity.
  assert (pixels (dispatch invertCanvas (dispatch invertCanvas s)) =
          invertPixels (invertPixels (pixels s))) as H2 by reflexivity.
  assert (invertPixels (invertPixels (pixels s)) = pixels s) as Hid.
  { apply U8_ext; [now rewrite !invertPixels_length|].
    rewrite !invertPixels_length. intros k Hk.
    rewrite invertPixels_get by now rewrite invertPixels_length.
    rewrite invertPixels_get by exact Hk.
    destruct (U8_get_Some (pixels s) k Hk) as [c Hc]. rewrite Hc.
    assert (c = 0 \/ c = 1) as Hc01.
    { unfold U8.get in Hc. destruct (0 <=? k); [|discriminate].
      apply list_elem_of_lookup_2 in Hc. unfold binaryCells in Hbin.
      rewrite Forall_forall in Hbin. now apply Hbin. }
    destruct Hc01 as [-> | ->]; reflexivity. }
  cbv zeta. rewrite H2, H1, Hid.
  split; [reflexivity|]. split; [intros i Hi; now apply invertPixels_get|].
  split; [apply invertPixels_length|]. split; [reflexivity|].
  change (history (dispatch invertCanvas (dispatch invertCanvas s)))
    with (pushed (history (dispatch invertCanvas s))
            (historyIndex (dispatch invertCanvas s))
            (invertPixels (pixels (dispatch invertCanvas s)))).
  now rewrite H1, Hid.
Qed.

Lemma X1_invert_twice_witness :
  pixels (dispatch invertCanvas
            (dispatch invertCanvas (freshHistory 2 2 [1; 0; 0; 1]))) =
  [1; 0; 0; 1].
Proof.
  refine (proj1 (X1_invert_twice (freshHistory 2 2 [1; 0; 0; 1]) _)).
  unfold binaryCells. simpl.
  repeat (apply List.Forall_cons; [lia|]). apply List.Forall_nil.
Defined.

(** ** Undo and redo *)

Lemma snapshotAt_lookup (h : list Uint8Array) (i : nat) (snap : Uint8Array) :
  h !! i = Some snap -> snapshotAt h (Z.of_nat i) = snap.
Proof.
  intros Hi. unfold snapshotAt, U8.copy.
  destruct (Z.leb_spec 0 (Z.of_nat i)); [|lia].
  now rewrite Nat2Z.id, Hi.
Qed.

(** The new history and its last two entries after a push onto a valid
    index: the snapshot that was current, then the pushed one. *)
Lemma pushed_entries (h : list Uint8Array) (idx : nat) (prev p : Uint8Array) :
  h !! idx = Some prev ->
  exists n : nat,
    List.length (pushed h (Z.of_nat idx) p) = S (S n)
    /\ pushed h (Z.of_nat idx) p !! n = Some prev
    /\ pushed h (Z.of_nat idx) p !! S n = Some p.
Proof.
  intros Hprev. pose proof (lookup_lt_Some _ _ _ Hprev) as Hlt.
  unfold pushed, shift, U8.copy. rewrite slice0_take by lia.
  replace (Z.to_nat (Z.of_nat idx + 1)) with (S idx) by lia.
  assert (List.length (take (S idx) h) = S idx) as Hlen
    by (rewrite length_take; lia).
  assert (take (S idx) h !! idx = Some prev) as Hkept.
  { rewrite lookup_take. destruct (decide (idx < S idx)%nat); [exact Hprev|lia]. }
  rewrite Hlen. destruct (Z.ltb_spec 50 (Z.of_nat (S idx))) as [Hbig | Hsmall].
  - destruct idx as [|idx']; [lia|]. exists idx'.
    rewrite length_app, length_drop, Hlen. cbn [List.length].
    split; [lia|]. split.
    + rewrite lookup_app_l by (rewrite length_drop, Hlen; lia).
      rewrite lookup_drop. exact Hkept.
    + rewrite lookup_app_r by (rewrite length_drop, Hlen; lia).
      rewrite length_drop, Hlen.
      replace (S idx' - (S (S idx') - 1))%nat with O by lia. reflexivity.
  - exists idx. rewrite length_app, Hlen. cbn [List.length].
    split; [lia|]. split.
    + rewrite lookup_app_l by lia. exact Hkept.
    + rewrite lookup_app_r by lia. rewrite Hlen.
      replace (S idx - S idx)%nat with O by lia. reflexivity.
Qed.

(** Undo one step back from a valid position, redo one step forward. *)
Lemma handleUndo_loads (s : State) (n : nat) (snap : Uint8Array) :
  floatingLayer s = None ->
  historyIndex s = Z.of_nat (S n) ->
  history s !! n = Some snap ->
  pixels (dispatch handleUndo s) = snap
  /\ historyIndex (dispatch handleUndo s) = Z.of_nat n
  /\ history (dispatch handleUndo s) = history s
  /\ floatingLayer (dispatch handleUndo s) = None.
Proof.
  intros Hfl Hidx Hsnap. unfold dispatch, handleUndo, andThen.
  rewrite Hfl, Hidx. destruct (Z.ltb_spec 0 (Z.of_nat (S n))); [|lia].
  replace (Z.of_nat (S n) - 1) with (Z.of_nat n) by lia.
  rewrite (snapshotAt_lookup _ _ _ Hsnap).
  repeat split. exact Hfl.
Qed.

Lemma handleRedo_loads (s : State) (n : nat) (snap : Uint8Array) :
  floatingLayer s = None ->
  historyIndex s = Z.of_nat n ->
  history s !! S n = Some snap ->
  pixels (dispatch handleRedo s) = snap
  /\ historyIndex (dispatch handleRedo s) = Z.of_nat (S n)
  /\ history (dispatch handleRedo s) = history s
  /\ floatingLayer (dispatch handleRedo s) = None.
Proof.
  intros Hfl Hidx Hsnap. unfold dispatch, handleRedo, andThen.
  rewrite Hfl, Hidx. pose proof (lookup_lt_Some _ _ _ Hsnap) as Hlt.
  destruct (Z.ltb_spec (Z.of_nat n) (Z.of_nat (List.length (history s)) - 1));
    [|lia].
  replace (Z.of_nat n + 1) with (Z.of_nat (S n)) by lia.
  rewrite (snapshotAt_lookup _ _ _ Hsnap).
  repeat split. exact Hfl.
Qed.

(** X2: with no layer floating and the history index on a snapshot [prev],
    a saved edit followed by undo shows [prev] again, and redo after that
    shows the edit; this also holds when the push evicted the oldest
    entry.  Undo and redo leave the history list as the push made it. *)
Theorem X2_undo_redo_after_edit (s : State) (p prev : Uint8Array) (idx : nat) :
  floatingLayer s = None ->
  historyIndex s = Z.of_nat idx ->
  history s !! idx = Some prev ->
  let edited := dispatch (fun s => updatePixels s p true) s in
  let undone := dispatch handleUndo edited in
  let redone := dispatch handleRedo undone in
  pixels edited = p
  /\ pixels undone = prev
  /\ historyIndex undone = historyIndex edited - 1
  /\ history undone = history edited
  /\ pixels redone = p
  /\ historyIndex redone = historyIndex edited
  /\ history redone = history edited.
Proof.
  intros Hfl Hidx Hprev.
  destruct (pushed_entries (history s) idx prev p Hprev)
    as (n & Hlen & Hn & HSn).
  cbv zeta.
  set (edited := dispatch (fun s => updatePixels s p true) s).
  assert (pixels edited = p) as Hp by reflexivity.
  assert (history edited = pushed (history s) (Z.of_nat idx) p) as Hh
    by (unfold edited, dispatch, updatePixels, addToHistory, andThen;
        now rewrite Hidx).
  assert (historyIndex edited = Z.of_nat (S n)) as Hi.
  { unfold edited, dispatch, updatePixels, addToHistory, andThen.
    cbn [historyIndex setHistoryIndex]. rewrite Hidx, Hlen. lia. }
  assert (floatingLayer edited = None) as Hfl' by exact Hfl.
  rewrite <- Hh in Hn, HSn.
  destruct (handleUndo_loads edited n prev Hfl' Hi Hn)
    as (Hup & Hui & Huh & Hufl).
  rewrite <- Huh in HSn.
  destruct (handleRedo_loads (dispatch handleUndo edited) n p Hufl Hui HSn)
    as (Hrp & Hri & Hrh & _).
  rewrite Hp, Hup, Hui, Huh, Hrp, Hri, Hrh, Huh, Hi.
  repeat split; lia.
Qed.

Lemma X2_undo_redo_after_edit_witness :
  pixels (dispatch handleUndo
            (dispatch (fun s => updatePixels s [1] true)
               (freshHistory 1 1 [0]))) = [0].
Proof.
  refine (proj1 (proj2 (X2_undo_redo_after_edit
    (freshHistory 1 1 [0]) [1] [0] 0 _ _ _))); reflexivity.
Defined.

Lemma historyIndexValid_step (s : State) (e : Event) :
  historyIndexValid s -> historyIndexValid (step s e).
Proof.
  unfold historyIndexValid. intros Hs.
  destruct e; do 3 unfold_handlers; split_matches;
    cbn [history historyIndex setWidth setHeight setPixels setHistory
         setHistoryIndex setTool setScanMode setByteOrder setSelection
         setClipboard setFloatingLayer setBackgroundSnapshot];
    first
      [ exact Hs
      | left; split; reflexivity
      | match goal with
        | |- context [pushed ?h ?i ?p] =>
            pose proof (pushed_length_pos h i p); right; lia
        end
      | right; simpl; lia
      | destruct Hs as [[? ?] | ?]; bool_to_prop; right; lia ].
Qed.

Lemma historyIndexValid_reachable (s : State) :
  reachable s -> historyIndexValid s.
Proof.
  induction 1 as [|s e _ IH|s0 s p _ _ _ _
                  |built s _ _ _ IH _|built s _ _ _ IH _
                  |built s _ _ _ IH _ _].
  - left. split; reflexivity.
  - now apply historyIndexValid_step.
  - unfold historyIndexValid, imageLoaded, updatePixels, addToHistory, andThen.
    cbn [history historyIndex setPixels setHistory setHistoryIndex].
    pose proof (pushed_length_pos (history s0) (historyIndex s0) p).
    right. lia.
  - unfold historyIndexValid in *. memo_cases; first
      [ exact IH
      | match goal with
        | |- context [pushed ?h ?i ?p] =>
            pose proof (pushed_length_pos h i p); right; lia
        end ].
  - unfold historyIndexValid in *. memo_cases; first
      [ exact IH
      | match goal with
        | |- context [pushed ?h ?i ?p] =>
            pose proof (pushed_length_pos h i p); right; lia
        end ].
  - unfold historyIndexValid in *. memo_cases; first
      [ exact IH
      | match goal with
        | |- context [pushed ?h ?i ?p] =>
            pose proof (pushed_length_pos h i p); right; lia
        end ].
Qed.

(** X3: in every reachable state the history index points at an entry of
    the history, or the history is empty and the index is -1.  So when no
    layer floats, undo at a positive index and redo below the last index
    always find the snapshot they load: the pixels are never replaced by an
    empty array. *)
Theorem X3_history_index_valid (s : State) :
  reachable s ->
  historyIndexValid s
  /\ (floatingLayer s = None -> 0 < historyIndex s ->
      exists snap,
        history s !! Z.to_nat (historyIndex s - 1) = Some snap /\
        pixels (dispatch handleUndo s) = snap /\
        historyIndex (dispatch handleUndo s) = historyIndex s - 1)
  /\ (floatingLayer s = None ->
      historyIndex s < Z.of_nat (List.length (history s)) - 1 ->
      exists snap,
        history s !! Z.to_nat (historyIndex s + 1) = Some snap /\
        pixels (dispatch handleRedo s) = snap /\
        historyIndex (dispatch handleRedo s) = historyIndex s + 1).
Proof.
  intros Hreach. pose proof (historyIndexValid_reachable s Hreach) as Hvalid.
  split; [exact Hvalid|]. split.
  - intros Hfl Hpos. destruct Hvalid as [[_ Hneg] | Hin]; [lia|].
    destruct (lookup_lt_is_Some_2 (history s)
                (Z.to_nat (historyIndex s - 1)) ltac:(lia)) as [snap Hsnap].
    exists snap. split; [exact Hsnap|].
    destruct (handleUndo_loads s (Z.to_nat (historyIndex s - 1)) snap
                Hfl ltac:(lia) Hsnap) as (Hp & Hi & _).
    split; [exact Hp|lia].
  - intros Hfl Hlast. destruct Hvalid as [[Hnil Hneg] | Hin].
    + rewrite Hnil in Hlast. simpl in Hlast. lia.
    + destruct (lookup_lt_is_Some_2 (history s)
                  (Z.to_nat (historyIndex s + 1)) ltac:(lia)) as [snap Hsnap].
      exists snap. split; [exact Hsnap|].
      replace (Z.to_nat (historyIndex s + 1))
        with (S (Z.to_nat (historyIndex s))) in Hsnap by lia.
      destruct (handleRedo_loads s (Z.to_nat (historyIndex s)) snap
                  Hfl ltac:(lia) Hsnap) as (Hp & Hi & _).
      split; [exact Hp|lia].
Qed.

Lemma X3_history_index_valid_witness :
  historyIndexValid (run selectedThenResized).
Proof.
  exact (proj1 (X3_history_index_valid (run selectedThenResized)
                  (reachable_run selectedThenResized))).
Defined.

(** ** The enabling flags of the control panel *)

Lemma setSelection_same (s : State) :
  setSelection (selection s) s = s.
Proof. now destruct s. Qed.

(** X4: the undo button is enabled exactly when undo changes the state, and
    the redo button exactly when redo changes it; with [hasSelection] false
    copy, cut and deselect change nothing, and with [hasClipboard] false
    paste changes nothing. *)
Theorem X4_enabling_flags (s : State) :
  (canUndo s = false <-> dispatch handleUndo s = s)
  /\ (canRedo s = false <-> dispatch handleRedo s = s)
  /\ (hasSelection s = false ->
      dispatch handleCopy s = s /\ dispatch handleCut s = s /\
      dispatch handleDeselect s = s)
  /\ (hasClipboard s = false -> dispatch handlePaste s = s).
Proof.
  split; [|split; [|split]].
  - unfold canUndo, dispatch, handleUndo, handleDiscardFloatingLayer, andThen,
      skip.
    destruct (floatingLayer s) as [fl|] eqn:Hfl.
    + rewrite bool_decide_eq_true_2 by (eexists; reflexivity).
      rewrite orb_true_r. split; [discriminate|].
      intros Heq. apply (f_equal floatingLayer) in Heq.
      cbn [floatingLayer setFloatingLayer setBackgroundSnapshot] in Heq.
      congruence.
    + rewrite bool_decide_eq_false_2 by (intros [? [=]]).
      rewrite orb_false_r.
      destruct (Z.ltb_spec 0 (historyIndex s)); split; try reflexivity;
        try discriminate.
      intros Heq. apply (f_equal historyIndex) in Heq.
      cbn [historyIndex setPixels setHistoryIndex] in Heq. lia.
  - unfold canRedo, dispatch, handleRedo, andThen, skip.
    destruct (floatingLayer s) as [fl|] eqn:Hfl.
    + rewrite andb_false_intro2; [tauto|].
      now rewrite bool_decide_eq_true_2 by (eexists; reflexivity).
    + rewrite bool_decide_eq_false_2 by (intros [? [=]]).
      rewrite andb_true_r.
      destruct (Z.ltb_spec (historyIndex s)
                  (Z.of_nat (List.length (history s)) - 1));
        split; try reflexivity; try discriminate.
      intros Heq. apply (f_equal historyIndex) in Heq.
      cbn [historyIndex setPixels setHistoryIndex] in Heq. lia.
  - unfold hasSelection. intros Hflag.
    apply orb_false_elim in Hflag. destruct Hflag as [Hsel Hfl].
    apply bool_decide_eq_false_1 in Hsel.
    apply bool_decide_eq_false_1 in Hfl.
    destruct (selection s) as [sel|] eqn:Hs; [exfalso; apply Hsel; eauto|].
    destruct (floatingLayer s) as [fl|] eqn:Hf; [exfalso; apply Hfl; eauto|].
    unfold dispatch, handleCopy, handleCut, handleDeselect.
    rewrite Hs, Hf. repeat split.
    rewrite <- Hs. apply setSelection_same.
  - unfold hasClipboard. intros Hflag.
    apply bool_decide_eq_false_1 in Hflag.
    unfold dispatch, handlePaste.
    destruct (clipboard s) as [clip|]; [exfalso; apply Hflag; eauto|].
    reflexivity.
Qed.

Lemma X4_enabling_flags_witness :
  dispatch handlePaste App.initial = App.initial.
Proof.
  refine (proj2 (proj2 (proj2 (X4_enabling_flags App.initial))) _).
  reflexivity.
Defined.

(** ** Pen, eraser and selection drag *)

(** X5: with the pen or the eraser, a draw at a cell inside the buffer sets
    that cell to the tool's value (0 for the eraser or with shift, else 1)
    and no other cell; the cell count, the history and its index stay.  A
    draw outside the buffer changes nothing. *)
Theorem X5_draw_sets_one_cell (s : State) (x y : Z) (shiftKey : bool) :
  tool s <> SELECT ->
  U8.length (pixels s) = width s * height s ->
  let s' := dispatch (drawAt x y shiftKey) s in
  let targetVal :=
    if match tool s with ERASER => true | _ => shiftKey end then 0 else 1 in
  (0 <= x < width s -> 0 <= y < height s ->
     U8.get (pixels s') (y * width s + x) = Some targetVal
     /\ (forall k, k <> y * width s + x ->
           U8.get (pixels s') k = U8.get (pixels s) k))
  /\ (~ (0 <= x < width s /\ 0 <= y < height s) -> s' = s)
  /\ U8.length (pixels s') = U8.length (pixels s)
  /\ history s' = history s
  /\ historyIndex s' = historyIndex s.
Proof.
  intros Htool Hlen. cbv zeta. unfold dispatch, drawAt.
  destruct (tool s) eqn:Ht; [| |congruence];
    (destruct ((0 <=? x) && (x <? width s) && (0 <=? y) && (y <? height s))
       eqn:Hin;
     [ bool_to_prop;
       match goal with
       | |- context [bool_decide ?P] => destruct (bool_decide_reflect P) as [Hsame | Hdiff]
       end;
       unfold updatePixels, andThen, skip, U8.copy;
       cbn [negb pixels history historyIndex setPixels];
       (split; [intros _ _; split;
                 [first [exact Hsame
                        | apply U8_get_set_eq;
                          pose proof (cell_index_range (width s) (height s) x y);
                          lia]
                 | intros k Hk; first [reflexivity
                                      | apply U8_get_set_ne; congruence]]
               |]);
       (split; [intros Hout; exfalso; apply Hout; lia|]);
       rewrite ?U8_length_set; repeat split
     | unfold skip;
       split; [intros Hx Hy; exfalso; bool_to_prop; lia|];
       repeat split ]).
Qed.

Lemma X5_draw_sets_one_cell_witness :
  U8.get (pixels (dispatch (drawAt 1 0 false) (freshHistory 2 1 [0; 0])))
    (0 * 2 + 1) = Some 1.
Proof.
  refine (proj1 (proj1 (X5_draw_sets_one_cell (freshHistory 2 1 [0; 0]) 1 0
                          false _ _) _ _));
    simpl; try discriminate; try reflexivity; lia.
Defined.

(** X6: a selection drag that started on a cell inside the buffer always
    yields a rectangle that lies inside the buffer, is not empty and
    contains the start cell, wherever the cursor is; it also contains the
    cursor's cell when that cell is inside the buffer. *)
Theorem X6_drag_selection_clamped (s : State) (startX startY x y : Z) :
  tool s = SELECT ->
  0 <= startX < width s -> 0 <= startY < height s ->
  exists rect,
    selection (dispatch (dragSelection startX startY x y) s) = Some rect
    /\ rectInside rect (width s) (height s)
    /\ 0 < SelectionRect.w rect /\ 0 < SelectionRect.h rect
    /\ inBox (SelectionRect.x rect) (SelectionRect.y rect)
         (SelectionRect.w rect) (SelectionRect.h rect) startX startY = true
    /\ (0 <= x < width s -> 0 <= y < height s ->
        inBox (SelectionRect.x rect) (SelectionRect.y rect)
          (SelectionRect.w rect) (SelectionRect.h rect) x y = true).
Proof.
  intros Htool Hx Hy. unfold dispatch, dragSelection. rewrite Htool.
  eexists. split; [reflexivity|].
  unfold rectInside, inBox. cbn [SelectionRect.x SelectionRect.y
                                 SelectionRect.w SelectionRect.h].
  repeat split; lia.
Qed.

Lemma X6_drag_selection_clamped_witness :
  exists rect,
    selection (dispatch (dragSelection 1 0 7 (-3))
                 (mkState 4 2 [0; 0; 0; 0; 0; 0; 0; 0] [] (-1) SELECT
                    VERTICAL_PAGE MSB_FIRST None None None None)) = Some rect
    /\ rectInside rect 4 2.
Proof.
  destruct (X6_drag_selection_clamped
              (mkState 4 2 [0; 0; 0; 0; 0; 0; 0; 0] [] (-1) SELECT
                 VERTICAL_PAGE MSB_FIRST None None None None) 1 0 7 (-3))
    as (rect & Hsel & Hin & _); [reflexivity|simpl; lia|simpl; lia|].
  exists rect. split; [exact Hsel|exact Hin].
Defined.

(** ** Copy, cut, paste and move *)

(** Two loops that agree on the accumulators an invariant allows. *)
Lemma forZ_ext_invariant {A : Type} (I : A -> Prop) (n : Z)
    (body1 body2 : Z -> A -> A) (init : A) :
  I init ->
  (forall i acc, 0 <= i < n -> I acc ->
     body1 i acc = body2 i acc /\ I (body2 i acc)) ->
  forZ n body1 init = forZ n body2 init /\ I (forZ n body2 init).
Proof.
  intros Hinit Hstep. destruct (Z_le_gt_dec n 0) as [Hn | Hn].
  - rewrite !forZ_nonpos by exact Hn. now split.
  - assert (forall k, 0 <= k -> k <= n ->
              forZ k body1 init = forZ k body2 init /\
              I (forZ k body2 init)) as H.
    { intros k Hk. pattern k. apply natlike_ind; [| |exact Hk].
      - intros _. rewrite !forZ_nonpos by lia. now split.
      - intros j Hj IH Hle. unfold Z.succ. rewrite !forZ_succ by lia.
        destruct (IH ltac:(lia)) as [Heq Hinv]. rewrite Heq.
        apply Hstep; [lia|exact Hinv]. }
    apply H; lia.
Qed.

(** The copy loop is the buffer half of the lift loop, and the zeroing loop
    of cut and delete is its background half. *)
Lemma copyRect_lift (sel : SelectionRect.t) (width : Z) (pixels : Uint8Array) :
  copyRect sel width pixels = fst (liftRect sel width pixels).
Proof.
  rewrite liftRect_writes. cbn [fst]. rewrite <- forZ_applyWrites.
  unfold copyRect. apply forZ_ext. intros cy acc _.
  etransitivity; [|reflexivity].
  apply forZ_ext. intros cx acc' _.
  unfold liftBufferWrite, applyWrite. now destruct (_ <? _).
Qed.

Lemma clearRect_lift (sel : SelectionRect.t) (width : Z) (pixels : Uint8Array) :
  clearRect sel width pixels = snd (liftRect sel width pixels).
Proof.
  rewrite liftRect_writes. cbn [snd]. rewrite <- forZ_applyWrites.
  unfold clearRect, U8.copy.
  apply (forZ_ext_invariant (fun acc => U8.length acc = U8.length pixels));
    [reflexivity|].
  intros cy acc _ Hacc. split; [|now rewrite applyWrites_length].
  change (applyWrites (fun e => liftCutWrite sel width pixels (cy, e))
            (seqZ 0 (SelectionRect.w sel)) acc)
    with (forZ (SelectionRect.w sel)
            (fun cx acc => applyWrite acc (liftCutWrite sel width pixels (cy, cx)))
            acc).
  apply (forZ_ext_invariant (fun acc => U8.length acc = U8.length pixels));
    [exact Hacc|].
  intros cx acc' _ Hacc'. unfold liftCutWrite, applyWrite. rewrite Hacc'.
  destruct (_ <? _); [|now split].
  split; [reflexivity|now rewrite U8_length_set].
Qed.

(** Two buffers of [width * height] cells that agree on every cell are
    equal. *)
Lemma U8_ext_cells (a b : Uint8Array) (width height : Z) :
  0 <= width ->
  U8.length a = width * height -> U8.length b = width * height ->
  (forall tx ty, 0 <= tx < width -> 0 <= ty < height ->
     U8.get a (ty * width + tx) = U8.get b (ty * width + tx)) ->
  a = b.
Proof.
  intros Hw Ha Hb Hcells. apply U8_ext; [congruence|].
  intros k Hk. rewrite Ha in Hk.
  assert (0 < width) as Hwpos.
  { destruct (Z.eq_dec width 0) as [Hzero | Hne]; [|lia].
    rewrite Hzero in Hk. lia. }
  assert (0 <= k mod width < width) as Hx by (apply Z.mod_pos_bound; lia).
  assert (0 <= k / width < height) as Hy.
  { split; [apply Z.div_pos; lia|apply Z.div_lt_upper_bound; lia]. }
  assert (k = k / width * width + k mod width) as Hkxy.
  { rewrite (Z.div_mod k width) at 1 by lia. lia. }
  rewrite Hkxy. now apply Hcells.
Qed.

(** The cells after a lifted rectangle is merged back at [(nx, ny)]: under
    the layer's new place the cell it carries, elsewhere in the old place
    0, everywhere else the old cell. *)
Lemma lift_merge_get (rect : SelectionRect.t) (width height : Z)
    (pixels : Uint8Array) (nx ny tx ty : Z) :
  U8.length pixels = width * height ->
  rectInside rect width height ->
  0 <= tx < width -> 0 <= ty < height ->
  U8.get
    (mergeLayer
       (FloatingLayer.mk nx ny (SelectionRect.w rect) (SelectionRect.h rect)
          (fst (liftRect rect width pixels)))
       width height (snd (liftRect rect width pixels)))
    (ty * width + tx) =
  if inBox nx ny (SelectionRect.w rect) (SelectionRect.h rect) tx ty
  then U8.get pixels
         ((SelectionRect.y rect + (ty - ny)) * width
          + (SelectionRect.x rect + (tx - nx)))
  else if inBox (SelectionRect.x rect) (SelectionRect.y rect)
            (SelectionRect.w rect) (SelectionRect.h rect) tx ty
       then Some 0
       else U8.get pixels (ty * width + tx).
Proof.
  intros Hlen (Hx & Hy & Hw & Hh & Hright & Hbottom) Htx Hty.
  rewrite mergeLayer_get; [| |exact Htx|exact Hty].
  - cbv zeta. cbn [FloatingLayer.x FloatingLayer.y FloatingLayer.w
                   FloatingLayer.h FloatingLayer.data].
    unfold inBox.
    replace ((nx <=? tx) && (tx <? nx + SelectionRect.w rect)
             && (ny <=? ty) && (ty <? ny + SelectionRect.h rect))
      with ((0 <=? tx - nx) && (tx - nx <? SelectionRect.w rect)
            && (0 <=? ty - ny) && (ty - ny <? SelectionRect.h rect))
      by (apply eq_true_iff_eq;
          rewrite !andb_true_iff, !Z.leb_le, !Z.ltb_lt; lia).
    destruct ((0 <=? tx - nx) && (tx - nx <? SelectionRect.w rect)
              && (0 <=? ty - ny) && (ty - ny <? SelectionRect.h rect)) eqn:Hbox.
    + bool_to_prop.
      rewrite liftRect_buffer_get with (height := height)
        by (assumption || lia).
      assert (0 <= (SelectionRect.y rect + (ty - ny)) * width
                   + (SelectionRect.x rect + (tx - nx)) < U8.length pixels)
        as Hidx by (rewrite Hlen; apply cell_index_range; lia).
      destruct (U8_get_Some pixels _ Hidx) as [v Hv]. now rewrite Hv.
    + apply liftRect_background_get with (height := height);
        assumption || lia.
  - pose proof (liftRect_writes rect width pixels) as Hlift. cbv zeta in Hlift.
    rewrite Hlift. cbn [snd]. now rewrite applyWrites_length.
Qed.

(** Merged back in place, the lifted rectangle gives the buffer back. *)
Lemma lift_merge_in_place (rect : SelectionRect.t) (width height : Z)
    (pixels : Uint8Array) :
  0 <= width ->
  U8.length pixels = width * height ->
  rectInside rect width height ->
  mergeLayer
    (FloatingLayer.mk (SelectionRect.x rect) (SelectionRect.y rect)
       (SelectionRect.w rect) (SelectionRect.h rect)
       (fst (liftRect rect width pixels)))
    width height (snd (liftRect rect width pixels)) = pixels.
Proof.
  intros Hwidth Hlen Hin.
  apply (U8_ext_cells _ _ width height Hwidth); [|exact Hlen|].
  - rewrite mergeLayer_length.
    pose proof (liftRect_writes rect width pixels) as Hlift. cbv zeta in Hlift.
    rewrite Hlift. cbn [snd]. now rewrite applyWrites_length.
  - intros tx ty Htx Hty. rewrite lift_merge_get by assumption.
    destruct (inBox (SelectionRect.x rect) (SelectionRect.y rect)
                (SelectionRect.w rect) (SelectionRect.h rect) tx ty);
      [|reflexivity].
    f_equal. lia.
Qed.

(** X7: copy of a selection that lies inside the buffer puts exactly the
    rectangle's cells, row by row, on the clipboard, and changes nothing
    else: pixels, history, selection and floating layer stay. *)
Theorem X7_copy_takes_rectangle (s : State) (sel : SelectionRect.t) :
  selection s = Some sel ->
  U8.length (pixels s) = width s * height s ->
  rectInside sel (width s) (height s) ->
  let s' := dispatch handleCopy s in
  exists clip,
    clipboard s' =
      Some (ClipboardData.mk (SelectionRect.w sel) (SelectionRect.h sel) clip)
    /\ U8.length clip = SelectionRect.w sel * SelectionRect.h sel
    /\ (forall cx cy,
          0 <= cx < SelectionRect.w sel -> 0 <= cy < SelectionRect.h sel ->
          U8.get clip (cy * SelectionRect.w sel + cx) =
          U8.get (pixels s)
            ((SelectionRect.y sel + cy) * width s + (SelectionRect.x sel + cx)))
    /\ pixels s' = pixels s
    /\ history s' = history s /\ historyIndex s' = historyIndex s
    /\ selection s' = selection s
    /\ floatingLayer s' = floatingLayer s.
Proof.
  intros Hsel Hlen (Hx & Hy & Hw & Hh & Hright & Hbottom).
  cbv zeta. unfold dispatch, handleCopy. rewrite Hsel.
  exists (copyRect sel (width s) (pixels s)).
  split; [reflexivity|]. split; [now apply copyRect_length|].
  split; [|repeat split; assumption].
  intros cx cy Hcx Hcy. rewrite copyRect_lift.
  apply liftRect_buffer_get with (height := height s); assumption.
Qed.

Lemma X7_copy_takes_rectangle_witness :
  let s := mkState 2 2 [1; 0; 0; 1] [[1; 0; 0; 1]] 0 SELECT VERTICAL_PAGE
             MSB_FIRST (Some (SelectionRect.mk 1 0 1 2)) None None None in
  exists clip,
    clipboard (dispatch handleCopy s) = Some (ClipboardData.mk 1 2 clip)
    /\ U8.length clip = 1 * 2.
Proof.
  cbv zeta.
  destruct (X7_copy_takes_rectangle
    (mkState 2 2 [1; 0; 0; 1] [[1; 0; 0; 1]] 0 SELECT VERTICAL_PAGE
       MSB_FIRST (Some (SelectionRect.mk 1 0 1 2)) None None None)
    (SelectionRect.mk 1 0 1 2)) as (clip & Hclip & Hlen & _);
    [reflexivity|reflexivity|unfold rectInside; simpl; lia|].
  exists clip. split; [exact Hclip|exact Hlen].
Defined.

(** X8: cut of a selection inside the buffer, with no layer floating,
    zeroes the rectangle's cells and no others.  [handleCut] is memoised on
    [[selection, pixels, width, handleCopy]]: it runs as the render [built]
    made it, and the history it leaves is made of the entries that [built]
    holds up to its index (less the oldest one on overflow) and the cut
    buffer.  Paste right after the cut places the cut cells over the
    selection, and committing that layer gives back the pixels as they were
    before the cut, as one more history entry after the cut buffer. *)
Theorem X8_cut_paste_commit_restores (built s : State)
    (sel : SelectionRect.t) :
  selection s = Some sel ->
  floatingLayer s = None ->
  0 <= width s ->
  U8.length (pixels s) = width s * height s ->
  rectInside sel (width s) (height s) ->
  cutDeps built s ->
  let cut := dispatchMemo handleCut built s in
  let pasted := dispatch handlePaste cut in
  let committed := dispatch handleCommitFloatingLayer pasted in
  let kept := slice0 (history built) (historyIndex built + 1) in
  (forall tx ty, 0 <= tx < width s -> 0 <= ty < height s ->
     U8.get (pixels cut) (ty * width s + tx) =
     if inBox (SelectionRect.x sel) (SelectionRect.y sel)
          (SelectionRect.w sel) (SelectionRect.h sel) tx ty
     then Some 0
     else U8.get (pixels s) (ty * width s + tx))
  /\ history cut =
       (if 50 <? Z.of_nat (List.length kept) then drop 1 kept else kept)
         ++ [pixels cut]
  /\ historyIndex cut = Z.of_nat (List.length (history cut)) - 1
  /\ pixels pasted = pixels cut
  /\ history pasted = history cut
  /\ floatingLayer pasted =
       Some (FloatingLayer.mk (SelectionRect.x sel) (SelectionRect.y sel)
               (SelectionRect.w sel) (SelectionRect.h sel)
               (copyRect sel (width s) (pixels s)))
  /\ pixels committed = pixels s
  /\ history committed =
       (if 50 <? Z.of_nat (List.length (history cut))
        then drop 1 (history cut) else history cut) ++ [pixels s]
  /\ historyIndex committed = Z.of_nat (List.length (history committed)) - 1.
Proof.
  intros Hsel Hfl Hwidth Hlen Hin (Hbsel & Hbp & Hbw). pose proof Hin as
    (Hx & Hy & Hw & Hh & Hright & Hbottom). cbv zeta.
  set (cut := dispatchMemo handleCut built s).
  assert (pixels cut = clearRect sel (width s) (pixels s)
          /\ history cut =
               pushed (history built) (historyIndex built)
                 (clearRect sel (width s) (pixels s))
          /\ historyIndex cut = Z.of_nat (List.length (history cut)) - 1
          /\ clipboard cut =
               Some (ClipboardData.mk (SelectionRect.w sel)
                       (SelectionRect.h sel)
                       (copyRect sel (width s) (pixels s)))
          /\ selection cut = Some sel
          /\ floatingLayer cut = None
          /\ width cut = width s /\ height cut = height s)
    as (Hcutp & Hcuth & Hcuti & Hclip & Hsel' & Hfl' & Hcw & Hch).
  { unfold cut, dispatchMemo, handleCut, handleCopy, updatePixels,
      addToHistory, andThen.
    rewrite Hbsel, Hsel, Hbp, Hbw.
    cbn [pixels history historyIndex clipboard selection floatingLayer width
         height setPixels setHistory setHistoryIndex setClipboard].
    repeat split; assumption. }
  set (pasted := dispatch handlePaste cut).
  assert (pixels pasted = pixels cut /\ history pasted = history cut /\
          historyIndex pasted = historyIndex cut /\
          width pasted = width s /\ height pasted = height s /\
          floatingLayer pasted =
            Some (FloatingLayer.mk (SelectionRect.x sel) (SelectionRect.y sel)
                    (SelectionRect.w sel) (SelectionRect.h sel)
                    (copyRect sel (width s) (pixels s))))
    as (Hpp & Hph & Hpi & Hpw & Hphh & Hpfl).
  { unfold pasted, dispatch, handlePaste. rewrite Hclip, Hfl', Hsel'.
    repeat split; assumption. }
  assert (pixels (dispatch handleCommitFloatingLayer pasted) = pixels s) as Hback.
  { unfold dispatch, handleCommitFloatingLayer. rewrite Hpfl.
    unfold updatePixels, andThen. cbn [pixels setPixels setHistory
      setHistoryIndex setSelection setFloatingLayer setBackgroundSnapshot
      addToHistory]. unfold U8.copy.
    rewrite Hpp, Hpw, Hphh, Hcutp, copyRect_lift, clearRect_lift.
    now apply lift_merge_in_place. }
  assert (history (dispatch handleCommitFloatingLayer pasted) =
          pushed (history cut) (historyIndex cut) (pixels s)
          /\ historyIndex (dispatch handleCommitFloatingLayer pasted) =
             Z.of_nat (List.length
               (history (dispatch handleCommitFloatingLayer pasted))) - 1)
    as (Hch' & Hci').
  { rewrite <- Hback.
    unfold dispatch, handleCommitFloatingLayer. rewrite Hpfl.
    unfold updatePixels, addToHistory, andThen.
    cbn [history historyIndex setPixels setHistory setHistoryIndex
         setSelection setFloatingLayer setBackgroundSnapshot].
    rewrite Hph, Hpi. split; reflexivity. }
  split; [|split; [|split; [|split; [|split; [|split; [|split; [|split]]]]]]].
  - intros tx ty Htx Hty. rewrite Hcutp, clearRect_lift.
    apply liftRect_background_get with (height := height s); assumption.
  - rewrite Hcuth, Hcutp. apply pushed_entries_kept.
  - exact Hcuti.
  - exact Hpp.
  - exact Hph.
  - exact Hpfl.
  - exact Hback.
  - rewrite Hch', pushed_entries_kept. cbv zeta.
    rewrite Hcuti, slice0_all. reflexivity.
  - exact Hci'.
Qed.

Lemma X8_cut_paste_commit_restores_witness :
  let built := mkState 2 2 [1; 0; 0; 1] [] (-1) SELECT VERTICAL_PAGE
                 MSB_FIRST (Some (SelectionRect.mk 1 0 1 2)) None None None in
  let s := mkState 2 2 [1; 0; 0; 1] [[1; 0; 0; 1]] 0 SELECT VERTICAL_PAGE
             MSB_FIRST (Some (SelectionRect.mk 1 0 1 2)) None None None in
  pixels (dispatch handleCommitFloatingLayer
            (dispatch handlePaste (dispatchMemo handleCut built s))) =
  pixels s.
Proof.
  cbv zeta.
  refine (proj1 (proj2 (proj2 (proj2 (proj2 (proj2 (proj2
    (X8_cut_paste_commit_restores
       (mkState 2 2 [1; 0; 0; 1] [] (-1) SELECT VERTICAL_PAGE
          MSB_FIRST (Some (SelectionRect.mk 1 0 1 2)) None None None)
       (mkState 2 2 [1; 0; 0; 1] [[1; 0; 0; 1]] 0 SELECT VERTICAL_PAGE
          MSB_FIRST (Some (SelectionRect.mk 1 0 1 2)) None None None)
       (SelectionRect.mk 1 0 1 2) _ _ _ _ _ _))))))));
    try reflexivity;
    first [ unfold rectInside; simpl; lia
          | unfold cutDeps; repeat split ].
Defined.

(** The state after a lift from a state without a floating layer. *)
Lemma lift_state (s : State) (rect : SelectionRect.t) :
  floatingLayer s = None ->
  let lifted := dispatch (handleLiftSelection rect) s in
  pixels lifted = snd (liftRect rect (width s) (pixels s))
  /\ floatingLayer lifted =
       Some (FloatingLayer.mk (SelectionRect.x rect) (SelectionRect.y rect)
               (SelectionRect.w rect) (SelectionRect.h rect)
               (fst (liftRect rect (width s) (pixels s))))
  /\ backgroundSnapshot lifted = Some (pixels s)
  /\ width lifted = width s /\ height lifted = height s
  /\ history lifted = history s /\ historyIndex lifted = historyIndex s
  /\ selection lifted = selection s.
Proof.
  intros Hfl. cbv zeta. unfold dispatch, handleLiftSelection. rewrite Hfl.
  destruct (liftRect rect (width s) (pixels s)) as [buffer newPixels].
  repeat split.
Qed.

(** X9: lifting a rectangle inside the buffer, dragging the layer to
    [(nx, ny)] and committing moves the rectangle: a cell under the layer's
    new place takes the cell the layer carries there, a cell of the old
    place that the layer no longer covers is 0, every other cell is
    unchanged (the part of the layer that leaves the buffer is lost).
    Committed where it was lifted, the layer gives the pixels back.  The
    whole move is one history entry. *)
Theorem X9_lift_drag_commit_moves (s : State) (rect : SelectionRect.t)
    (nx ny : Z) :
  floatingLayer s = None ->
  0 <= width s ->
  U8.length (pixels s) = width s * height s ->
  rectInside rect (width s) (height s) ->
  let lifted := dispatch (handleLiftSelection rect) s in
  let dragged := dispatch (dragLayer nx ny) lifted in
  let committed := dispatch handleCommitFloatingLayer dragged in
  (forall tx ty, 0 <= tx < width s -> 0 <= ty < height s ->
     U8.get (pixels committed) (ty * width s + tx) =
     if inBox nx ny (SelectionRect.w rect) (SelectionRect.h rect) tx ty
     then U8.get (pixels s)
            ((SelectionRect.y rect + (ty - ny)) * width s
             + (SelectionRect.x rect + (tx - nx)))
     else if inBox (SelectionRect.x rect) (SelectionRect.y rect)
               (SelectionRect.w rect) (SelectionRect.h rect) tx ty
          then Some 0
          else U8.get (pixels s) (ty * width s + tx))
  /\ (nx = SelectionRect.x rect -> ny = SelectionRect.y rect ->
      pixels committed = pixels s)
  /\ history committed =
       pushed (history s) (historyIndex s) (pixels committed)
  /\ floatingLayer committed = None
  /\ backgroundSnapshot committed = None
  /\ selection committed = None.
Proof.
  intros Hfl Hwidth Hlen Hin. cbv zeta.
  destruct (lift_state s rect Hfl)
    as (Hlp & Hlfl & _ & Hlw & Hlh & Hlhist & Hlidx & _).
  set (lifted := dispatch (handleLiftSelection rect) s) in *.
  set (dragged := dispatch (dragLayer nx ny) lifted).
  assert (pixels dragged = pixels lifted /\ width dragged = width s
          /\ height dragged = height s /\ history dragged = history s
          /\ historyIndex dragged = historyIndex s
          /\ floatingLayer dragged =
               Some (FloatingLayer.mk nx ny (SelectionRect.w rect)
                       (SelectionRect.h rect)
                       (fst (liftRect rect (width s) (pixels s)))))
    as (Hdp & Hdw & Hdh & Hdhist & Hdidx & Hdfl).
  { unfold dragged, dispatch, dragLayer. rewrite Hlfl.
    cbn [pixels width height history historyIndex floatingLayer
         setFloatingLayer FloatingLayer.w FloatingLayer.h FloatingLayer.data].
    repeat split; assumption. }
  unfold dispatch, handleCommitFloatingLayer. rewrite Hdfl.
  unfold updatePixels, addToHistory, andThen.
  cbn [floatingLayer pixels history historyIndex selection backgroundSnapshot
       setPixels setHistory setHistoryIndex setSelection setFloatingLayer
       setBackgroundSnapshot].
  unfold U8.copy. rewrite Hdp, Hdw, Hdh, Hdhist, Hdidx, Hlp.
  split; [|split; [|repeat split]].
  - intros tx ty Htx Hty. now apply lift_merge_get.
  - intros -> ->. now apply lift_merge_in_place.
Qed.

Lemma X9_lift_drag_commit_moves_witness :
  let s := mkState 2 2 [1; 0; 0; 1] [[1; 0; 0; 1]] 0 SELECT VERTICAL_PAGE
             MSB_FIRST (Some (SelectionRect.mk 0 0 1 1)) None None None in
  floatingLayer
    (dispatch handleCommitFloatingLayer
       (dispatch (dragLayer 1 0)
          (dispatch (handleLiftSelection (SelectionRect.mk 0 0 1 1)) s))) =
  None.
Proof.
  cbv zeta.
  refine (proj1 (proj2 (proj2 (proj2
    (X9_lift_drag_commit_moves
       (mkState 2 2 [1; 0; 0; 1] [[1; 0; 0; 1]] 0 SELECT VERTICAL_PAGE
          MSB_FIRST (Some (SelectionRect.mk 0 0 1 1)) None None None)
       (SelectionRect.mk 0 0 1 1) 1 0 _ _ _ _)))));
    try reflexivity; unfold rectInside; simpl; lia.
Defined.

(** X10: with no layer floating, paste changes neither the pixels nor the
    history: it only creates the layer (at the selection's origin, or at
    (0,0)), stores the snapshot and selects the selection tool.  Escape
    right after it removes the layer and leaves pixels, history and
    clipboard as they were before the paste. *)
Theorem X10_paste_then_escape (s : State) (clip : ClipboardData.t) :
  clipboard s = Some clip ->
  floatingLayer s = None ->
  let pasted := dispatch handlePaste s in
  let cancelled := dispatch keyEscape pasted in
  pixels pasted = pixels s
  /\ history pasted = history s /\ historyIndex pasted = historyIndex s
  /\ tool pasted = SELECT
  /\ floatingLayer pasted =
       Some (FloatingLayer.mk
               (match selection s with
                | Some sel => SelectionRect.x sel | None => 0 end)
               (match selection s with
                | Some sel => SelectionRect.y sel | None => 0 end)
               (ClipboardData.width clip) (ClipboardData.height clip)
               (ClipboardData.pixels clip))
  /\ pixels cancelled = pixels s
  /\ history cancelled = history s /\ historyIndex cancelled = historyIndex s
  /\ floatingLayer cancelled = None
  /\ backgroundSnapshot cancelled = None
  /\ clipboard cancelled = Some clip
  /\ selection cancelled = selection s.
Proof.
  intros Hclip Hfl. cbv zeta.
  unfold dispatch, keyEscape, handlePaste, handleDiscardFloatingLayer.
  rewrite Hclip, Hfl. unfold andThen, skip, U8.copy.
  cbn [floatingLayer backgroundSnapshot setBackgroundSnapshot
       setFloatingLayer setTool].
  repeat split; assumption.
Qed.

Lemma X10_paste_then_escape_witness :
  let s := mkState 2 1 [0; 1] [[0; 1]] 0 PEN VERTICAL_PAGE MSB_FIRST None
             (Some (ClipboardData.mk 1 1 [1])) None None in
  pixels (dispatch keyEscape (dispatch handlePaste s)) = pixels s.
Proof.
  cbv zeta.
  refine (proj1 (proj2 (proj2 (proj2 (proj2 (proj2
    (X10_paste_then_escape
       (mkState 2 1 [0; 1] [[0; 1]] 0 PEN VERTICAL_PAGE MSB_FIRST None
          (Some (ClipboardData.mk 1 1 [1])) None None)
       (ClipboardData.mk 1 1 [1]) _ _)))))));
    reflexivity.
Defined.

(** ** Dimensions and import *)

(** X11: a resize (with no image file remembered) leaves a zero-filled
    buffer of [w * h] cells and an empty history with index -1: the push
    that [updatePixels] queues in the same handler is overwritten.  The
    timeout then seeds the history with that blank buffer alone, so nothing
    before the resize can be undone.  Selection, clipboard, floating layer
    and snapshot are not touched by either step. *)
Theorem X11_resize_resets_history (s : State) (w h : Z) :
  0 <= w -> 0 <= h ->
  let resized := dispatch (handleSetDimensions w h) s in
  let settled := dispatch (dimensionsTimeout w h) resized in
  width resized = w /\ height resized = h
  /\ U8.length (pixels resized) = w * h
  /\ (forall k, 0 <= k < w * h -> U8.get (pixels resized) k = Some 0)
  /\ history resized = [] /\ historyIndex resized = -1
  /\ pixels settled = pixels resized
  /\ history settled = [pixels resized] /\ historyIndex settled = 0
  /\ (floatingLayer s = None ->
      dispatch handleUndo settled = settled /\
      dispatch handleRedo settled = settled)
  /\ selection settled = selection s
  /\ clipboard settled = clipboard s
  /\ floatingLayer settled = floatingLayer s
  /\ backgroundSnapshot settled = backgroundSnapshot s.
Proof.
  intros Hw Hh. cbv zeta.
  unfold dispatch, handleSetDimensions, dimensionsTimeout, updatePixels,
    addToHistory, andThen.
  destruct (Z.ltb_spec (w * h) 0) as [Hneg | _]; [nia|].
  cbn [width height pixels history historyIndex selection clipboard
       floatingLayer backgroundSnapshot setWidth setHeight setPixels
       setHistory setHistoryIndex].
  split; [reflexivity|]. split; [reflexivity|].
  split; [apply U8_length_make; nia|].
  split; [intros k Hk; now apply U8_get_make|].
  do 5 (split; [reflexivity|]).
  split; [|repeat split].
  intros Hfl. unfold handleUndo, handleRedo.
  cbn [floatingLayer historyIndex history setHistoryIndex setHistory
       setPixels setWidth setHeight].
  rewrite Hfl. split; reflexivity.
Qed.

Lemma X11_resize_resets_history_witness :
  history (dispatch (dimensionsTimeout 2 1)
             (dispatch (handleSetDimensions 2 1) (run liftedAndMoved))) =
  [[0; 0]].
Proof.
  refine (proj1 (proj2 (proj2 (proj2 (proj2 (proj2 (proj2 (proj2
    (X11_resize_resets_history (run liftedAndMoved) 2 1 _ _))))))))); lia.
Defined.

(** X12: a resize does not end a floating edit.  When a layer floats over
    a snapshot, resizing keeps both, and Escape afterwards puts the
    snapshot taken before the resize back as the pixels, under the new
    width and height: the buffer then has the cell count of the old
    canvas.  When [w * h] is not negative the history is left empty; when
    it is negative the allocation throws, the resize changes the width and
    the height only, and the history is the one from before. *)
Theorem X12_resize_then_escape_restores_old_buffer (s : State)
    (fl : FloatingLayer.t) (snap : Uint8Array) (w h : Z) :
  floatingLayer s = Some fl ->
  backgroundSnapshot s = Some snap ->
  let resized := dispatch (handleSetDimensions w h) s in
  let cancelled := dispatch keyEscape resized in
  floatingLayer resized = Some fl
  /\ backgroundSnapshot resized = Some snap
  /\ width cancelled = w /\ height cancelled = h
  /\ pixels cancelled = snap
  /\ floatingLayer cancelled = None
  /\ backgroundSnapshot cancelled = None
  /\ (0 <= w * h ->
      U8.length (pixels resized) = w * h
      /\ history cancelled = [] /\ historyIndex cancelled = -1)
  /\ (w * h < 0 ->
      pixels resized = pixels s
      /\ history cancelled = history s
      /\ historyIndex cancelled = historyIndex s).
Proof.
  intros Hfl Hsnap. cbv zeta.
  unfold dispatch, keyEscape, handleDiscardFloatingLayer, handleSetDimensions,
    updatePixels, addToHistory, andThen, skip.
  destruct (Z.ltb_spec (w * h) 0) as [Hneg | Hpos];
    cbn [width height pixels history historyIndex floatingLayer
         backgroundSnapshot setWidth setHeight setPixels
         setHistory setHistoryIndex setFloatingLayer setBackgroundSnapshot];
    rewrite Hfl, Hsnap;
    cbn [width height pixels history historyIndex floatingLayer
         backgroundSnapshot setWidth setHeight setPixels
         setHistory setHistoryIndex setFloatingLayer setBackgroundSnapshot];
    do 7 (split; [reflexivity|]); split; intros Hwh; try lia.
  - repeat split.
  - split; [apply U8_length_make; exact Hwh|]. split; reflexivity.
Qed.

Lemma X12_resize_then_escape_restores_old_buffer_witness :
  pixels (dispatch keyEscape
            (dispatch (handleSetDimensions 8 8) (run liftedAndMoved))) =
  [1; 0].
Proof.
  refine (proj1 (proj2 (proj2 (proj2 (proj2
    (X12_resize_then_escape_restores_old_buffer (run liftedAndMoved)
       (FloatingLayer.mk 1 0 1 1 [1]) [1; 0] 8 8 _ _))))));
    vm_compute; reflexivity.
Defined.

(** X13: with a preview at hand, the import button hands the previewed
    pixels and the panel's dimensions, scan mode and byte order to the
    editor, whose history becomes that single buffer (so, with no layer
    floating, undo and redo then do nothing), and closes the panel; the
    editor's selection, clipboard and floating layer are not touched.
    Without a preview the button only runs the preview and the editor's
    state stays as it was. *)
Theorem X13_apply_import (a : App.State) (cb : CodeBlock.State) :
  let out := CodeBlock.handleApplyImport a cb in
  match CodeBlock.previewPixels cb with
  | Some p =>
      pixels (CodeBlock.app out) = p
      /\ history (CodeBlock.app out) = [p]
      /\ historyIndex (CodeBlock.app out) = 0
      /\ width (CodeBlock.app out) = CodeBlock.impWidth cb
      /\ height (CodeBlock.app out) = CodeBlock.impHeight cb
      /\ scanMode (CodeBlock.app out) = CodeBlock.impScanMode cb
      /\ byteOrder (CodeBlock.app out) = CodeBlock.impByteOrder cb
      /\ CodeBlock.isEditing (CodeBlock.panel out) = false
      /\ CodeBlock.alerted out = false
      /\ selection (CodeBlock.app out) = selection a
      /\ clipboard (CodeBlock.app out) = clipboard a
      /\ floatingLayer (CodeBlock.app out) = floatingLayer a
      /\ (floatingLayer a = None ->
          dispatch handleUndo (CodeBlock.app out) = CodeBlock.app out /\
          dispatch handleRedo (CodeBlock.app out) = CodeBlock.app out)
  | None =>
      out = CodeBlock.handlePreview a cb /\ CodeBlock.app out = a
  end.
Proof.
  cbv zeta. unfold CodeBlock.handleApplyImport.
  destruct (CodeBlock.previewPixels cb) as [p|].
  - cbn [CodeBlock.app CodeBlock.panel CodeBlock.alerted CodeBlock.isEditing
         CodeBlock.setIsEditing].
    do 12 (split; [reflexivity|]).
    intros Hfl. unfold dispatch, handleUndo, handleRedo, handleImportCode,
      andThen.
    cbn [floatingLayer historyIndex history setWidth setHeight setScanMode
         setByteOrder setHistory setHistoryIndex setPixels].
    rewrite Hfl. split; reflexivity.
  - split; [reflexivity|]. unfold CodeBlock.handlePreview.
    destruct (CodeBlock.isBlank _); [reflexivity|].
    now destruct (parseCArray _ _ _ _ _).
Qed.

Lemma X13_apply_import_witness :
  let a := freshHistory 1 1 [0] in
  let cb := CodeBlock.mkState true EmptyString 2 1 HORIZONTAL_RASTER
              LSB_FIRST (Some [1; 1]) in
  dispatch handleUndo (CodeBlock.app (CodeBlock.handleApplyImport a cb)) =
  CodeBlock.app (CodeBlock.handleApplyImport a cb).
Proof.
  cbv zeta.
  pose proof (X13_apply_import (freshHistory 1 1 [0])
    (CodeBlock.mkState true EmptyString 2 1 HORIZONTAL_RASTER LSB_FIRST
       (Some [1; 1]))) as H.
  cbv zeta in H. cbn [CodeBlock.previewPixels] in H.
  destruct H as (_ & _ & _ & _ & _ & _ & _ & _ & _ & _ & _ & _ & Hundo).
  exact (proj1 (Hundo eq_refl)).
Defined.

(** ** The preview zoom *)

(** X14: for positive integer dimensions the zoom of the import preview is
    between 1 and 6; when the bitmap is at most 200 wide and 140 high the
    zoomed bitmap fits the 200 by 140 preview box, and no larger zoom up to
    6 would. *)
Theorem X14_preview_scale_fits (impWidth impHeight : Z) :
  0 < impWidth -> 0 < impHeight ->
  let scale := previewScale impWidth impHeight in
  1 <= scale <= 6
  /\ (impWidth <= 200 -> impHeight <= 140 ->
      impWidth * scale <= 200 /\ impHeight * scale <= 140
      /\ (scale < 6 ->
          200 < impWidth * (scale + 1) \/ 140 < impHeight * (scale + 1))).
Proof.
  intros Hw Hh. cbv zeta. unfold previewScale.
  pose proof (Z.div_mod 200 impWidth ltac:(lia)) as Hdw.
  pose proof (Z.mod_pos_bound 200 impWidth Hw) as Hmw.
  pose proof (Z.div_mod 140 impHeight ltac:(lia)) as Hdh.
  pose proof (Z.mod_pos_bound 140 impHeight Hh) as Hmh.
  set (qw := 200 / impWidth) in *. set (qh := 140 / impHeight) in *.
  set (rw := 200 mod impWidth) in *. set (rh := 140 mod impHeight) in *.
  split; [lia|]. intros Hfitw Hfith.
  assert (1 <= qw) as Hqw by nia. assert (1 <= qh) as Hqh by nia.
  set (scale := Z.max 1 (Z.min qw (Z.min qh 6))).
  assert (scale <= qw /\ scale <= qh) as [Hsw Hsh] by (unfold scale; lia).
  assert (1 <= scale) as Hs1 by (unfold scale; lia).
  split; [nia|]. split; [nia|].
  intros Hsmall.
  assert (scale = qw \/ scale = qh) as [Heq | Heq] by (unfold scale in *; lia).
  - left. rewrite Heq. nia.
  - right. rewrite Heq. nia.
Qed.

Lemma X14_preview_scale_fits_witness :
  1 <= previewScale 128 64 <= 6.
Proof.
  exact (proj1 (X14_preview_scale_fits 128 64 ltac:(lia) ltac:(lia))).
Defined.

(** ** Strokes *)

Lemma drawAt_keeps (x y : Z) (shiftKey : bool) (s : State) :
  history (dispatch (drawAt x y shiftKey) s) = history s
  /\ historyIndex (dispatch (drawAt x y shiftKey) s) = historyIndex s
  /\ floatingLayer (dispatch (drawAt x y shiftKey) s) = floatingLayer s
  /\ U8.length (pixels (dispatch (drawAt x y shiftKey) s)) =
       U8.length (pixels s).
Proof.
  unfold dispatch, drawAt, updatePixels, andThen, skip, U8.copy.
  destruct (tool s);
    destruct ((0 <=? x) && (x <? width s) && (0 <=? y) && (y <? height s));
    try (repeat split; reflexivity);
    match goal with
    | |- context [bool_decide ?P] => destruct (bool_decide P)
    end;
    cbn [negb history historyIndex floatingLayer pixels setPixels];
    rewrite ?U8_length_set; repeat split.
Qed.

(** X15: a stroke is one history entry.  However many cells the pen or the
    eraser draws, the draws leave the history and its index alone, and the
    end of the stroke (with no layer floating) pushes the pixels as they
    are after the last draw, once, without changing them. *)
Theorem X15_stroke_is_one_entry (s : State) (draws : list (Z * Z * bool)) :
  floatingLayer s = None ->
  let drawn := drawAll draws s in
  let ended := dispatch handleStrokeEnd drawn in
  history drawn = history s
  /\ historyIndex drawn = historyIndex s
  /\ U8.length (pixels drawn) = U8.length (pixels s)
  /\ pixels ended = pixels drawn
  /\ history ended = pushed (history s) (historyIndex s) (pixels drawn)
  /\ last (history ended) = Some (pixels drawn)
  /\ historyIndex ended = Z.of_nat (List.length (history ended)) - 1.
Proof.
  intros Hfl. cbv zeta.
  assert (history (drawAll draws s) = history s
          /\ historyIndex (drawAll draws s) = historyIndex s
          /\ floatingLayer (drawAll draws s) = floatingLayer s
          /\ U8.length (pixels (drawAll draws s)) = U8.length (pixels s))
    as (Hh & Hi & Hf & Hl).
  { unfold drawAll. induction draws as [|d draws IH] using rev_ind.
    - repeat split.
    - rewrite fold_left_app. cbn [fold_left].
      destruct IH as (IHh & IHi & IHf & IHl).
      destruct (drawAt_keeps (fst (fst d)) (snd (fst d)) (snd d)
                  (fold_left
                     (fun s d =>
                        dispatch (drawAt (fst (fst d)) (snd (fst d)) (snd d)) s)
                     draws s)) as (Kh & Ki & Kf & Kl).
      rewrite Kh, Ki, Kf, Kl. repeat split; assumption. }
  split; [exact Hh|]. split; [exact Hi|]. split; [exact Hl|].
  unfold dispatch, handleStrokeEnd. rewrite Hf, Hfl.
  unfold addToHistory, andThen.
  cbn [pixels history historyIndex setHistory setHistoryIndex].
  rewrite Hh, Hi. repeat split. apply pushed_last.
Qed.

Lemma X15_stroke_is_one_entry_witness :
  history (dispatch handleStrokeEnd
             (drawAll [(0, 0, false); (1, 0, false)]
                (freshHistory 2 1 [0; 0]))) =
  [[0; 0]; [1; 1]].
Proof.
  refine (proj1 (proj2 (proj2 (proj2 (proj2
    (X15_stroke_is_one_entry (freshHistory 2 1 [0; 0])
       [(0, 0, false); (1, 0, false)] _)))))).
  reflexivity.
Defined.

(** ** Sizes of the floating layer and of the clipboard *)

Lemma U8_length_make_max (n : Z) : U8.length (U8.make n) = Z.max 0 n.
Proof. unfold U8.length, U8.make. rewrite length_replicate. lia. Qed.

Lemma liftRect_buffer_length_max (rect : SelectionRect.t) (width : Z)
    (pixels : Uint8Array) :
  U8.length (fst (liftRect rect width pixels)) =
  Z.max 0 (SelectionRect.w rect * SelectionRect.h rect).
Proof.
  rewrite liftRect_writes. cbn [fst].
  now rewrite applyWrites_length, U8_length_make_max.
Qed.

Lemma patchesSized_step (s : State) (e : Event) :
  patchesSized s -> patchesSized (step s e).
Proof.
  unfold patchesSized. intros [Hl Hc].
  destruct e; do 3 unfold_handlers; split_matches;
    cbn [floatingLayer clipboard setWidth setHeight setPixels setHistory
         setHistoryIndex setTool setScanMode setByteOrder setSelection
         setClipboard setFloatingLayer setBackgroundSnapshot];
    repeat match goal with
           | H : floatingLayer s = _ |- context [floatingLayer s] => rewrite H
           | H : clipboard s = _ |- context [clipboard s] => rewrite H
           end;
    (split;
     [ first
         [ exact Hl
         | intros fl Heq; discriminate Heq
         | intros fl [= <-];
           cbn [FloatingLayer.w FloatingLayer.h FloatingLayer.data];
           unfold U8.copy;
           first
             [ apply (Hl _ eq_refl)
             | apply (Hc _ eq_refl)
             | match goal with
               | H : liftRect ?r ?w ?p = (_, _) |- _ =>
                   pose proof (liftRect_buffer_length_max r w p) as Hb;
                   rewrite H in Hb; exact Hb
               end ] ]
     | first
         [ exact Hc
         | intros clip Heq; discriminate Heq
         | intros clip [= <-];
           cbn [ClipboardData.width ClipboardData.height ClipboardData.pixels];
           first
             [ apply (Hc _ eq_refl)
             | rewrite copyRect_lift; apply liftRect_buffer_length_max ] ] ]).
Qed.

Lemma patchesSized_reachable (s : State) : reachable s -> patchesSized s.
Proof.
  induction 1 as [|s e _ IH|s0 s p _ _ _ IH
                  |built s _ _ _ IH _|built s _ _ _ IH _
                  |built s _ _ _ IH _ _];
    [ split; intros ? [=] | now apply patchesSized_step | exact IH | | | ];
    destruct IH as [Hl Hc]; unfold patchesSized; memo_cases;
    (split;
    [ first
        [ exact Hl
        | intros fl Heq; discriminate Heq
        | intros fl Heq; apply Hl; congruence
        | intros fl [= <-];
          cbn [FloatingLayer.w FloatingLayer.h FloatingLayer.data];
          unfold U8.copy;
          first [apply (Hc _ eq_refl) | eapply Hc; eassumption] ]
    | first
        [ exact Hc
        | intros clip Heq; apply Hc; congruence
        | intros clip [= <-];
          cbn [ClipboardData.width ClipboardData.height ClipboardData.pixels];
          rewrite copyRect_lift; apply liftRect_buffer_length_max ] ]).
Qed.

(** X16: in every reachable state the floating layer carries exactly
    [w * h] cells and the clipboard exactly [width * height] cells (none
    when the product is negative), so commit never reads past the layer's
    data and paste never builds a layer shorter than its rectangle. *)
Theorem X16_patches_are_sized (s : State) :
  reachable s ->
  (forall fl, floatingLayer s = Some fl ->
     U8.length (FloatingLayer.data fl) =
     Z.max 0 (FloatingLayer.w fl * FloatingLayer.h fl))
  /\ (forall clip, clipboard s = Some clip ->
        U8.length (ClipboardData.pixels clip) =
        Z.max 0 (ClipboardData.width clip * ClipboardData.height clip))
  /\ (forall fl cx cy, floatingLayer s = Some fl ->
        0 <= cx < FloatingLayer.w fl -> 0 <= cy < FloatingLayer.h fl ->
        exists v,
          U8.get (FloatingLayer.data fl) (cy * FloatingLayer.w fl + cx) =
          Some v).
Proof.
  intros Hreach.
  destruct (patchesSized_reachable s Hreach) as [Hl Hc].
  split; [exact Hl|]. split; [exact Hc|].
  intros fl cx cy Hfl Hcx Hcy. apply U8_get_Some.
  rewrite (Hl fl Hfl).
  pose proof (cell_index_range (FloatingLayer.w fl) (FloatingLayer.h fl)
                cx cy Hcx Hcy). lia.
Qed.

Lemma X16_patches_are_sized_witness :
  U8.length (FloatingLayer.data (FloatingLayer.mk 1 0 1 1 [1])) =
  Z.max 0 (FloatingLayer.w (FloatingLayer.mk 1 0 1 1 [1])
           * FloatingLayer.h (FloatingLayer.mk 1 0 1 1 [1])).
Proof.
  refine (proj1 (X16_patches_are_sized (run liftedAndMoved)
                   (reachable_run liftedAndMoved))
            (FloatingLayer.mk 1 0 1 1 [1]) _).
  vm_compute. reflexivity.
Defined.
